(** * Swift/UVOT host-subtracted photometry: the calibration engine

    A shallow embedding of [SwiftPhotom/uvot.py] ([extract_photometry] and
    [output_mags]) and the properties of its count-rate corrections,
    template aggregation, science reduction and catalog output.

    Modelling conventions.
    - A numpy floating-point value is an [npfloat]: a real number or one of
      the IEEE special values [+inf], [-inf], [nan].  Arithmetic on finite
      values is exact real arithmetic (rounding, overflow and the sign of
      zero are not modelled); the special values follow IEEE-754 as numpy
      implements it: invalid operations give [nan] and division of a non-zero
      value by zero gives an infinity, with a warning and no exception.
    - A FITS binary table is the list of its rows.  numpy column arithmetic
      is elementwise, so a column expression is represented by the function
      giving its value on a row, and the array itself is the image of the
      table under that function.
    - A Python [dict] is an insertion-ordered association list with unique
      keys ([Dict]); a missing key raises [KeyError].
    - Exceptions are values of an error monad ([result]).
    - Of the figures drawn by [extract_photometry] (matplotlib) the model
      keeps what can make the function raise: [errorbar] refuses an error
      bar of negative size with a [ValueError], and [savefig] needs the
      directory [reduction/<filter>/figures] of the file it writes, which
      [create_product] makes for the filters it reduces, and raises
      [FileNotFoundError] without it.  The file system is a predicate
      telling which directories exist.  The content of the figures and the
      progress messages printed by [extract_photometry] are not modelled;
      the report printed by [output_mags] is. *)

From Stdlib Require Import Reals Lra List String Ascii ZArith Bool Permutation Sorted.
Import ListNotations.

Local Open Scope R_scope.

(** ** numpy floating-point values *)

Inductive npfloat : Type :=
| Fin (x : R)
| PInf
| NInf
| NaN.

Module Np.

Inductive sign : Type := Neg | Zero | Pos.

Definition Rsign (x : R) : sign :=
  match total_order_T x 0 with
  | inleft (left _) => Neg
  | inleft (right _) => Zero
  | inright _ => Pos
  end.

Definition sign_opp (s : sign) : sign :=
  match s with Neg => Pos | Zero => Zero | Pos => Neg end.

(** The infinity of a given sign; a zero sign marks an invalid operation
    ([0 * inf], [0 / 0]). *)
Definition inf_of_sign (s : sign) : npfloat :=
  match s with Neg => NInf | Zero => NaN | Pos => PInf end.

Definition add (a b : npfloat) : npfloat :=
  match a, b with
  | NaN, _ | _, NaN => NaN
  | Fin x, Fin y => Fin (x + y)
  | PInf, NInf | NInf, PInf => NaN
  | PInf, _ | _, PInf => PInf
  | NInf, _ | _, NInf => NInf
  end.

Definition sub (a b : npfloat) : npfloat :=
  match a, b with
  | NaN, _ | _, NaN => NaN
  | Fin x, Fin y => Fin (x - y)
  | PInf, PInf | NInf, NInf => NaN
  | PInf, _ | _, NInf => PInf
  | NInf, _ | _, PInf => NInf
  end.

Definition mul (a b : npfloat) : npfloat :=
  match a, b with
  | NaN, _ | _, NaN => NaN
  | Fin x, Fin y => Fin (x * y)
  | Fin x, PInf | PInf, Fin x => inf_of_sign (Rsign x)
  | Fin x, NInf | NInf, Fin x => inf_of_sign (sign_opp (Rsign x))
  | PInf, PInf | NInf, NInf => PInf
  | PInf, NInf | NInf, PInf => NInf
  end.

Definition div (a b : npfloat) : npfloat :=
  match a, b with
  | NaN, _ | _, NaN => NaN
  | Fin x, Fin y =>
      match Rsign y with
      | Zero => inf_of_sign (Rsign x)
      | _ => Fin (x / y)
      end
  | Fin _, PInf | Fin _, NInf => Fin 0
  | PInf, Fin y => match Rsign y with Neg => NInf | _ => PInf end
  | NInf, Fin y => match Rsign y with Neg => PInf | _ => NInf end
  | _, _ => NaN
  end.

(** [x**2] *)
Definition sq (a : npfloat) : npfloat := mul a a.

(** [np.sqrt] *)
Definition sqrt (a : npfloat) : npfloat :=
  match a with
  | Fin x => match Rsign x with Neg => NaN | _ => Fin (R_sqrt.sqrt x) end
  | PInf => PInf
  | NInf | NaN => NaN
  end.

(** [np.log] *)
Definition log (a : npfloat) : npfloat :=
  match a with
  | Fin x =>
      match Rsign x with
      | Neg => NaN
      | Zero => NInf
      | Pos => Fin (ln x)
      end
  | PInf => PInf
  | NInf | NaN => NaN
  end.

(** [np.log10] *)
Definition log10 (a : npfloat) : npfloat :=
  match a with
  | Fin x =>
      match Rsign x with
      | Neg => NaN
      | Zero => NInf
      | Pos => Fin (ln x / ln 10)
      end
  | PInf => PInf
  | NInf | NaN => NaN
  end.

(** [a >= b]: false as soon as one side is [nan]. *)
Definition ge (a b : npfloat) : bool :=
  match a, b with
  | NaN, _ | _, NaN => false
  | Fin x, Fin y => if Rle_dec y x then true else false
  | PInf, _ | _, NInf => true
  | _, _ => false
  end.

(** [a < b]: false as soon as one side is [nan]. *)
Definition lt (a b : npfloat) : bool :=
  match a, b with
  | NaN, _ | _, NaN => false
  | Fin x, Fin y => if Rlt_dec x y then true else false
  | PInf, _ | _, NInf => false
  | _, _ => true
  end.

(** Truth value of a float ([bool(x)]): everything but zero. *)
Definition truthy (a : npfloat) : bool :=
  match a with
  | Fin x => match Rsign x with Zero => false | _ => true end
  | _ => true
  end.

(** [np.sum] of an array. *)
Definition sum (l : list npfloat) : npfloat := fold_left add l (Fin 0).

End Np.

Declare Scope np_scope.
Delimit Scope np_scope with np.
Bind Scope np_scope with npfloat.
Infix "+" := Np.add : np_scope.
Infix "-" := Np.sub : np_scope.
Infix "*" := Np.mul : np_scope.
Infix "/" := Np.div : np_scope.

Coercion Fin : R >-> npfloat.

(** ** Exceptions *)

Inductive error : Type :=
| KeyError (key : string)
| IndexError
| TypeError
| ValueError
| FileNotFoundError.

Inductive result (A : Type) : Type :=
| Ok (a : A)
| Err (e : error).

Arguments Ok {A} a.
Arguments Err {A} e.

Definition bind {A B : Type} (m : result A) (k : A -> result B) : result B :=
  match m with
  | Ok a => k a
  | Err e => Err e
  end.

Notation "x <- m ;; k" := (bind m (fun x => k))
  (at level 61, m at next level, right associativity).

(** ** Python dictionaries *)

Module Dict.

Definition t (V : Type) : Type := list (string * V).

Fixpoint get {V : Type} (d : t V) (k : string) : option V :=
  match d with
  | [] => None
  | (k', v) :: d' => if String.eqb k k' then Some v else get d' k
  end.

(** [d[k] = v]: replaces the value of an existing key in place, appends a
    new key at the end. *)
Fixpoint set {V : Type} (d : t V) (k : string) (v : V) : t V :=
  match d with
  | [] => [(k, v)]
  | (k', v') :: d' =>
      if String.eqb k k' then (k', v) :: d' else (k', v') :: set d' k v
  end.

Definition keys {V : Type} (d : t V) : list string := map fst d.

(** A dict display [{k1: v1, k2: v2, ...}]. *)
Definition of_list {V : Type} (l : list (string * V)) : t V :=
  fold_left (fun d kv => set d (fst kv) (snd kv)) l [].

(** [d[k]] as an expression. *)
Definition lookup {V : Type} (d : t V) (k : string) : result V :=
  match get d k with
  | Some v => Ok v
  | None => Err (KeyError k)
  end.

End Dict.

(** ** The photometry table written by [uvotmaghist] *)

Record row : Type := {
  FILTER : string;
  TSTART : npfloat;
  TSTOP : npfloat;
  SENSCORR_FACTOR : npfloat;
  COI_SRC_RATE : npfloat;
  COI_SRC_RATE_ERR : npfloat;
  RAW_STD_RATE : npfloat;
  RAW_STD_RATE_ERR : npfloat;
  COI_STD_FACTOR : npfloat;
  COI_BKG_RATE : npfloat;
  COI_BKG_RATE_ERR : npfloat;
  STD_AREA : npfloat;
  AP_FACTOR : npfloat;
  AP_FACTOR_ERR : npfloat
}.

Definition table : Type := list row.

(** A column expression: its value on each row. *)
Definition column : Type := row -> npfloat.

(** ** Calibration constants *)

Definition ZP : Dict.t (npfloat * npfloat) :=
  Dict.of_list
    [("V"%string, (Fin 17.88, Fin 0.01)); ("B"%string, (Fin 18.98, Fin 0.02));
     ("U"%string, (Fin 19.36, Fin 0.02)); ("UVW1"%string, (Fin 18.95, Fin 0.03));
     ("UVM2"%string, (Fin 18.54, Fin 0.03)); ("UVW2"%string, (Fin 19.11, Fin 0.03))].

Definition Vega : Dict.t npfloat :=
  Dict.of_list
    [("V"%string, Fin (-0.01)); ("B"%string, Fin (-0.13)); ("U"%string, Fin 1.02);
     ("UVW1"%string, Fin 1.51); ("UVM2"%string, Fin 1.69); ("UVW2"%string, Fin 1.73)].

Definition mjdref : npfloat := Fin 51910.0.

(** ** Magnitude records *)

Inductive value : Type :=
| VStr (s : string)
| VFloat (x : npfloat)
| VBool (b : bool).

Definition record : Type := Dict.t value.

(** The number a value stands for in a numeric context. *)
Definition as_float (v : value) : result npfloat :=
  match v with
  | VFloat x => Ok x
  | VBool b => Ok (if b then Fin 1 else Fin 0)
  | VStr _ => Err TypeError
  end.

(** Truth value of a value. *)
Definition value_is_true (v : value) : bool :=
  match v with
  | VBool b => b
  | VFloat x => Np.truthy x
  | VStr s => negb (String.eqb s "")
  end.

(** A list comprehension whose element expression can raise. *)
Fixpoint mapM {A B : Type} (f : A -> result B) (l : list A) : result (list B) :=
  match l with
  | [] => Ok []
  | a :: l' => b <- f a ;; bs <- mapM f l' ;; Ok (b :: bs)
  end.

(** ** The calls on figures that can raise *)

(** [ax.errorbar(x, y, yerr=yerr)]: matplotlib raises [ValueError] when an
    error value is negative; a [nan] passes. *)
Definition errorbar (yerr : list npfloat) : result unit :=
  if existsb (fun e => Np.lt e (Fin 0)) yerr then Err ValueError else Ok tt.

Definition slash : ascii := ascii_of_nat 47.

Fixpoint ends_with_slash (s : string) : bool :=
  match s with
  | EmptyString => false
  | String c EmptyString => Ascii.eqb c slash
  | String _ s' => ends_with_slash s'
  end.

(** [os.path.join(a, b)] on POSIX paths. *)
Definition os_path_join (a b : string) : string :=
  match b with
  | String c _ =>
      if Ascii.eqb c slash then b
      else if String.eqb a "" || ends_with_slash a then (a ++ b)%string
      else (a ++ String slash b)%string
  | EmptyString =>
      if String.eqb a "" || ends_with_slash a then a
      else (a ++ String slash EmptyString)%string
  end.

(** [fig.savefig(out_fig)] for a file written into the directory [dir].
    The name of the file is the name of the table file with another ending
    and holds no [/], so that [dir] is the directory of [out_fig];
    [isdir] tells which directories exist. *)
Definition savefig (isdir : string -> bool) (dir : string) : result unit :=
  if isdir dir then Ok tt else Err FileNotFoundError.

(** ** [extract_photometry] *)

(** Truth value of a Python integer. *)
Definition is_true (z : Z) : bool := negb (Z.eqb z 0).

(** The state threaded through the loops of [extract_photometry]: the flag
    [template], the template count rates per aperture label, and the
    catalog [mag] under construction. *)
Record state : Type := {
  template : Z;
  BCR_temp : Dict.t npfloat;
  BCRe_temp : Dict.t npfloat;
  mag : Dict.t (list record)
}.

(** The long-term detector sensitivity correction factor. *)
Definition SC : column := SENSCORR_FACTOR.

(** Count rate in the user defined aperture. *)
Definition S3BCR : column := fun dd => (COI_SRC_RATE dd * SC dd)%np.

(** Its error; [template_] is the flag [template] and [i] the index of the
    file being read (0: template file, 1: science file). *)
Definition S3BCRe (template_ : Z) (i : nat) : column := fun dd =>
  if is_true template_ && Nat.eqb i 1
  then Np.sqrt (Np.sq (COI_SRC_RATE_ERR dd) + Np.sq (S3BCR dd * 0.03))%np
  else COI_SRC_RATE_ERR dd.

(** Count rate in the 5 arcsec aperture. *)
Definition S5CR : column := fun dd => (RAW_STD_RATE dd * COI_STD_FACTOR dd)%np.

Definition S5CRe : column := fun dd => (RAW_STD_RATE_ERR dd * COI_STD_FACTOR dd)%np.

Definition S5BCR : column := fun dd =>
  ((RAW_STD_RATE dd * COI_STD_FACTOR dd * SC dd)
   - (COI_BKG_RATE dd * SC dd * STD_AREA dd))%np.

Definition S5BCRe (template_ : Z) (i : nat) : column := fun dd =>
  if is_true template_ && Nat.eqb i 1
  then Np.sqrt (Np.sq (S5CRe dd) + Np.sq (S5CR dd * 0.03)
                + Np.sq (COI_BKG_RATE_ERR dd * STD_AREA dd))%np
  else Np.sqrt (Np.sq (S5CRe dd) + Np.sq (COI_BKG_RATE_ERR dd * STD_AREA dd))%np.

(** Weighted average of the template fluxes: the values stored in
    [BCR_temp[label]] and [BCRe_temp[label]]. *)
Definition weighted_average (dd : table) (BCR BCRe : column) : npfloat * npfloat :=
  ((Np.sum (map (fun r => BCR r / Np.sq (BCRe r)) dd)
    / Np.sum (map (fun r => 1 / Np.sq (BCRe r)) dd))%np,
   Np.sqrt (1 / Np.sum (map (fun r => 1 / Np.sq (BCRe r)) dd))%np).

Definition mjd : column := fun dd =>
  (mjdref + (TSTART dd + TSTOP dd) / 2 / 86400)%np.

(** Galaxy-subtracted rate and error, given the template values of the
    aperture. *)
Definition BCGR (BCR : column) (BCR_t : npfloat) : column :=
  fun dd => (BCR dd - BCR_t)%np.

Definition BCGRe (BCRe : column) (BCRe_t : npfloat) : column :=
  fun dd => Np.sqrt (Np.sq (BCRe dd) + Np.sq BCRe_t)%np.

(** Aperture correction, applied when the label is the user aperture's. *)
Definition BCGAR (user_ap label : string) (BCR : column) (BCR_t : npfloat) : column :=
  fun dd =>
    if String.eqb label user_ap
    then (BCGR BCR BCR_t dd * AP_FACTOR dd)%np
    else BCGR BCR BCR_t dd.

Definition BCGARe (user_ap label : string) (BCRe : column) (BCRe_t : npfloat) : column :=
  fun dd =>
    if String.eqb label user_ap
    then (BCGRe BCRe BCRe_t dd * AP_FACTOR_ERR dd)%np
    else BCGRe BCRe BCRe_t dd.

(** Significance and 3 sigma upper limit. *)
Definition BCGARs (rate err : column) : column := fun dd => (rate dd / err dd)%np.

Definition BCGAMl (err : column) (zp vega : npfloat) : column :=
  fun dd => ((-2.5 * Np.log10 (3 * err dd)) + zp - vega)%np.

(** The dictionary appended to [mag[label]] for row [dd] of the science
    table, with its [upper_limit], [mag] and [mag_err] items set. *)
Definition magnitude_entry (filter mag_sys : string) (template_ : Z)
    (zp : npfloat * npfloat) (vega _det_limit : npfloat)
    (rate err : column) (dd : row) : record :=
  let entry := Dict.of_list
    [("filter"%string, VStr filter);
     ("aperture_correction"%string, VFloat (AP_FACTOR dd));
     ("coincidence_loss_correction"%string, VFloat (COI_STD_FACTOR dd));
     ("mag_sys"%string, VStr mag_sys);
     ("mag_limit"%string, VFloat (BCGAMl err (fst zp) vega dd));
     ("template_subtracted"%string, VBool (is_true template_));
     ("mjd"%string, VFloat (mjd dd))] in
  let '(BCGAM, BCGAMe, upper) :=
    if Np.ge (BCGARs rate err dd) _det_limit
    then ((-2.5 * Np.log10 (rate dd) + fst zp - vega)%np,
          Np.sqrt (Np.sq ((2.5 / Np.log 10) * (err dd / rate dd)) + Np.sq (snd zp))%np,
          false)
    else (BCGAMl err (fst zp) vega dd, Fin 0.2, true) in
  let entry := Dict.set entry "upper_limit" (VBool upper) in
  let entry := Dict.set entry "mag" (VFloat BCGAM) in
  Dict.set entry "mag_err" (VFloat BCGAMe).

(** [mag[label].append(e)] *)
Definition append_mag (st : state) (label : string) (e : record) : result state :=
  l <- Dict.lookup (mag st) label ;;
  Ok {| template := template st; BCR_temp := BCR_temp st;
        BCRe_temp := BCRe_temp st;
        mag := Dict.set (mag st) label (l ++ [e]) |}.

(** Body of the loop over the two apertures, for the template file: the
    rates are drawn with their error bars, then averaged. *)
Definition template_aperture (dd : table) (st : state)
    (BCR BCRe : column) (label : string) : result state :=
  _ <- errorbar (map BCRe dd) ;;
  Ok {| template := template st;
        BCR_temp := Dict.set (BCR_temp st) label (fst (weighted_average dd BCR BCRe));
        BCRe_temp := Dict.set (BCRe_temp st) label (snd (weighted_average dd BCR BCRe));
        mag := mag st |}.

(** The rate before subtraction with its aperture correction, and the
    error of the magnitude before subtraction, which are drawn when there
    is a template. *)
Definition BCAR (user_ap label : string) (BCR : column) : column :=
  fun dd => if String.eqb label user_ap then (BCR dd * AP_FACTOR dd)%np else BCR dd.

Definition or_mage (user_ap label : string) (BCR BCRe : column)
    (zp : npfloat * npfloat) : column :=
  fun dd =>
    Np.sqrt (Np.sq ((2.5 / Np.log 10) * (BCRe dd / BCAR user_ap label BCR dd))
             + Np.sq (snd zp))%np.

(** [[[ep['mjd'], ep['mag'], ep['mag_err']] for ep in eps if ...]]: the
    epochs whose [upper_limit] has the truth value [flag]. *)
Fixpoint select_epochs (flag : bool) (eps : list record)
  : result (list (value * value * value)) :=
  match eps with
  | [] => Ok []
  | ep :: eps' =>
      upper <- Dict.lookup ep "upper_limit" ;;
      if Bool.eqb (value_is_true upper) flag
      then mjd_ <- Dict.lookup ep "mjd" ;;
           mag_ <- Dict.lookup ep "mag" ;;
           mag_err <- Dict.lookup ep "mag_err" ;;
           rest <- select_epochs flag eps' ;;
           Ok ((mjd_, mag_, mag_err) :: rest)
      else select_epochs flag eps'
  end.

(** The figure of the magnitudes of an aperture: the detections of
    [mag[label]] are drawn with their errors, the upper limits with the
    lower error [-1 * mag_err] and the upper error 0.  The selections are
    sorted before they are drawn, which does not change the set of error
    values that [errorbar] receives. *)
Definition plot_magnitudes (st : state) (label : string) : result state :=
  eps <- Dict.lookup (mag st) label ;;
  detections <- select_epochs false eps ;;
  eps <- Dict.lookup (mag st) label ;;
  non_detections <- select_epochs true eps ;;
  _ <- match detections with
       | [] => Ok tt
       | _ :: _ => ee <- mapM (fun ep => as_float (snd ep)) detections ;;
                   errorbar ee
       end ;;
  _ <- match non_detections with
       | [] => Ok tt
       | _ :: _ => ee <- mapM (fun ep => as_float (snd ep)) non_detections ;;
                   errorbar (map (fun e => (Fin (-1) * e)%np) ee
                             ++ map (fun _ => Fin 0) ee)
       end ;;
  Ok st.

(** Body of the loop over the two apertures, for the science file. *)
Definition science_aperture (filter mag_sys : string) (Vega_corr : Dict.t npfloat)
    (_det_limit : npfloat) (user_ap : string) (dd : table) (st : state)
    (BCR BCRe : column) (label : string) : result state :=
  _ <- errorbar (map BCRe dd) ;;
  BCR_t <- Dict.lookup (BCR_temp st) label ;;
  BCRe_t <- Dict.lookup (BCRe_temp st) label ;;
  _ <- (if is_true (template st)
        then (* magnitudes before subtraction *)
             zp <- Dict.lookup ZP filter ;;
             _ <- Dict.lookup Vega_corr filter ;;
             errorbar (map (or_mage user_ap label BCR BCRe zp) dd)
        else Ok tt) ;;
  zp <- Dict.lookup ZP filter ;;
  vega <- Dict.lookup Vega_corr filter ;;
  st' <- fold_left
           (fun acc dd_j =>
              st' <- acc ;;
              append_mag st' label
                (magnitude_entry filter mag_sys (template st') zp vega _det_limit
                   (BCGAR user_ap label BCR BCR_t)
                   (BCGARe user_ap label BCRe BCRe_t) dd_j))
           dd (Ok st) ;;
  plot_magnitudes st' label.

(** The directory of the figures of a filter. *)
Definition fig_dir (filter : string) : string :=
  os_path_join (os_path_join "reduction" filter) "figures".

(** Body of the loop over the two files; [isdir] is the file system. *)
Definition process_file (isdir : string -> bool) (mag_sys : string)
    (Vega_corr : Dict.t npfloat) (_det_limit : npfloat) (user_ap : string)
    (st : state) (i : nat) (file : option table) : result state :=
  match file with
  | None =>
      (* no template: nothing will be subtracted *)
      Ok {| template := 0;
            BCR_temp := Dict.of_list [(user_ap, Fin 0); ("5_arcsec"%string, Fin 0)];
            BCRe_temp := Dict.of_list [(user_ap, Fin 0); ("5_arcsec"%string, Fin 0)];
            mag := mag st |}
  | Some dd =>
      filter <- match dd with
                | [] => Err IndexError
                | dd_0 :: _ => Ok (FILTER dd_0)
                end ;;
      st' <- fold_left
               (fun acc ap =>
                  st' <- acc ;;
                  let '(BCR, BCRe, label) := ap in
                  if Nat.eqb i 0
                  then template_aperture dd st' BCR BCRe label
                  else science_aperture filter mag_sys Vega_corr _det_limit user_ap
                         dd st' BCR BCRe label)
               [(S3BCR, S3BCRe (template st) i, user_ap);
                (S5BCR, S5BCRe (template st) i, "5_arcsec"%string)]
               (Ok st) ;;
      _ <- (if Nat.eqb i 1
            then _ <- savefig isdir (fig_dir filter) ;;
                 if is_true (template st') then savefig isdir (fig_dir filter)
                 else Ok tt
            else Ok tt) ;;
      _ <- savefig isdir (fig_dir filter) ;;
      Ok st'
  end.

Definition extract_photometry (isdir : string -> bool) (_phot_file : option table)
    (_ab : Z) (_det_limit : npfloat) (_ap_size : string)
    (_templ_file : option table)
  : result (Dict.t (list record)) :=
  (* [template] is unbound when there is no template file; it is then
     assigned 0 while the first file is processed, before it is read *)
  let template_ := match _templ_file with Some _ => 1%Z | None => 0%Z end in
  let '(Vega_corr, mag_sys) :=
    if Z.eqb _ab 1
    then (Dict.of_list
            [("V"%string, Fin 0); ("B"%string, Fin 0); ("U"%string, Fin 0);
             ("UVW1"%string, Fin 0); ("UVM2"%string, Fin 0); ("UVW2"%string, Fin 0)],
          "AB"%string)
    else (Vega, "Vega"%string) in
  let user_ap := (_ap_size ++ "_arcsec")%string in
  let st := {| template := template_; BCR_temp := []; BCRe_temp := [];
               mag := Dict.of_list [(user_ap, []); ("5_arcsec"%string, [])] |} in
  st' <- fold_left
           (fun acc i_file =>
              st' <- acc ;;
              process_file isdir mag_sys Vega_corr _det_limit user_ap st'
                (fst i_file) (snd i_file))
           [(0%nat, _templ_file); (1%nat, _phot_file)]
           (Ok st) ;;
  Ok (mag st').

(** ** [output_mags] *)

(** JSON text, as [json.dumps] lays it out for a list of dictionaries: an
    array of objects, each listing its members in the insertion order of
    the dictionary. *)
Inductive json_value : Type :=
| JString (s : string)
| JNumber (x : npfloat)
| JBoolean (b : bool).

Definition json_object : Type := list (string * json_value).

Definition json : Type := list json_object.

Definition json_of_value (v : value) : json_value :=
  match v with
  | VStr s => JString s
  | VFloat x => JNumber x
  | VBool b => JBoolean b
  end.

Definition json_of_record (r : record) : json_object :=
  map (fun kv => (fst kv, json_of_value (snd kv))) r.

(** [json.dumps] of a list of records. *)
Definition json_dumps (l : list record) : json := map json_of_record l.

(** One argument of a [print] call: a string, or a number formatted with
    ['%.<digits>f']. *)
Inductive token : Type :=
| TStr (s : string)
| TFixed (digits : nat) (x : npfloat)
| TValue (v : value).

(** The arguments of one [print] call, which writes them on one line
    separated by blanks. *)
Definition line : Type := list token.

(** ['%.<digits>f' % v] *)
Definition format_fixed (digits : nat) (v : value) : result token :=
  x <- as_float v ;; Ok (TFixed digits x).

(** Stable insertion of a keyed element into a sorted list: it goes before
    the first element whose key is not smaller. *)
Fixpoint insert_sorted {A : Type} (kx : npfloat * A) (l : list (npfloat * A))
  : list (npfloat * A) :=
  match l with
  | [] => [kx]
  | ky :: l' =>
      if Np.lt (fst ky) (fst kx) then ky :: insert_sorted kx l' else kx :: l
  end.

(** The stable sort of a list of keyed elements.  It is Python's [sorted]
    whenever the keys are totally ordered by [<], that is whenever none is
    [nan]. *)
Definition sort_keyed {A : Type} (l : list (npfloat * A)) : list (npfloat * A) :=
  fold_right insert_sorted [] l.

(** [sorted(l, key=lambda x: x['mjd'])] *)
Definition sorted_by_mjd (l : list record) : result (list record) :=
  ks <- mapM (fun x => Dict.lookup x "mjd") l ;;
  ks <- mapM as_float ks ;;
  Ok (map snd (sort_keyed (combine ks l))).

Fixpoint repeat_string (s : string) (n : nat) : string :=
  match n with
  | O => EmptyString
  | S n' => (s ++ repeat_string s n')%string
  end.

Definition newline : string := String (ascii_of_nat 10) EmptyString.

(** The line printed for one record of the 5 arcsec catalog. *)
Definition report_line (photom : record) : result line :=
  mjd_ <- Dict.lookup photom "mjd" ;;
  filt <- Dict.lookup photom "filter" ;;
  upper <- Dict.lookup photom "upper_limit" ;;
  mag_magerr <-
    (if value_is_true upper
     then (m <- Dict.lookup photom "mag_limit" ;; Ok (m, VFloat (Fin 0.0)))
     else (m <- Dict.lookup photom "mag" ;;
           e <- Dict.lookup photom "mag_err" ;; Ok (m, e))) ;;
  mjd_ <- format_fixed 5 mjd_ ;;
  mag_ <- format_fixed 4 (fst mag_magerr) ;;
  magerr <- format_fixed 4 (snd mag_magerr) ;;
  Ok [mjd_; TValue filt; mag_; magerr].

(** [output_mags]: from the catalog, the files on disk and nothing printed
    yet, to the catalog as the function leaves it, the files on disk and
    the lines printed.  A file system is a dictionary from paths to
    contents. *)
Definition output_mags (_mag : Dict.t (list record)) (_ap_size : string)
    (files : Dict.t json)
  : result (Dict.t (list record) * Dict.t json * list line) :=
  let user_ap := (_ap_size ++ "_arcsec")%string in
  user_mags <- Dict.lookup _mag user_ap ;;
  let files :=
    Dict.set files ("reduction/" ++ _ap_size ++ "_arcsec_photometry.json")%string
      (json_dumps user_mags) in
  std_mags <- Dict.lookup _mag "5_arcsec" ;;
  let files :=
    Dict.set files "reduction/5_arcsec_photometry.json"%string
      (json_dumps std_mags) in
  let out :=
    [[TStr ("5-arcsec output photometry:" ++ newline)%string];
     [TStr (repeat_string "#" 80 ++ newline ++ newline)%string]] in
  std_mags <- Dict.lookup _mag "5_arcsec" ;;
  std_sorted <- sorted_by_mjd std_mags ;;
  let _mag := Dict.set _mag "5_arcsec" std_sorted in
  photoms <- Dict.lookup _mag "5_arcsec" ;;
  lines <- mapM report_line photoms ;;
  Ok (_mag, files, (out ++ lines)%list).

(** ** Auxiliary definitions for the statements *)

(** The condition under which the 3% systematic is added: a template exists
    and the file being read is the science file. *)
Definition science_with_template (template_ : Z) (i : nat) : bool :=
  is_true template_ && Nat.eqb i 1.

(** A row with finite entries, for examples. *)
Definition finite_row (filter : string)
    (tstart tstop sc src src_err std std_err coi bkg bkg_err area apf apf_err : R)
  : row :=
  {| FILTER := filter; TSTART := Fin tstart; TSTOP := Fin tstop;
     SENSCORR_FACTOR := Fin sc;
     COI_SRC_RATE := Fin src; COI_SRC_RATE_ERR := Fin src_err;
     RAW_STD_RATE := Fin std; RAW_STD_RATE_ERR := Fin std_err;
     COI_STD_FACTOR := Fin coi;
     COI_BKG_RATE := Fin bkg; COI_BKG_RATE_ERR := Fin bkg_err;
     STD_AREA := Fin area;
     AP_FACTOR := Fin apf; AP_FACTOR_ERR := Fin apf_err |}.

(** The same row with another sensitivity correction factor. *)
Definition with_SENSCORR_FACTOR (dd : row) (s : npfloat) : row :=
  {| FILTER := FILTER dd; TSTART := TSTART dd; TSTOP := TSTOP dd;
     SENSCORR_FACTOR := s;
     COI_SRC_RATE := COI_SRC_RATE dd; COI_SRC_RATE_ERR := COI_SRC_RATE_ERR dd;
     RAW_STD_RATE := RAW_STD_RATE dd; RAW_STD_RATE_ERR := RAW_STD_RATE_ERR dd;
     COI_STD_FACTOR := COI_STD_FACTOR dd;
     COI_BKG_RATE := COI_BKG_RATE dd; COI_BKG_RATE_ERR := COI_BKG_RATE_ERR dd;
     STD_AREA := STD_AREA dd;
     AP_FACTOR := AP_FACTOR dd; AP_FACTOR_ERR := AP_FACTOR_ERR dd |}.


(** Sum of a real-valued quantity over the rows of a table. *)
Definition Rsum {A : Type} (f : A -> R) (l : list A) : R :=
  fold_right (fun a acc => f a + acc) 0 l.

(** The values [Vega_corr] and [mag_sys] take in [extract_photometry]. *)
Definition Vega_corr_of (_ab : Z) : Dict.t npfloat :=
  if Z.eqb _ab 1
  then Dict.of_list
         [("V"%string, Fin 0); ("B"%string, Fin 0); ("U"%string, Fin 0);
          ("UVW1"%string, Fin 0); ("UVM2"%string, Fin 0); ("UVW2"%string, Fin 0)]
  else Vega.

Definition mag_sys_of (_ab : Z) : string :=
  if Z.eqb _ab 1 then "AB"%string else "Vega"%string.

(** The value of the flag [template] while the files are read. *)
Definition template_flag (_templ_file : option table) : Z :=
  match _templ_file with Some _ => 1%Z | None => 0%Z end.

(** The template rate and error that [BCR_temp[label]] and
    [BCRe_temp[label]] hold when the science file is read.  The entry of
    the label [5_arcsec] is written last, by the 5 arcsec aperture. *)
Definition template_reference (label : string) (_templ_file : option table)
  : npfloat * npfloat :=
  match _templ_file with
  | None => (Fin 0, Fin 0)
  | Some dd =>
      if String.eqb label "5_arcsec"
      then weighted_average dd S5BCR (S5BCRe 1 0)
      else weighted_average dd S3BCR (S3BCRe 1 0)
  end.

(** The records of one aperture: the entries appended to [mag[label]] while
    the science table [dd] is read with columns [BCR] and [BCRe]. *)
Definition aperture_records (_ab : Z) (_det_limit : npfloat) (user_ap : string)
    (_templ_file : option table) (zp : npfloat * npfloat) (vega : npfloat)
    (dd : table) (filter : string) (BCR BCRe : column) (label : string)
  : list record :=
  map (magnitude_entry filter (mag_sys_of _ab) (template_flag _templ_file)
         zp vega _det_limit
         (BCGAR user_ap label BCR (fst (template_reference label _templ_file)))
         (BCGARe user_ap label BCRe (snd (template_reference label _templ_file))))
      dd.

(** The records of the user aperture and of the 5 arcsec aperture. *)
Definition user_records (_ab : Z) (_det_limit : npfloat) (_ap_size : string)
    (_templ_file : option table) (zp : npfloat * npfloat) (vega : npfloat)
    (dd : table) (filter : string) : list record :=
  aperture_records _ab _det_limit (_ap_size ++ "_arcsec")%string _templ_file
    zp vega dd filter S3BCR (S3BCRe (template_flag _templ_file) 1)
    (_ap_size ++ "_arcsec")%string.

Definition std_records (_ab : Z) (_det_limit : npfloat) (_ap_size : string)
    (_templ_file : option table) (zp : npfloat * npfloat) (vega : npfloat)
    (dd : table) (filter : string) : list record :=
  aperture_records _ab _det_limit (_ap_size ++ "_arcsec")%string _templ_file
    zp vega dd filter S5BCR (S5BCRe (template_flag _templ_file) 1)
    "5_arcsec"%string.

(** The catalog returned by [extract_photometry], given the records of the
    two apertures: one list per label, a single list when the two labels
    coincide. *)
Definition catalog_of (_ap_size : string) (U S : list record)
  : Dict.t (list record) :=
  if String.eqb "5_arcsec" (_ap_size ++ "_arcsec")
  then [("5_arcsec"%string, (U ++ S)%list)]
  else [((_ap_size ++ "_arcsec")%string, U); ("5_arcsec"%string, S)].

(** A file system in which every directory exists. *)
Definition every_directory : string -> bool := fun _ => true.

(** What the figures of the template table raise: its rates in the user
    aperture are drawn with the errors of the table, and the figure is
    saved in the directory of the filter of its first row. *)
Definition template_figures (isdir : string -> bool) (_templ_file : option table)
  : result unit :=
  match _templ_file with
  | None => Ok tt
  | Some [] => Err IndexError
  | Some (t_0 :: t) =>
      _ <- errorbar (map (S3BCRe 1 0) (t_0 :: t)) ;;
      savefig isdir (fig_dir (FILTER t_0))
  end.

(** Some record of [l] is an upper limit. *)
Definition upper_limits (l : list record) : bool :=
  existsb (fun rec =>
             match Dict.get rec "upper_limit" with
             | Some v => value_is_true v
             | None => false
             end) l.

(** What the figures of the science table raise, given the records [U] and
    [S] of the two apertures: the rates of the user aperture are drawn
    with their errors, the upper limits of each aperture with a negative
    error, and the figures are saved in the directory of the filter. *)
Definition science_figures (isdir : string -> bool) (_templ_file : option table)
    (dd : table) (filter : string) (U S : list record) : result unit :=
  _ <- errorbar (map (S3BCRe (match _templ_file with Some _ => 1%Z | None => 0%Z end) 1)
                   dd) ;;
  _ <- (if upper_limits U then Err ValueError else Ok tt) ;;
  _ <- (if upper_limits S then Err ValueError else Ok tt) ;;
  savefig isdir (fig_dir filter).

(** The aperture-corrected, template-subtracted rate and error of the two
    apertures, as [extract_photometry] computes them for a row of the
    science table. *)
Definition user_ap_rate (_ap_size : string) (_templ_file : option table) : column :=
  BCGAR (_ap_size ++ "_arcsec") (_ap_size ++ "_arcsec") S3BCR
    (fst (template_reference (_ap_size ++ "_arcsec") _templ_file)).

Definition user_ap_err (_ap_size : string) (_templ_file : option table) : column :=
  BCGARe (_ap_size ++ "_arcsec") (_ap_size ++ "_arcsec")
    (S3BCRe (template_flag _templ_file) 1)
    (snd (template_reference (_ap_size ++ "_arcsec") _templ_file)).

Definition std_ap_rate (_ap_size : string) (_templ_file : option table) : column :=
  BCGAR (_ap_size ++ "_arcsec") "5_arcsec" S5BCR
    (fst (template_reference "5_arcsec" _templ_file)).

Definition std_ap_err (_ap_size : string) (_templ_file : option table) : column :=
  BCGARe (_ap_size ++ "_arcsec") "5_arcsec"
    (S5BCRe (template_flag _templ_file) 1)
    (snd (template_reference "5_arcsec" _templ_file)).

(** An epoch that is a detection in both apertures. *)
Definition detected (_det_limit : npfloat) (_ap_size : string)
    (_templ_file : option table) (dd_j : row) : Prop :=
  Np.ge (user_ap_rate _ap_size _templ_file dd_j
         / user_ap_err _ap_size _templ_file dd_j)%np _det_limit = true /\
  Np.ge (std_ap_rate _ap_size _templ_file dd_j
         / std_ap_err _ap_size _templ_file dd_j)%np _det_limit = true.

(** The magnitude formulas as the specification words them. *)
Definition spec_mag (ap_rate zero_point vega_offset : npfloat) : npfloat :=
  (-2.5 * Np.log10 ap_rate + zero_point - vega_offset)%np.

Definition spec_mag_err (ap_rate ap_err zero_point_err : npfloat) : npfloat :=
  Np.sqrt (Np.sq (Fin (2.5 / ln 10) * (ap_err / ap_rate)) + Np.sq zero_point_err)%np.

Definition spec_mag_limit (ap_err zero_point vega_offset : npfloat) : npfloat :=
  (-2.5 * Np.log10 (3 * ap_err) + zero_point - vega_offset)%np.

(** A record classified as the specification says, from the rate and the
    error of its epoch. *)
Definition classified (rec : record)
    (ap_rate ap_err zero_point zero_point_err vega_offset detection_threshold : npfloat)
  : Prop :=
  Dict.get rec "mag_limit"
    = Some (VFloat (spec_mag_limit ap_err zero_point vega_offset)) /\
  if Np.ge (ap_rate / ap_err)%np detection_threshold
  then Dict.get rec "upper_limit" = Some (VBool false) /\
       Dict.get rec "mag" = Some (VFloat (spec_mag ap_rate zero_point vega_offset)) /\
       Dict.get rec "mag_err"
         = Some (VFloat (spec_mag_err ap_rate ap_err zero_point_err))
  else Dict.get rec "upper_limit" = Some (VBool true) /\
       Dict.get rec "mag"
         = Some (VFloat (spec_mag_limit ap_err zero_point vega_offset)) /\
       Dict.get rec "mag_err" = Some (VFloat (Fin 0.2)).

(** A science table of one B-band epoch, for examples. *)
Definition example_row : row := finite_row "B" 0 0 2 10 1 9 1 1 1 1 1 1 1.

(** A science epoch whose aperture correction factors differ from 1. *)
Definition corrected_row : row := finite_row "B" 0 0 1 10 1 10 1 1 0 0 1 2 3.

(** A science epoch below three sigma in the user aperture. *)
Definition faint_row : row := finite_row "B" 0 0 1 2 1 10 1 1 0 0 1 1 1.

(** A science epoch whose rate in the user aperture is not a number. *)
Definition nan_row : row :=
  {| FILTER := "B"; TSTART := Fin 0; TSTOP := Fin 0; SENSCORR_FACTOR := Fin 1;
     COI_SRC_RATE := NaN; COI_SRC_RATE_ERR := Fin 1;
     RAW_STD_RATE := Fin 10; RAW_STD_RATE_ERR := Fin 1; COI_STD_FACTOR := Fin 1;
     COI_BKG_RATE := Fin 0; COI_BKG_RATE_ERR := Fin 0; STD_AREA := Fin 1;
     AP_FACTOR := Fin 1; AP_FACTOR_ERR := Fin 1 |}.

(** A science epoch with a negative net count rate in the user aperture. *)
Definition nonphysical_row : row := finite_row "B" 0 0 1 (-1) 1 10 1 1 0 0 1 1 1.

(** An epoch of the user aperture whose detection branch is taken although
    its rate is not positive. *)
Definition nonphysical_detection (_det_limit : npfloat) (_ap_size : string)
    (_templ_file : option table) (dd_j : row) : Prop :=
  exists a : R,
    user_ap_rate _ap_size _templ_file dd_j = Fin a /\ a <= 0 /\
    Np.ge (user_ap_rate _ap_size _templ_file dd_j
           / user_ap_err _ap_size _templ_file dd_j)%np _det_limit = true.

(** The statement that such an epoch makes the reduction fail. *)
Definition fails_on_nonphysical_flux (isdir : string -> bool) (_phot_file : table)
    (_ab : Z) (_det_limit : npfloat) (_ap_size : string)
    (_templ_file : option table) : Prop :=
  (exists dd_j, In dd_j _phot_file /\
                nonphysical_detection _det_limit _ap_size _templ_file dd_j) ->
  exists e, extract_photometry isdir (Some _phot_file) _ab _det_limit _ap_size
              _templ_file = Err e.

(** The magnitude emitted for a detection whose rate [a] is not positive. *)
Definition nonphysical_mag (a : R) : npfloat :=
  if Rlt_dec a 0 then NaN else PInf.

(** The record with the ten items of a magnitude entry, in the order in
    which [extract_photometry] sets them. *)
Definition record_of (filter mag_sys : string)
    (aperture_correction coincidence_loss_correction mag_limit mjd_ : npfloat)
    (template_subtracted upper_limit : bool) (mag_ mag_err : npfloat) : record :=
  [("filter"%string, VStr filter);
   ("aperture_correction"%string, VFloat aperture_correction);
   ("coincidence_loss_correction"%string, VFloat coincidence_loss_correction);
   ("mag_sys"%string, VStr mag_sys);
   ("mag_limit"%string, VFloat mag_limit);
   ("template_subtracted"%string, VBool template_subtracted);
   ("mjd"%string, VFloat mjd_);
   ("upper_limit"%string, VBool upper_limit);
   ("mag"%string, VFloat mag_);
   ("mag_err"%string, VFloat mag_err)].

Definition magnitude_record (r : record) : Prop :=
  exists filter mag_sys apc clc mag_limit mjd_ ts ul mag_ mag_err,
    r = record_of filter mag_sys apc clc mag_limit mjd_ ts ul mag_ mag_err.

(** A record as [extract_photometry] builds it: an upper limit has the error
    0.2, a detection an error that is not negative. *)
Definition built_record (r : record) : Prop :=
  exists filter mag_sys apc clc mag_limit mjd_ ts ul mag_ mag_err,
    r = record_of filter mag_sys apc clc mag_limit mjd_ ts ul mag_ mag_err /\
    if ul : bool then mag_err = Fin 0.2 else Np.lt mag_err (Fin 0) = false.

(** The keys of the records built by [extract_photometry], and the field
    names of the data model of the specification. *)
Definition record_fields : list string :=
  ["filter"; "aperture_correction"; "coincidence_loss_correction"; "mag_sys";
   "mag_limit"; "template_subtracted"; "mjd"; "upper_limit"; "mag";
   "mag_err"]%string.

Definition spec_fields : list string :=
  ["filter"; "epoch_mjd"; "aperture_correction"; "coincidence_loss_correction";
   "magnitude_system"; "mag"; "mag_err"; "mag_limit"; "is_upper_limit";
   "template_subtracted"]%string.

(** The items of a record, read at their expected types. *)
Definition float_item (r : record) (k : string) : npfloat :=
  match Dict.get r k with Some (VFloat x) => x | _ => NaN end.

Definition bool_item (r : record) (k : string) : bool :=
  match Dict.get r k with Some v => value_is_true v | None => false end.

Definition item (r : record) (k : string) : value :=
  match Dict.get r k with Some v => v | None => VStr "" end.

Definition mjd_of (r : record) : npfloat := float_item r "mjd".

(** Stable insertion sort of records by their [mjd]. *)
Fixpoint insert_by_mjd (x : record) (l : list record) : list record :=
  match l with
  | [] => [x]
  | y :: l' =>
      if Np.lt (mjd_of y) (mjd_of x) then y :: insert_by_mjd x l' else x :: l
  end.

Definition chronological (l : list record) : list record :=
  fold_right insert_by_mjd [] l.

(** [l] is in ascending order of [mjd]. *)
Definition ascending (l : list record) : Prop :=
  StronglySorted (fun r1 r2 => Np.lt (mjd_of r2) (mjd_of r1) = false) l.

(** The records of [l] whose [mjd] is the real number [x], in their order. *)
Definition at_epoch (x : R) (l : list record) : list record :=
  filter (fun r => match mjd_of r with
                   | Fin y => if Req_dec_T x y then true else false
                   | _ => false
                   end) l.

(** The line of the report for a record. *)
Definition report_of (photom : record) : line :=
  [TFixed 5 (mjd_of photom);
   TValue (item photom "filter");
   TFixed 4 (if bool_item photom "upper_limit"
             then float_item photom "mag_limit" else float_item photom "mag");
   TFixed 4 (if bool_item photom "upper_limit"
             then Fin 0.0 else float_item photom "mag_err")].

(** The two lines printed above the report. *)
Definition report_header : list line :=
  [[TStr ("5-arcsec output photometry:" ++ newline)%string];
   [TStr (repeat_string "#" 80 ++ newline ++ newline)%string]].

(** The paths of the two JSON files. *)
Definition user_path (_ap_size : string) : string :=
  ("reduction/" ++ _ap_size ++ "_arcsec_photometry.json")%string.

Definition std_path : string := "reduction/5_arcsec_photometry.json"%string.

(** The statement that every record of the JSON arrays written by
    [output_mags] carries exactly the given field names. *)
Definition serialized_with_fields (fields : list string)
    (_mag : Dict.t (list record)) (_ap_size : string) : Prop :=
  forall _mag' files out,
    output_mags _mag _ap_size [] = Ok (_mag', files, out) ->
    forall path array,
      Dict.get files path = Some array ->
      Forall (fun object => forall k, In k (map fst object) <-> In k fields) array.

(** The statement that both sequences of the catalog are in ascending order
    of [mjd] once [output_mags] has run. *)
Definition output_is_chronological (_mag : Dict.t (list record))
    (_ap_size : string) : Prop :=
  forall _mag' files out,
    output_mags _mag _ap_size [] = Ok (_mag', files, out) ->
    forall label recs, Dict.get _mag' label = Some recs -> ascending recs.

(** Two science epochs, the later one first in the table. *)
Definition late_row : row := finite_row "B" 86400 86400 1 10 1 10 1 1 0 0 1 1 1.
Definition early_row : row := finite_row "B" 0 0 1 10 1 10 1 1 0 0 1 1 1.

(** The sequences found under the two labels of the catalog. *)
Definition user_sequence (_ap_size : string) (U S : list record) : list record :=
  if String.eqb "5_arcsec" (_ap_size ++ "_arcsec") then (U ++ S)%list else U.

Definition std_sequence (_ap_size : string) (U S : list record) : list record :=
  if String.eqb "5_arcsec" (_ap_size ++ "_arcsec") then (U ++ S)%list else S.

(** A catalog of two records per aperture, the later epoch first. *)
Definition example_late : record :=
  record_of "B" "AB" (Fin 1) (Fin 1) (Fin 20) (Fin 2) false false (Fin 19) (Fin 0.1).

Definition example_early : record :=
  record_of "B" "AB" (Fin 1) (Fin 1) (Fin 20) (Fin 1) false true (Fin 20) (Fin 0.2).

Definition example_catalog : Dict.t (list record) :=
  [("3_arcsec"%string, [example_late; example_early]);
   ("5_arcsec"%string, [example_late; example_early])].

(** The same row under another filter name. *)
Definition with_FILTER (filter : string) (dd : row) : row :=
  {| FILTER := filter; TSTART := TSTART dd; TSTOP := TSTOP dd;
     SENSCORR_FACTOR := SENSCORR_FACTOR dd;
     COI_SRC_RATE := COI_SRC_RATE dd; COI_SRC_RATE_ERR := COI_SRC_RATE_ERR dd;
     RAW_STD_RATE := RAW_STD_RATE dd; RAW_STD_RATE_ERR := RAW_STD_RATE_ERR dd;
     COI_STD_FACTOR := COI_STD_FACTOR dd;
     COI_BKG_RATE := COI_BKG_RATE dd; COI_BKG_RATE_ERR := COI_BKG_RATE_ERR dd;
     STD_AREA := STD_AREA dd;
     AP_FACTOR := AP_FACTOR dd; AP_FACTOR_ERR := AP_FACTOR_ERR dd |}.

(** Two records of the same epoch in the two magnitude systems: the Vega
    one has its magnitude and its limit shifted by the offset of the band
    and another [mag_sys]; it has the same ten keys, and its other seven
    items are those of the AB one. *)
Definition shifted_by (vega : npfloat) (ab_rec vega_rec : record) : Prop :=
  Dict.keys vega_rec = Dict.keys ab_rec /\
  float_item vega_rec "mag" = (float_item ab_rec "mag" - vega)%np /\
  float_item vega_rec "mag_limit" = (float_item ab_rec "mag_limit" - vega)%np /\
  item ab_rec "mag_sys" = VStr "AB" /\ item vega_rec "mag_sys" = VStr "Vega" /\
  Forall (fun k => Dict.get vega_rec k = Dict.get ab_rec k)
    ["filter"; "aperture_correction"; "coincidence_loss_correction";
     "template_subtracted"; "mjd"; "upper_limit"; "mag_err"]%string.

(** A template table of two B-band epochs, for examples. *)
Definition example_template : table :=
  [finite_row "B" 0 0 1 4 1 4 1 1 0 0 1 1 1;
   finite_row "B" 0 0 1 6 2 6 2 1 0 0 1 1 1].

(** A V-band epoch, for tables that mix two bands. *)
Definition other_band_row : row := finite_row "V" 0 0 1 5 1 5 1 1 0 0 1 1 1.

(** * File and filter handling

    The functions of [SwiftPhotom/uvot.py] that prepare a reduction.
    Strings are sequences of ASCII characters.  A text file is the list of
    the lines that iterating over it yields, each with its line break. *)

From Stdlib Require Import Lia.

(** ** Exceptions and string operations *)

Inductive exception : Type :=
| FilterError
| UnboundLocalError (name : string)
| StringIndexError
| DictKeyError (key : string)
| ZeroDivisionError
| HeaderError (file : string).

Inductive outcome (A : Type) : Type :=
| Return (a : A)
| Raise (e : exception).

Arguments Return {A} a.
Arguments Raise {A} e.

Definition and_then {A B : Type} (m : outcome A) (k : A -> outcome B) : outcome B :=
  match m with
  | Return a => k a
  | Raise e => Raise e
  end.

Notation "x <~ m ;; k" := (and_then m (fun x => k))
  (at level 61, m at next level, right associativity).

Module Str.

Definition comma : ascii := ascii_of_nat 44.
Definition line_break : ascii := ascii_of_nat 10.
Definition hash : ascii := ascii_of_nat 35.
Definition dot : ascii := ascii_of_nat 46.
Definition zero : ascii := ascii_of_nat 48.

Definition upper_ascii (c : ascii) : ascii :=
  let n := nat_of_ascii c in
  if (97 <=? n)%nat && (n <=? 122)%nat then ascii_of_nat (n - 32) else c.

(** [s.upper()] *)
Fixpoint upper (s : string) : string :=
  match s with
  | EmptyString => EmptyString
  | String c s' => String (upper_ascii c) (upper s')
  end.

(** [s.split(sep)] for a separator of one character. *)
Fixpoint split (sep : ascii) (s : string) : list string :=
  match s with
  | EmptyString => [EmptyString]
  | String c s' =>
      if Ascii.eqb c sep then EmptyString :: split sep s'
      else match split sep s' with
           | [] => [String c EmptyString]
           | t :: ts => String c t :: ts
           end
  end.

(** [sep.join(l)] *)
Definition join (sep : ascii) (l : list string) : string :=
  String.concat (String sep EmptyString) l.

(** [s.lstrip(c)], [s.rstrip(c)] and [s.strip(c)] for one character. *)
Fixpoint lstrip (c : ascii) (s : string) : string :=
  match s with
  | EmptyString => EmptyString
  | String a s' => if Ascii.eqb a c then lstrip c s' else s
  end.

Fixpoint rstrip (c : ascii) (s : string) : string :=
  match s with
  | EmptyString => EmptyString
  | String a s' =>
      match rstrip c s' with
      | EmptyString => if Ascii.eqb a c then EmptyString else String a EmptyString
      | r => String a r
      end
  end.

Definition strip (c : ascii) (s : string) : string := rstrip c (lstrip c s).

(** [s[:-n]] for [n > 0]. *)
Definition drop_last (n : nat) (s : string) : string :=
  String.substring 0 (String.length s - n) s.

(** [s[-1]] *)
Definition last_char (s : string) : outcome ascii :=
  match s with
  | EmptyString => Raise StringIndexError
  | _ => match String.get (String.length s - 1) s with
         | Some c => Return c
         | None => Raise StringIndexError
         end
  end.

(** [x in l] for strings. *)
Definition mem (x : string) (l : list string) : bool := existsb (String.eqb x) l.

End Str.

(** ** [sort_filters] *)

Definition full_filter_list : list string :=
  ["V"; "B"; "U"; "UVW1"; "UVM2"; "UVW2"]%string.

Definition filter_warning (_f : string) : string :=
  ("WARNING - Filter " ++ _f ++ " not recognized. Skipped."
   ++ String Str.line_break EmptyString)%string.

(** [sort_filters]: the messages printed and the result. *)
Definition sort_filters (_filt_list : string) : list string * outcome (list string) :=
  if String.eqb _filt_list "ALL" then ([], Return full_filter_list)
  else if String.eqb _filt_list "OPT" then ([], Return ["V"; "B"; "U"]%string)
  else if String.eqb _filt_list "UV"
       then ([], Return ["UVW1"; "UVM2"; "UVW2"]%string)
  else
    let '(printed, out_filter_list) :=
      fold_left
        (fun acc _f =>
           let '(printed, out_filter_list) := acc in
           if negb (Str.mem (Str.upper _f) full_filter_list)
           then ((printed ++ [filter_warning _f])%list, out_filter_list)
           else (printed, (out_filter_list ++ [Str.upper _f])%list))
        (Str.split Str.comma _filt_list) ([], []) in
    if Nat.eqb (List.length out_filter_list) 0
    then (printed, Raise FilterError)
    else (printed, Return out_filter_list).

(** ** [get_aperture_size] *)

(** [get_aperture_size], from the lines of the region file. *)
Definition get_aperture_size (_reg : list string) : outcome string :=
  size <~ fold_left
            (fun acc line =>
               size <~ acc ;;
               match line with
               | EmptyString => Raise StringIndexError
               | String c _ =>
                   if Ascii.eqb c Str.hash then Return size
                   else Return
                          (Some (Str.drop_last 2
                                   (last (Str.split Str.comma
                                            (Str.strip Str.line_break line))
                                      EmptyString)))
               end)
            _reg (Return None) ;;
  match size with
  | None => Raise (UnboundLocalError "size")
  | Some size =>
      let size := Str.rstrip Str.zero size in
      c <~ Str.last_char size ;;
      if Ascii.eqb c Str.dot then Return (Str.drop_last 1 size) else Return size
  end.

(** ** [sort_file_list] *)

(** [sort_file_list], given what [pf.getheader(file)['FILTER']] returns or
    raises for each file. *)
Definition sort_file_list (header_FILTER : string -> outcome string)
    (_flist : list string) : outcome (Dict.t (list string)) :=
  fold_left
    (fun acc file =>
       out_file_list <~ acc ;;
       filter <~ header_FILTER file ;;
       let out_file_list :=
         match Dict.get out_file_list filter with
         | None => Dict.set out_file_list filter []
         | Some _ => out_file_list
         end in
       match Dict.get out_file_list filter with
       | Some l => Return (Dict.set out_file_list filter (l ++ [file])%list)
       | None => Raise (DictKeyError filter)
       end)
    _flist (Return []).

(** ** Auxiliary definitions for the statements on strings *)

(** [c in s] for a character. *)
Fixpoint contains_char (c : ascii) (s : string) : bool :=
  match s with
  | EmptyString => false
  | String a s' => Ascii.eqb a c || contains_char c s'
  end.

(** A filter name that [sort_filters] recognises as it is written. *)
Definition recognised (_f : string) : bool :=
  Str.mem (Str.upper _f) full_filter_list.

Definition is_keyword (s : string) : bool :=
  String.eqb s "ALL" || String.eqb s "OPT" || String.eqb s "UV".

(** A string of [k] zeros. *)
Fixpoint zeros (k : nat) : string :=
  match k with
  | O => EmptyString
  | S k' => String Str.zero (zeros k')
  end.

(** A comment line of a region file. *)
Definition comment_line (line : string) : Prop :=
  exists rest, line = String Str.hash rest.

(** The text written after the size in a region line: the arcsecond mark,
    the closing parenthesis and the line break. *)
Definition region_end : string :=
  String (ascii_of_nat 34) (String (ascii_of_nat 41) (String Str.line_break EmptyString)).

(** * The exposure summary of [download_swift.py]

    The block of [create_run_files] that runs under [verbose]: from the
    science and template frames collected by the loop above it, it prints
    one line per science frame with the exposure of the templates of its
    filter.  The header values are Python floats, whose division raises
    [ZeroDivisionError] on a zero divisor. *)

Record frame : Type := {
  frame_filter : string;
  frame_exptime : npfloat;
  frame_mjd : npfloat
}.

(** [a == b] on floats. *)
Definition float_eq (a b : npfloat) : bool :=
  match a, b with
  | Fin x, Fin y => if Req_dec_T x y then true else false
  | PInf, PInf | NInf, NInf => true
  | _, _ => false
  end.

(** [a / b] on Python floats. *)
Definition float_div (a b : npfloat) : outcome npfloat :=
  if float_eq b (Fin 0) then Raise ZeroDivisionError else Return (a / b)%np.

(** One argument of the [print] call: a number formatted with
    ['%.<digits>f'] and right-justified in [width] characters, or a
    string. *)
Inductive cell : Type :=
| CFixed (digits width : nat) (x : npfloat)
| CText (s : string).

Fixpoint spaces (n : nat) : string :=
  match n with
  | O => EmptyString
  | S n' => String (ascii_of_nat 32) (spaces n')
  end.

(** [s.ljust(width)] *)
Definition ljust (width : nat) (s : string) : string :=
  (s ++ spaces (width - String.length s))%string.

(** The dictionary [templates]: the exposure of the template frames,
    added up by filter. *)
Definition template_totals (template_data : list frame) : Dict.t npfloat :=
  fold_left
    (fun templates t =>
       let filt := frame_filter t in
       match Dict.get templates filt with
       | Some total => Dict.set templates filt (total + frame_exptime t)%np
       | None => Dict.set templates filt (frame_exptime t)
       end)
    template_data [].

(** The value of [template_exptime] for a filter. *)
Definition template_exptime (templates : Dict.t npfloat) (filt : string) : npfloat :=
  match Dict.get templates filt with
  | None => Fin 0.0
  | Some total => total
  end.

(** The state of the loop over the science frames: the lines printed, the
    variable [template_msg], unbound at first, and the exception raised if
    any. *)
Definition summary_state : Type := (list (list cell) * option string * outcome unit)%type.

Definition summary_step (templates : Dict.t npfloat) (acc : summary_state)
    (sci : frame) : summary_state :=
  let '(printed, template_msg, status) := acc in
  match status with
  | Raise _ => acc
  | Return _ =>
      let filt := frame_filter sci in
      match float_div (template_exptime templates filt) (frame_exptime sci) with
      | Raise e => (printed, template_msg, Raise e)
      | Return template_fraction =>
          let template_msg :=
            if float_eq template_fraction (Fin 0.0) then Some "NO TEMPLATE"%string
            else if Np.lt template_fraction (Fin 1.0)
                 then Some "SHALLOW TEMPLATE"%string
            else if Np.lt (Fin 1.0) template_fraction
                 then Some "GOOD TEMPLATE"%string
            else template_msg in
          match template_msg with
          | None => (printed, template_msg, Raise (UnboundLocalError "template_msg"))
          | Some msg =>
              ((printed
                ++ [[CFixed 4 5 (frame_mjd sci);
                     CText (ljust 5 (frame_filter sci));
                     CFixed 3 10 (frame_exptime sci);
                     CFixed 3 0 template_fraction;
                     CText msg]])%list,
               template_msg, Return tt)
          end
      end
  end.

(** The summary: the lines printed and how the block ends. *)
Definition exposure_summary (science_data template_data : list frame)
  : list (list cell) * outcome unit :=
  let science_data :=
    map snd (sort_keyed (combine (map frame_mjd science_data) science_data)) in
  let templates := template_totals template_data in
  let '(printed, _, status) :=
    fold_left (summary_step templates) science_data ([], None, Return tt) in
  (printed, status).

(** ** Auxiliary definitions for the statements on the summary *)

(** The science frames in the order in which they are printed. *)
Definition in_mjd_order (science_data : list frame) : list frame :=
  map snd (sort_keyed (combine (map frame_mjd science_data) science_data)).

(** The template frames of a filter. *)
Definition frames_of (filt : string) (template_data : list frame) : list frame :=
  filter (fun t => String.eqb (frame_filter t) filt) template_data.

(** The message for a ratio of exposures other than 1. *)
Definition own_message (fraction : R) : string :=
  if Req_dec_T fraction 0 then "NO TEMPLATE"%string
  else if Rlt_dec fraction 1 then "SHALLOW TEMPLATE"%string
  else "GOOD TEMPLATE"%string.

(** The line printed for a science frame of exposure [e] whose templates
    add up to [T], with a given message. *)
Definition summary_line (sci : frame) (e T : R) (msg : string) : list cell :=
  [CFixed 4 5 (frame_mjd sci); CText (ljust 5 (frame_filter sci));
   CFixed 3 10 (Fin e); CFixed 3 0 (Fin (T / e)); CText msg].

(** A science frame with a finite exposure [e], not zero, and templates
    adding up to [T]. *)
Definition exposed (template_data : list frame) (sci : frame) (e T : R) : Prop :=
  frame_exptime sci = Fin e /\ e <> 0 /\
  template_exptime (template_totals template_data) (frame_filter sci) = Fin T.
(** * Properties *)

(** ** Arithmetic of [npfloat] *)

Lemma Rsign_pos (x : R) : 0 < x -> Np.Rsign x = Np.Pos.
Proof.
  intros H. unfold Np.Rsign.
  destruct (total_order_T x 0) as [[Hlt | Heq] | Hgt]; try reflexivity; lra.
Qed.

Lemma Rsign_neg (x : R) : x < 0 -> Np.Rsign x = Np.Neg.
Proof.
  intros H. unfold Np.Rsign.
  destruct (total_order_T x 0) as [[Hlt | Heq] | Hgt]; try reflexivity; lra.
Qed.

Lemma Rsign_zero : Np.Rsign 0 = Np.Zero.
Proof.
  unfold Np.Rsign.
  destruct (total_order_T 0 0) as [[Hlt | Heq] | Hgt]; try reflexivity; lra.
Qed.

Lemma Rsign_nonneg (x : R) : 0 <= x -> Np.Rsign x <> Np.Neg.
Proof.
  intros H. unfold Np.Rsign.
  destruct (total_order_T x 0) as [[Hlt | Heq] | Hgt]; try discriminate; lra.
Qed.

Lemma Rsign_Zero_inv (x : R) : Np.Rsign x = Np.Zero -> x = 0.
Proof.
  unfold Np.Rsign.
  destruct (total_order_T x 0) as [[Hlt | Heq] | Hgt]; try discriminate; auto.
Qed.

Lemma mul_comm (a b : npfloat) : (a * b)%np = (b * a)%np.
Proof.
  destruct a, b; simpl; try reflexivity.
  f_equal. apply Rmult_comm.
Qed.

Lemma div_fin (x y : R) : y <> 0 -> (Fin x / Fin y)%np = Fin (x / y).
Proof.
  intros Hy. unfold Np.div.
  destruct (Np.Rsign y) eqn:E; try reflexivity.
  apply Rsign_Zero_inv in E. contradiction.
Qed.

Lemma sqrt_fin (x : R) : 0 <= x -> Np.sqrt (Fin x) = Fin (sqrt x).
Proof.
  intros Hx. unfold Np.sqrt.
  destruct (Np.Rsign x) eqn:E; try reflexivity.
  apply Rsign_nonneg in Hx. contradiction.
Qed.

Lemma log10_fin (x : R) : 0 < x -> Np.log10 (Fin x) = Fin (ln x / ln 10).
Proof. intros Hx. unfold Np.log10. now rewrite Rsign_pos. Qed.

Lemma log_fin (x : R) : 0 < x -> Np.log (Fin x) = Fin (ln x).
Proof. intros Hx. unfold Np.log. now rewrite Rsign_pos. Qed.

Lemma ge_fin_true (x y : R) : y <= x -> Np.ge (Fin x) (Fin y) = true.
Proof. intros H. unfold Np.ge. destruct (Rle_dec y x); [reflexivity | contradiction]. Qed.

Lemma ge_fin_false (x y : R) : x < y -> Np.ge (Fin x) (Fin y) = false.
Proof. intros H. unfold Np.ge. destruct (Rle_dec y x); [lra | reflexivity]. Qed.

Lemma lt_fin_true (x y : R) : x < y -> Np.lt (Fin x) (Fin y) = true.
Proof. intros H. unfold Np.lt. destruct (Rlt_dec x y); [reflexivity | contradiction]. Qed.

Lemma lt_fin_false (x y : R) : y <= x -> Np.lt (Fin x) (Fin y) = false.
Proof. intros H. unfold Np.lt. destruct (Rlt_dec x y); [lra | reflexivity]. Qed.

Lemma sub_zero (a : npfloat) : (a - Fin 0)%np = a.
Proof. destruct a; simpl; try reflexivity. f_equal. lra. Qed.

Lemma ln10_pos : 0 < ln 10.
Proof. rewrite <- ln_1. apply ln_increasing; lra. Qed.

(** ** Count-rate corrections *)

(** C3. The corrected count rate of the user aperture is
    [COI_SRC_RATE * SENSCORR_FACTOR]; its error is [COI_SRC_RATE_ERR],
    with 3% of the corrected rate added in quadrature exactly when a
    template exists and the observation is a science epoch.  On finite
    inputs these are the real numbers [c * s] and
    [sqrt (e^2 + (0.03 * (c * s))^2)]. *)
Theorem user_aperture_corrected_rate :
  forall (template_ : Z) (i : nat) (dd : row),
    S3BCR dd = (COI_SRC_RATE dd * SENSCORR_FACTOR dd)%np /\
    S3BCRe template_ i dd =
      (if science_with_template template_ i
       then Np.sqrt (Np.sq (COI_SRC_RATE_ERR dd) + Np.sq (0.03 * S3BCR dd))%np
       else COI_SRC_RATE_ERR dd) /\
    (forall c s e : R,
        COI_SRC_RATE dd = Fin c -> SENSCORR_FACTOR dd = Fin s ->
        COI_SRC_RATE_ERR dd = Fin e ->
        S3BCR dd = Fin (c * s) /\
        S3BCRe template_ i dd =
          if science_with_template template_ i
          then Fin (sqrt (e ^ 2 + (0.03 * (c * s)) ^ 2))
          else Fin e) /\
    S3BCRe template_ 0 dd = COI_SRC_RATE_ERR dd /\
    S3BCRe 0 i dd = COI_SRC_RATE_ERR dd.
Proof.
  intros template_ i dd. split; [reflexivity | split; [| split]].
  - unfold S3BCRe, science_with_template.
    destruct (is_true template_ && Nat.eqb i 1); [| reflexivity].
    now rewrite (mul_comm (S3BCR dd)).
  - intros c s e Hc Hs He.
    unfold S3BCRe, S3BCR, SC, science_with_template. rewrite Hc, Hs, He.
    split; [reflexivity |].
    destruct (is_true template_ && Nat.eqb i 1); [| reflexivity].
    unfold Np.sq. cbn [Np.mul Np.add]. rewrite sqrt_fin by nra.
    do 2 f_equal. ring.
  - split; [| reflexivity].
    unfold S3BCRe. now rewrite andb_false_r.
Qed.

Lemma user_aperture_corrected_rate_witness :
  S3BCR (finite_row "B" 0 0 2 10 1 9 1 1 1 1 1 1 1) = Fin (10 * 2) /\
  S3BCRe 1 1 (finite_row "B" 0 0 2 10 1 9 1 1 1 1 1 1 1) =
    Fin (sqrt (1 ^ 2 + (0.03 * (10 * 2)) ^ 2)).
Proof.
  exact (proj1 (proj2 (proj2
           (user_aperture_corrected_rate 1 1
              (finite_row "B" 0 0 2 10 1 9 1 1 1 1 1 1 1))))
           10 2 1 eq_refl eq_refl eq_refl).
Defined.

(** C4. The background-corrected count rate of the 5 arcsec aperture is
    [RAW_STD_RATE * COI_STD_FACTOR * SENSCORR_FACTOR
     - COI_BKG_RATE * SENSCORR_FACTOR * STD_AREA]; its error is the
    quadrature sum of [RAW_STD_RATE_ERR * COI_STD_FACTOR] and
    [COI_BKG_RATE_ERR * STD_AREA], with
    [0.03 * (RAW_STD_RATE * COI_STD_FACTOR)] as a third term exactly when a
    template exists and the observation is a science epoch.  The error does
    not depend on the sensitivity correction factor. *)
Theorem standard_aperture_corrected_rate :
  forall (template_ : Z) (i : nat) (dd : row),
    S5BCR dd =
      (RAW_STD_RATE dd * COI_STD_FACTOR dd * SENSCORR_FACTOR dd
       - COI_BKG_RATE dd * SENSCORR_FACTOR dd * STD_AREA dd)%np /\
    S5BCRe template_ i dd =
      (if science_with_template template_ i
       then Np.sqrt (Np.sq (RAW_STD_RATE_ERR dd * COI_STD_FACTOR dd)
                     + Np.sq (0.03 * (RAW_STD_RATE dd * COI_STD_FACTOR dd))
                     + Np.sq (COI_BKG_RATE_ERR dd * STD_AREA dd))%np
       else Np.sqrt (Np.sq (RAW_STD_RATE_ERR dd * COI_STD_FACTOR dd)
                     + Np.sq (COI_BKG_RATE_ERR dd * STD_AREA dd))%np) /\
    (forall r re f b be a s : R,
        RAW_STD_RATE dd = Fin r -> RAW_STD_RATE_ERR dd = Fin re ->
        COI_STD_FACTOR dd = Fin f -> COI_BKG_RATE dd = Fin b ->
        COI_BKG_RATE_ERR dd = Fin be -> STD_AREA dd = Fin a ->
        SENSCORR_FACTOR dd = Fin s ->
        S5BCR dd = Fin (r * f * s - b * s * a) /\
        S5BCRe template_ i dd =
          if science_with_template template_ i
          then Fin (sqrt ((re * f) ^ 2 + (0.03 * (r * f)) ^ 2 + (be * a) ^ 2))
          else Fin (sqrt ((re * f) ^ 2 + (be * a) ^ 2))) /\
    (forall s' : npfloat,
        S5BCRe template_ i (with_SENSCORR_FACTOR dd s') = S5BCRe template_ i dd).
Proof.
  intros template_ i dd. split; [reflexivity | split; [| split]].
  - unfold S5BCRe, S5CRe, S5CR, science_with_template.
    destruct (is_true template_ && Nat.eqb i 1); [| reflexivity].
    now rewrite (mul_comm _ (Fin 0.03)).
  - intros r re f b be a s Hr Hre Hf Hb Hbe Ha Hs.
    unfold S5BCR, S5BCRe, S5CRe, S5CR, SC, science_with_template.
    rewrite Hr, Hre, Hf, Hb, Hbe, Ha, Hs.
    split; [reflexivity |].
    destruct (is_true template_ && Nat.eqb i 1);
      unfold Np.sq; cbn [Np.mul Np.add];
      (rewrite sqrt_fin by nra); do 2 f_equal; ring.
  - intros s'. reflexivity.
Qed.

Lemma standard_aperture_corrected_rate_witness :
  S5BCR (finite_row "B" 0 0 2 10 1 9 1 1 1 1 1 1 1) = Fin (9 * 1 * 2 - 1 * 2 * 1) /\
  S5BCRe 1 1 (finite_row "B" 0 0 2 10 1 9 1 1 1 1 1 1 1) =
    Fin (sqrt ((1 * 1) ^ 2 + (0.03 * (9 * 1)) ^ 2 + (1 * 1) ^ 2)).
Proof.
  exact (proj1 (proj2 (proj2
           (standard_aperture_corrected_rate 1 1
              (finite_row "B" 0 0 2 10 1 9 1 1 1 1 1 1 1))))
           9 1 1 1 1 1 2 eq_refl eq_refl eq_refl eq_refl eq_refl eq_refl eq_refl).
Defined.

(** ** Template aggregation *)

Section RealSums.
Context {A : Type}.
Implicit Types (f : A -> R) (l : list A).

Lemma Rsum_nonneg f l : (forall a, In a l -> 0 <= f a) -> 0 <= Rsum f l.
Proof.
  induction l as [| a l IH]; simpl; intros H; [lra |].
  assert (0 <= f a) by (apply H; now left).
  assert (0 <= Rsum f l) by (apply IH; intros; apply H; now right).
  lra.
Qed.

Lemma Rsum_pos f l : l <> [] -> (forall a, In a l -> 0 < f a) -> 0 < Rsum f l.
Proof.
  destruct l as [| a l]; [congruence |]. intros _ H. simpl.
  assert (0 < f a) by (apply H; now left).
  assert (0 <= Rsum f l).
  { apply Rsum_nonneg. intros b Hb. apply Rlt_le, H. now right. }
  lra.
Qed.

Lemma Rsum_const f l (c : R) :
  (forall a, In a l -> f a = c) -> Rsum f l = INR (List.length l) * c.
Proof.
  induction l as [| a l IH]; intros H.
  - simpl. lra.
  - change (Rsum f (a :: l)) with (f a + Rsum f l).
    change (List.length (a :: l)) with (S (List.length l)). rewrite S_INR.
    rewrite (H a) by now left.
    rewrite IH by (intros; apply H; now right). lra.
Qed.

Lemma sum_map_fin (g : A -> npfloat) f l (acc : R) :
  (forall a, In a l -> g a = Fin (f a)) ->
  fold_left Np.add (map g l) (Fin acc) = Fin (acc + Rsum f l).
Proof.
  revert acc. induction l as [| a l IH]; intros acc H; simpl.
  - f_equal. lra.
  - rewrite (H a) by now left. cbn [Np.add].
    rewrite IH by (intros; apply H; now right).
    f_equal. lra.
Qed.

Lemma np_sum_map_fin (g : A -> npfloat) f l :
  (forall a, In a l -> g a = Fin (f a)) ->
  Np.sum (map g l) = Fin (Rsum f l).
Proof.
  intros H. unfold Np.sum. rewrite (sum_map_fin g f l 0 H). f_equal. lra.
Qed.
End RealSums.

Lemma inv_sq_pos (e : R) : 0 < e -> 0 < 1 / e ^ 2.
Proof.
  intros He. apply Rdiv_lt_0_compat; [lra |]. apply pow_lt. assumption.
Qed.

(** C2. On a non-empty set of template rates with strictly positive
    errors the template aggregate is the inverse-variance weighted mean
    and its error; a single observation is returned unchanged, and [N]
    identical observations give the common rate with the error divided by
    [sqrt N]. *)
Theorem template_weighted_average :
  forall (dd : table) (BCR BCRe : column) (rate err : row -> R),
    dd <> [] ->
    (forall r, In r dd -> BCR r = Fin (rate r) /\ BCRe r = Fin (err r) /\ 0 < err r) ->
    weighted_average dd BCR BCRe =
      (Fin (Rsum (fun r => rate r / err r ^ 2) dd / Rsum (fun r => 1 / err r ^ 2) dd),
       Fin (sqrt (1 / Rsum (fun r => 1 / err r ^ 2) dd))) /\
    (forall r0, dd = [r0] ->
       weighted_average dd BCR BCRe = (Fin (rate r0), Fin (err r0))) /\
    (forall x e : R,
       (forall r, In r dd -> rate r = x /\ err r = e) ->
       weighted_average dd BCR BCRe = (Fin x, Fin (e / sqrt (INR (List.length dd))))).
Proof.
  intros dd BCR BCRe rate err Hne H.
  assert (Hw : 0 < Rsum (fun r => 1 / err r ^ 2) dd).
  { apply Rsum_pos; [assumption |]. intros r Hr. apply inv_sq_pos, H, Hr. }
  assert (Hmain : weighted_average dd BCR BCRe =
      (Fin (Rsum (fun r => rate r / err r ^ 2) dd / Rsum (fun r => 1 / err r ^ 2) dd),
       Fin (sqrt (1 / Rsum (fun r => 1 / err r ^ 2) dd)))).
  { unfold weighted_average.
    rewrite (np_sum_map_fin _ (fun r => rate r / err r ^ 2)).
    2:{ intros r Hr. destruct (H r Hr) as (-> & -> & He).
        unfold Np.sq. cbn [Np.mul]. rewrite div_fin by nra. f_equal. field. lra. }
    rewrite (np_sum_map_fin _ (fun r => 1 / err r ^ 2)).
    2:{ intros r Hr. destruct (H r Hr) as (_ & -> & He).
        unfold Np.sq. cbn [Np.mul]. rewrite div_fin by nra. f_equal. field. lra. }
    rewrite !div_fin by lra.
    rewrite sqrt_fin; [reflexivity |].
    apply Rlt_le, Rdiv_lt_0_compat; lra. }
  split; [exact Hmain | split].
  - intros r0 ->. rewrite Hmain. unfold Rsum. cbn [fold_right].
    destruct (H r0 (or_introl eq_refl)) as (_ & _ & He).
    f_equal; f_equal.
    + field. lra.
    + replace (1 / (1 / err r0 ^ 2 + 0)) with (err r0 ^ 2) by (field; lra).
      apply sqrt_pow2. lra.
  - intros x e Hc. rewrite Hmain.
    assert (He : 0 < e).
    { destruct dd as [| r dd']; [congruence |].
      destruct (Hc r (or_introl eq_refl)) as (_ & <-).
      apply (H r). now left. }
    assert (Hn : 0 < INR (List.length dd)).
    { apply lt_0_INR. destruct dd; [congruence | simpl; apply Nat.lt_0_succ]. }
    rewrite (Rsum_const (fun r => rate r / err r ^ 2) dd (x / e ^ 2)).
    2:{ intros r Hr. now destruct (Hc r Hr) as (-> & ->). }
    rewrite (Rsum_const (fun r => 1 / err r ^ 2) dd (1 / e ^ 2)).
    2:{ intros r Hr. now destruct (Hc r Hr) as (_ & ->). }
    f_equal; f_equal.
    + field. split; lra.
    + replace (1 / (INR (List.length dd) * (1 / e ^ 2)))
        with (e ^ 2 / INR (List.length dd)) by (field; split; lra).
      rewrite sqrt_div_alt by assumption.
      rewrite sqrt_pow2 by lra. reflexivity.
Qed.

Lemma template_weighted_average_witness :
  weighted_average [finite_row "B" 0 0 2 10 1 9 1 1 1 1 1 1 1]
    S3BCR (S3BCRe 1 0) = (Fin 20, Fin 1).
Proof.
  refine (proj1 (proj2
            (template_weighted_average
               [finite_row "B" 0 0 2 10 1 9 1 1 1 1 1 1 1]
               S3BCR (S3BCRe 1 0) (fun _ => 20) (fun _ => 1) _ _)) _ eq_refl).
  - discriminate.
  - intros r [<- | []]. repeat split.
    + unfold S3BCR, SC. simpl. f_equal. lra.
    + lra.
Defined.

(** ** Dictionaries *)

Section DictLemmas.
Context {V : Type}.
Implicit Types (d : Dict.t V) (k : string) (v : V).

Lemma get_set_same d k v : Dict.get (Dict.set d k v) k = Some v.
Proof.
  induction d as [| [k' v'] d IH]; simpl.
  - now rewrite String.eqb_refl.
  - destruct (String.eqb k k') eqn:E; simpl; rewrite E; auto.
Qed.

Lemma get_set_other d k k' v :
  k <> k' -> Dict.get (Dict.set d k v) k' = Dict.get d k'.
Proof.
  intros Hne. induction d as [| [k0 v0] d IH]; simpl.
  - apply String.eqb_neq in Hne. rewrite String.eqb_sym. now rewrite Hne.
  - destruct (String.eqb k k0) eqn:E; simpl.
    + apply String.eqb_eq in E. subst k0.
      assert (String.eqb k' k = false) as ->; [| reflexivity].
      apply String.eqb_neq. congruence.
    + now rewrite IH.
Qed.

Lemma set_set d k v v' : Dict.set (Dict.set d k v) k v' = Dict.set d k v'.
Proof.
  induction d as [| [k0 v0] d IH]; simpl.
  - now rewrite String.eqb_refl.
  - destruct (String.eqb k k0) eqn:E; simpl; rewrite E; [reflexivity |].
    now rewrite IH.
Qed.

Lemma set_get_id d k v : Dict.get d k = Some v -> Dict.set d k v = d.
Proof.
  induction d as [| [k0 v0] d IH]; simpl; [discriminate |].
  destruct (String.eqb k k0); intros H.
  - congruence.
  - f_equal. now apply IH.
Qed.

Lemma lookup_get d k v : Dict.get d k = Some v -> Dict.lookup d k = Ok v.
Proof. unfold Dict.lookup. now intros ->. Qed.

Lemma keys_set_present d k v v' :
  Dict.get d k = Some v' -> Dict.keys (Dict.set d k v) = Dict.keys d.
Proof.
  unfold Dict.keys. induction d as [| [k0 v0] d IH]; simpl; [discriminate |].
  destruct (String.eqb k k0) eqn:E; simpl; [reflexivity |].
  intros H. now rewrite IH.
Qed.

Lemma keys_set_absent d k v :
  Dict.get d k = None -> Dict.keys (Dict.set d k v) = (Dict.keys d ++ [k])%list.
Proof.
  unfold Dict.keys. induction d as [| [k0 v0] d IH]; simpl; [reflexivity |].
  destruct (String.eqb k k0) eqn:E; simpl; [discriminate |].
  intros H. now rewrite IH.
Qed.

Lemma set_pair (u k5 : string) (x0 y0 x y : V) :
  k5 <> u ->
  Dict.set (Dict.set [(u, x0); (k5, y0)] u x) k5 y = [(u, x); (k5, y)].
Proof.
  intros Hne. apply String.eqb_neq in Hne. cbn.
  rewrite String.eqb_refl. cbn. now rewrite Hne, String.eqb_refl.
Qed.

Lemma get_pair_fst (u k5 : string) (x0 y0 : V) :
  Dict.get [(u, x0); (k5, y0)] u = Some x0.
Proof. cbn. now rewrite String.eqb_refl. Qed.

Lemma get_pair_snd (u k5 : string) (x0 y0 x : V) :
  k5 <> u ->
  Dict.get (Dict.set [(u, x0); (k5, y0)] u x) k5 = Some y0.
Proof.
  intros Hne. apply String.eqb_neq in Hne. cbn.
  rewrite String.eqb_refl. cbn. now rewrite Hne, String.eqb_refl.
Qed.
End DictLemmas.

(** ** The catalog built by [extract_photometry] *)

Lemma mapM_ok {A B : Type} (f : A -> result B) (g : A -> B) (l : list A) :
  (forall a, In a l -> f a = Ok (g a)) -> mapM f l = Ok (map g l).
Proof.
  induction l as [| a l IH]; intros H; simpl; [reflexivity |].
  rewrite (H a) by now left. cbn [bind].
  rewrite IH by (intros; apply H; now right). reflexivity.
Qed.

Lemma append_loop (label : string) (entry : Z -> row -> record) (dd : table) :
  forall (st : state) (l : list record),
    Dict.get (mag st) label = Some l ->
    fold_left
      (fun acc dd_j => st' <- acc ;; append_mag st' label (entry (template st') dd_j))
      dd (Ok st)
    = Ok {| template := template st; BCR_temp := BCR_temp st;
            BCRe_temp := BCRe_temp st;
            mag := Dict.set (mag st) label (l ++ map (entry (template st)) dd) |}.
Proof.
  induction dd as [| dd_j dd IH]; intros st l Hl.
  - simpl. rewrite app_nil_r, (set_get_id _ _ _ Hl). now destruct st.
  - cbn [fold_left map]. unfold bind at 2, append_mag at 2.
    rewrite (lookup_get _ _ _ Hl). cbn [bind].
    rewrite (IH _ (l ++ [entry (template st) dd_j])%list).
    + cbn [template BCR_temp BCRe_temp mag]. rewrite set_set, <- app_assoc.
      reflexivity.
    + cbn [mag]. apply get_set_same.
Qed.

(** *** Error bars *)

Lemma sqrt_not_negative (a : npfloat) : Np.lt (Np.sqrt a) (Fin 0) = false.
Proof.
  destruct a as [x | | |]; try reflexivity.
  unfold Np.sqrt. destruct (Np.Rsign x); try reflexivity;
    apply lt_fin_false, sqrt_pos.
Qed.

Lemma errorbar_ok {A : Type} (f : A -> npfloat) (l : list A) :
  (forall a, In a l -> Np.lt (f a) (Fin 0) = false) -> errorbar (map f l) = Ok tt.
Proof.
  intros H. unfold errorbar.
  assert (E : existsb (fun e => Np.lt e (Fin 0)) (map f l) = false).
  { induction l as [| a l IH]; [reflexivity |]. cbn [map existsb].
    rewrite (H a) by now left. apply IH. intros b Hb. apply H. now right. }
  now rewrite E.
Qed.

Lemma errorbar_negative (e : npfloat) (l : list npfloat) :
  Np.lt e (Fin 0) = true -> errorbar (e :: l) = Err ValueError.
Proof. intros H. unfold errorbar. cbn [existsb]. now rewrite H. Qed.

Lemma S5BCRe_drawn (template_ : Z) (i : nat) (dd : table) :
  errorbar (map (S5BCRe template_ i) dd) = Ok tt.
Proof.
  apply errorbar_ok. intros r _. unfold S5BCRe.
  destruct (is_true template_ && Nat.eqb i 1); apply sqrt_not_negative.
Qed.

Lemma or_mage_drawn (user_ap label : string) (BCR BCRe : column)
    (zp : npfloat * npfloat) (dd : table) :
  errorbar (map (or_mage user_ap label BCR BCRe zp) dd) = Ok tt.
Proof. apply errorbar_ok. intros r _. apply sqrt_not_negative. Qed.

(** With a template the errors of the science rates are square roots. *)
Lemma S3BCRe_drawn_with_template (dd : table) :
  errorbar (map (S3BCRe 1 1) dd) = Ok tt.
Proof. apply errorbar_ok. intros r _. apply sqrt_not_negative. Qed.

Lemma S3BCRe_template_file (template_ : Z) (dd : table) :
  map (S3BCRe template_ 0) dd = map (S3BCRe 1 0) dd.
Proof.
  apply map_ext. intros r. unfold S3BCRe. cbn [Nat.eqb].
  now rewrite !andb_false_r.
Qed.

(** *** The figure of the magnitudes *)

Lemma magnitude_entry_built (filter mag_sys : string) (template_ : Z)
    (zp : npfloat * npfloat) (vega _det_limit : npfloat) (rate err : column)
    (dd : row) :
  built_record
    (magnitude_entry filter mag_sys template_ zp vega _det_limit rate err dd).
Proof.
  unfold built_record, magnitude_entry.
  destruct (Np.ge (BCGARs rate err dd) _det_limit);
    do 10 eexists; (split; [reflexivity |]); cbv beta iota;
    [apply sqrt_not_negative | reflexivity].
Qed.

Lemma upper_limits_app (l l' : list record) :
  upper_limits (l ++ l') = upper_limits l || upper_limits l'.
Proof. apply existsb_app. Qed.

Lemma select_epochs_built (flag : bool) (eps : list record) :
  Forall built_record eps ->
  select_epochs flag eps
  = Ok (map (fun r => (item r "mjd", item r "mag", item r "mag_err"))
          (filter (fun r => Bool.eqb (bool_item r "upper_limit") flag) eps)).
Proof.
  induction 1 as [| r eps Hr _ IH]; [reflexivity |].
  destruct Hr as (f & m & a & c & l & j & t & u & g & e & -> & _).
  cbn [select_epochs filter].
  change (Dict.lookup (record_of f m a c l j t u g e) "upper_limit")
    with (@Ok value (VBool u)).
  change (bool_item (record_of f m a c l j t u g e) "upper_limit") with u.
  cbn [bind value_is_true].
  destruct (Bool.eqb u flag); [| exact IH].
  change (Dict.lookup (record_of f m a c l j t u g e) "mjd")
    with (@Ok value (VFloat j)).
  change (Dict.lookup (record_of f m a c l j t u g e) "mag")
    with (@Ok value (VFloat g)).
  change (Dict.lookup (record_of f m a c l j t u g e) "mag_err")
    with (@Ok value (VFloat e)).
  cbn [bind]. rewrite IH. reflexivity.
Qed.

Lemma detections_drawn (eps : list record) :
  Forall built_record eps ->
  let detections :=
    map (fun r => (item r "mjd", item r "mag", item r "mag_err"))
      (filter (fun r => Bool.eqb (bool_item r "upper_limit") false) eps) in
  (ee <- mapM (fun ep => as_float (snd ep)) detections ;; errorbar ee) = Ok tt.
Proof.
  intros H detections. subst detections.
  rewrite (mapM_ok _ (fun ep => match snd ep with VFloat x => x | _ => NaN end)).
  2:{ intros ep Hep. apply in_map_iff in Hep. destruct Hep as (r & <- & Hr).
      apply filter_In in Hr. destruct Hr as [Hr _].
      rewrite Forall_forall in H.
      destruct (H r Hr) as (f & m & a & c & l & j & t & u & g & e & -> & _).
      reflexivity. }
  cbn [bind]. rewrite map_map. apply errorbar_ok.
  intros r Hr. apply filter_In in Hr. destruct Hr as [Hr Hu].
  rewrite Forall_forall in H.
  destruct (H r Hr) as (f & m & a & c & l & j & t & u & g & e & -> & He).
  change (bool_item (record_of f m a c l j t u g e) "upper_limit") with u in Hu.
  destruct u; [discriminate Hu |]. exact He.
Qed.

Lemma upper_limits_filter (eps : list record) :
  upper_limits eps
  = match filter (fun r => Bool.eqb (bool_item r "upper_limit") true) eps with
    | [] => false
    | _ :: _ => true
    end.
Proof.
  induction eps as [| r eps IH]; [reflexivity |].
  cbn [upper_limits existsb filter]. fold (upper_limits eps).
  fold (bool_item r "upper_limit").
  destruct (bool_item r "upper_limit"); cbn [Bool.eqb orb]; [reflexivity | exact IH].
Qed.

Lemma plot_magnitudes_built (st : state) (label : string) (eps : list record) :
  Dict.get (mag st) label = Some eps ->
  Forall built_record eps ->
  plot_magnitudes st label = if upper_limits eps then Err ValueError else Ok st.
Proof.
  intros Hget Hb. unfold plot_magnitudes.
  rewrite (lookup_get _ _ _ Hget). cbn [bind].
  rewrite !(select_epochs_built _ _ Hb). cbn [bind].
  pose proof (detections_drawn eps Hb) as Hd. cbv zeta in Hd.
  assert (Hdet : match
                   map (fun r => (item r "mjd", item r "mag", item r "mag_err"))
                     (filter (fun r => Bool.eqb (bool_item r "upper_limit") false) eps)
                 with
                 | [] => Ok tt
                 | _ :: _ =>
                     ee <- mapM (fun ep => as_float (snd ep))
                             (map (fun r => (item r "mjd", item r "mag", item r "mag_err"))
                                (filter (fun r => Bool.eqb (bool_item r "upper_limit") false)
                                   eps)) ;;
                     errorbar ee
                 end = Ok tt).
  { destruct (map _ (filter _ eps)); [reflexivity | exact Hd]. }
  rewrite Hdet. cbn [bind].
  rewrite upper_limits_filter.
  destruct (filter (fun r => Bool.eqb (bool_item r "upper_limit") true) eps)
    as [| r nds] eqn:E; [reflexivity |].
  assert (Hr : In r eps /\ Bool.eqb (bool_item r "upper_limit") true = true).
  { apply (proj1 (filter_In (fun r => Bool.eqb (bool_item r "upper_limit") true)
                     r eps)).
    rewrite E. now left. }
  destruct Hr as [Hr Hu]. rewrite Forall_forall in Hb.
  destruct (Hb r Hr) as (f & m & a & c & l & j & t & u & g & e & -> & He).
  change (bool_item (record_of f m a c l j t u g e) "upper_limit") with u in Hu.
  destruct u; [| discriminate Hu]. subst e.
  cbn [map]. change (item (record_of f m a c l j t true g (Fin 0.2)) "mag_err")
    with (VFloat (Fin 0.2)).
  cbn [mapM snd as_float bind].
  rewrite (mapM_ok (fun ep : value * value * value => as_float (snd ep))
             (fun ep => match snd ep with VFloat x => x | _ => NaN end)).
  - cbn [bind map app]. rewrite errorbar_negative; [reflexivity |].
    cbn [Np.mul]. apply lt_fin_true. lra.
  - intros ep Hep. apply in_map_iff in Hep. destruct Hep as (r' & <- & Hr').
    assert (Hin : In r' (filter (fun r => Bool.eqb (bool_item r "upper_limit") true) eps))
      by (rewrite E; now right).
    apply filter_In in Hin. destruct Hin as [Hin _].
    destruct (Hb r' Hin) as (f' & m' & a' & c' & l' & j' & t' & u' & g' & e' & -> & _).
    reflexivity.
Qed.

(** *** The two apertures of the science table *)

Lemma science_aperture_ok (filter mag_sys : string) (Vega_corr : Dict.t npfloat)
    (_det_limit : npfloat) (user_ap : string) (dd : table) (st : state)
    (BCR BCRe : column) (label : string)
    (BCR_t BCRe_t vega : npfloat) (zp : npfloat * npfloat) (l : list record) :
  errorbar (map BCRe dd) = Ok tt ->
  Dict.get (BCR_temp st) label = Some BCR_t ->
  Dict.get (BCRe_temp st) label = Some BCRe_t ->
  Dict.get ZP filter = Some zp ->
  Dict.get Vega_corr filter = Some vega ->
  Dict.get (mag st) label = Some l ->
  Forall built_record l ->
  let new := map (magnitude_entry filter mag_sys (template st) zp vega
                    _det_limit (BCGAR user_ap label BCR BCR_t)
                    (BCGARe user_ap label BCRe BCRe_t)) dd in
  science_aperture filter mag_sys Vega_corr _det_limit user_ap dd st BCR BCRe label
  = if upper_limits (l ++ new) then Err ValueError
    else Ok {| template := template st; BCR_temp := BCR_temp st;
               BCRe_temp := BCRe_temp st;
               mag := Dict.set (mag st) label (l ++ new) |}.
Proof.
  intros Hdrawn Hb Hbe Hzp Hv Hl Hbuilt new. unfold science_aperture.
  rewrite Hdrawn, (lookup_get _ _ _ Hb), (lookup_get _ _ _ Hbe),
    (lookup_get _ _ _ Hzp), (lookup_get _ _ _ Hv).
  cbn [bind]. rewrite or_mage_drawn.
  assert (Hplots : (if is_true (template st) then Ok tt else Ok tt) = @Ok unit tt)
    by now destruct (is_true (template st)).
  rewrite Hplots. cbn [bind].
  rewrite (append_loop label
             (fun t => magnitude_entry filter mag_sys t zp vega _det_limit
                         (BCGAR user_ap label BCR BCR_t)
                         (BCGARe user_ap label BCRe BCRe_t)) dd st l Hl).
  cbn [bind]. fold new.
  apply plot_magnitudes_built.
  - cbn [mag]. apply get_set_same.
  - apply Forall_app. split; [exact Hbuilt |].
    apply Forall_map, Forall_forall. intros dd_j _. apply magnitude_entry_built.
Qed.

Lemma Vega_corr_known (_ab : Z) (filter : string) (zp : npfloat * npfloat) :
  Dict.get ZP filter = Some zp ->
  exists vega, Dict.get (Vega_corr_of _ab) filter = Some vega.
Proof.
  unfold Vega_corr_of, ZP, Vega. cbn.
  destruct (Z.eqb _ab 1); cbn;
    repeat (match goal with
            | |- context [String.eqb filter ?k] => destruct (String.eqb filter k)
            end; [intros _; eexists; reflexivity |]);
    discriminate.
Qed.

Lemma savefig_thrice (isdir : string -> bool) (dir : string) (flag : bool)
    {A : Type} (a : A) :
  (_ <- (_ <- savefig isdir dir ;; if flag then savefig isdir dir else Ok tt) ;;
   _ <- savefig isdir dir ;; Ok a)
  = (_ <- savefig isdir dir ;; Ok a).
Proof. unfold savefig. destruct (isdir dir), flag; reflexivity. Qed.

Lemma process_file_science (isdir : string -> bool) (mag_sys : string)
    (Vega_corr : Dict.t npfloat)
    (_det_limit : npfloat) (u : string) (st : state) (dd_0 : row) (dd : table)
    (zp : npfloat * npfloat) (vega tu tue t5 t5e : npfloat)
    (lu l5 : list record) :
  errorbar (map (S3BCRe (template st) 1) (dd_0 :: dd)) = Ok tt ->
  Dict.get ZP (FILTER dd_0) = Some zp ->
  Dict.get Vega_corr (FILTER dd_0) = Some vega ->
  Dict.get (BCR_temp st) u = Some tu ->
  Dict.get (BCRe_temp st) u = Some tue ->
  Dict.get (BCR_temp st) "5_arcsec" = Some t5 ->
  Dict.get (BCRe_temp st) "5_arcsec" = Some t5e ->
  Dict.get (mag st) u = Some lu ->
  Forall built_record lu ->
  let U := map (magnitude_entry (FILTER dd_0) mag_sys (template st) zp vega
                  _det_limit (BCGAR u u S3BCR tu)
                  (BCGARe u u (S3BCRe (template st) 1) tue)) (dd_0 :: dd) in
  let S := map (magnitude_entry (FILTER dd_0) mag_sys (template st) zp vega
                  _det_limit (BCGAR u "5_arcsec" S5BCR t5)
                  (BCGARe u "5_arcsec" (S5BCRe (template st) 1) t5e)) (dd_0 :: dd) in
  Dict.get (Dict.set (mag st) u (lu ++ U)) "5_arcsec" = Some l5 ->
  Forall built_record l5 ->
  process_file isdir mag_sys Vega_corr _det_limit u st 1 (Some (dd_0 :: dd))
  = if upper_limits (lu ++ U) then Err ValueError
    else if upper_limits (l5 ++ S) then Err ValueError
    else _ <- savefig isdir (fig_dir (FILTER dd_0)) ;;
         Ok {| template := template st; BCR_temp := BCR_temp st;
               BCRe_temp := BCRe_temp st;
               mag := Dict.set (Dict.set (mag st) u (lu ++ U)) "5_arcsec"
                        (l5 ++ S) |}.
Proof.
  intros Hdrawn Hzp Hv Htu Htue Ht5 Ht5e Hlu Hblu U S Hl5 Hbl5.
  unfold process_file. cbn [bind fold_left Nat.eqb].
  rewrite (science_aperture_ok _ _ _ _ _ _ _ _ _ _ tu tue vega zp lu)
    by assumption.
  fold U. destruct (upper_limits (lu ++ U)); [reflexivity |].
  cbn [bind].
  rewrite (science_aperture_ok _ _ _ _ _ _ _ _ _ _ t5 t5e vega zp l5);
    try assumption; try apply S5BCRe_drawn.
  cbn [template]. fold S. destruct (upper_limits (l5 ++ S)); [reflexivity |].
  cbn [bind template].
  apply (savefig_thrice isdir (fig_dir (FILTER dd_0)) (is_true (template st))).
Qed.

Lemma process_file_template (isdir : string -> bool) (mag_sys : string)
    (Vega_corr : Dict.t npfloat)
    (_det_limit : npfloat) (u : string) (st : state) (dd_0 : row) (dd : table) :
  process_file isdir mag_sys Vega_corr _det_limit u st 0 (Some (dd_0 :: dd))
  = (_ <- errorbar (map (S3BCRe 1 0) (dd_0 :: dd)) ;;
     _ <- savefig isdir (fig_dir (FILTER dd_0)) ;;
     Ok {| template := template st;
           BCR_temp :=
             Dict.set
               (Dict.set (BCR_temp st) u
                  (fst (weighted_average (dd_0 :: dd) S3BCR (S3BCRe (template st) 0))))
               "5_arcsec"
               (fst (weighted_average (dd_0 :: dd) S5BCR (S5BCRe (template st) 0)));
           BCRe_temp :=
             Dict.set
               (Dict.set (BCRe_temp st) u
                  (snd (weighted_average (dd_0 :: dd) S3BCR (S3BCRe (template st) 0))))
               "5_arcsec"
               (snd (weighted_average (dd_0 :: dd) S5BCR (S5BCRe (template st) 0)));
           mag := mag st |}).
Proof.
  unfold process_file, template_aperture. cbn [bind fold_left Nat.eqb].
  rewrite (S3BCRe_template_file (template st) (dd_0 :: dd)).
  destruct (errorbar (map (S3BCRe 1 0) (dd_0 :: dd))) as [[] | e]; [| reflexivity].
  cbn [bind template BCR_temp BCRe_temp mag].
  rewrite S5BCRe_drawn. cbn [bind].
  destruct (savefig isdir (fig_dir (FILTER dd_0))) as [[] | e]; reflexivity.
Qed.

Lemma zero_rates (u k : string) :
  k = u \/ k = "5_arcsec"%string ->
  Dict.get (Dict.of_list [(u, Fin 0); ("5_arcsec"%string, Fin 0)]) k = Some (Fin 0).
Proof.
  intros Hk. unfold Dict.of_list. cbn [fold_left fst snd].
  change (Dict.set [] u (Fin 0)) with [(u, Fin 0)].
  destruct (String.eqb_spec "5_arcsec" k) as [<- | Hk5].
  - apply get_set_same.
  - rewrite get_set_other by assumption.
    destruct Hk as [-> | ->]; [| congruence]. cbn. now rewrite String.eqb_refl.
Qed.

Lemma process_file_none (isdir : string -> bool) (mag_sys : string)
    (Vega_corr : Dict.t npfloat)
    (_det_limit : npfloat) (u : string) (st : state) (i : nat) :
  process_file isdir mag_sys Vega_corr _det_limit u st i None
  = Ok {| template := 0;
          BCR_temp := Dict.of_list [(u, Fin 0); ("5_arcsec"%string, Fin 0)];
          BCRe_temp := Dict.of_list [(u, Fin 0); ("5_arcsec"%string, Fin 0)];
          mag := mag st |}.
Proof. reflexivity. Qed.

(** *** The value of [extract_photometry]

    For a science table whose first row has one of the six filters, what
    [extract_photometry] does is what the figures raise, and otherwise the
    catalog of the records of the two apertures. *)
Lemma extract_photometry_exact (isdir : string -> bool) (dd_0 : row) (dd : table)
    (_ab : Z) (_det_limit : npfloat) (_ap_size : string)
    (_templ_file : option table) (zp : npfloat * npfloat) (vega : npfloat) :
  Dict.get ZP (FILTER dd_0) = Some zp ->
  Dict.get (Vega_corr_of _ab) (FILTER dd_0) = Some vega ->
  let U := user_records _ab _det_limit _ap_size _templ_file zp vega
             (dd_0 :: dd) (FILTER dd_0) in
  let S := std_records _ab _det_limit _ap_size _templ_file zp vega
             (dd_0 :: dd) (FILTER dd_0) in
  extract_photometry isdir (Some (dd_0 :: dd)) _ab _det_limit _ap_size _templ_file
  = (_ <- template_figures isdir _templ_file ;;
     _ <- science_figures isdir _templ_file (dd_0 :: dd) (FILTER dd_0) U S ;;
     Ok (catalog_of _ap_size U S)).
Proof.
  intros Hzp Hvega U S. subst U S.
  unfold extract_photometry, user_records, std_records, aperture_records,
    catalog_of, science_figures.
  generalize (_ap_size ++ "_arcsec")%string. intros u.
  replace (if (_ab =? 1)%Z
           then (Dict.of_list
                   [("V"%string, Fin 0); ("B"%string, Fin 0); ("U"%string, Fin 0);
                    ("UVW1"%string, Fin 0); ("UVM2"%string, Fin 0);
                    ("UVW2"%string, Fin 0)], "AB"%string)
           else (Vega, "Vega"%string))
    with (Vega_corr_of _ab, mag_sys_of _ab)
    by (unfold Vega_corr_of, mag_sys_of; now destruct (_ab =? 1)%Z).
  cbn [fold_left fst snd bind].
  assert (Hmag : Dict.of_list [(u, @nil record); ("5_arcsec"%string, [])]
                 = if String.eqb "5_arcsec" u
                   then [(u, [])] else [(u, []); ("5_arcsec"%string, [])]).
  { unfold Dict.of_list. cbn. now destruct (String.eqb "5_arcsec" u). }
  pose proof (zero_rates u) as Hzero.
  destruct _templ_file as [[| t_0 t] |].
  - reflexivity.
  - rewrite process_file_template. cbn [template_figures].
    destruct (errorbar (map (S3BCRe 1 0) (t_0 :: t))) as [[] | e]; [| reflexivity].
    cbn [bind].
    destruct (savefig isdir (fig_dir (FILTER t_0))) as [[] | e]; [| reflexivity].
    cbn [bind template BCR_temp BCRe_temp mag].
    cbn [template_flag template_reference].
    rewrite S3BCRe_drawn_with_template. cbn [bind].
    destruct (String.eqb_spec "5_arcsec" u) as [Heq | Hneq]; [subst u |].
    + erewrite (process_file_science _ _ _ _ _ _ _ _ zp vega
                 (fst (weighted_average (t_0 :: t) S5BCR (S5BCRe 1 0)))
                 (snd (weighted_average (t_0 :: t) S5BCR (S5BCRe 1 0)))
                 (fst (weighted_average (t_0 :: t) S5BCR (S5BCRe 1 0)))
                 (snd (weighted_average (t_0 :: t) S5BCR (S5BCRe 1 0)))
                 [] ([] ++ _));
        try assumption;
        cbn [template BCR_temp BCRe_temp mag];
        try apply S3BCRe_drawn_with_template;
        try apply get_set_same; try apply Forall_nil.
      * cbn [app]. rewrite upper_limits_app.
        destruct (upper_limits _); [reflexivity |]. cbn [orb].
        destruct (upper_limits _); [reflexivity |].
        destruct (savefig isdir (fig_dir (FILTER dd_0))) as [[] | e];
          [| reflexivity].
        cbn [bind mag]. rewrite Hmag. cbn [Dict.set]. rewrite String.eqb_refl.
        cbn [Dict.set]. now rewrite String.eqb_refl.
      * cbn [app]. apply Forall_map, Forall_forall. intros dd_j _.
        apply magnitude_entry_built.
    + assert (Hu5 : String.eqb u "5_arcsec" = false)
        by (apply String.eqb_neq; congruence).
      rewrite Hu5.
      rewrite (process_file_science _ _ _ _ _ _ _ _ zp vega
                 (fst (weighted_average (t_0 :: t) S3BCR (S3BCRe 1 0)))
                 (snd (weighted_average (t_0 :: t) S3BCR (S3BCRe 1 0)))
                 (fst (weighted_average (t_0 :: t) S5BCR (S5BCRe 1 0)))
                 (snd (weighted_average (t_0 :: t) S5BCR (S5BCRe 1 0)))
                 [] []);
        try assumption;
        cbn [template BCR_temp BCRe_temp mag];
        try apply S3BCRe_drawn_with_template;
        try apply get_set_same; try apply Forall_nil;
        try (rewrite get_set_other by assumption; apply get_set_same).
      * cbn [app].
        destruct (upper_limits _); [reflexivity |].
        destruct (upper_limits _); [reflexivity |].
        destruct (savefig isdir (fig_dir (FILTER dd_0))) as [[] | e];
          [| reflexivity].
        cbn [bind mag]. rewrite Hmag, set_pair by assumption.
        reflexivity.
      * rewrite Hmag. apply get_pair_fst.
      * rewrite Hmag. now apply get_pair_snd.
  - rewrite process_file_none. cbn [bind template BCR_temp BCRe_temp mag].
    cbn [template_flag template_reference template_figures fst snd bind].
    destruct (errorbar (map (S3BCRe 0 1) (dd_0 :: dd))) as [[] | e] eqn:Hdrawn.
    2:{ unfold process_file. cbn [bind fold_left Nat.eqb template].
        unfold science_aperture at 1. rewrite Hdrawn. reflexivity. }
    cbn [bind].
    destruct (String.eqb_spec "5_arcsec" u) as [Heq | Hneq]; [subst u |].
    + erewrite (process_file_science _ _ _ _ _ _ _ _ zp vega
                 (Fin 0) (Fin 0) (Fin 0) (Fin 0) [] ([] ++ _));
        try assumption;
        cbn [template BCR_temp BCRe_temp mag];
        try exact Hdrawn;
        try (apply Hzero; now left);
        try apply get_set_same; try apply Forall_nil.
      * cbn [app]. rewrite upper_limits_app.
        destruct (upper_limits _); [reflexivity |]. cbn [orb].
        destruct (upper_limits _); [reflexivity |].
        destruct (savefig isdir (fig_dir (FILTER dd_0))) as [[] | e];
          [| reflexivity].
        cbn [bind mag]. rewrite Hmag. cbn [Dict.set]. rewrite String.eqb_refl.
        cbn [Dict.set]. now rewrite String.eqb_refl.
      * cbn [app]. apply Forall_map, Forall_forall. intros dd_j _.
        apply magnitude_entry_built.
    + erewrite (process_file_science _ _ _ _ _ _ _ _ zp vega
                 (Fin 0) (Fin 0) (Fin 0) (Fin 0) [] []);
        try assumption;
        cbn [template BCR_temp BCRe_temp mag];
        try exact Hdrawn; try apply Forall_nil;
        try (apply Hzero; now left); try (apply Hzero; now right).
      * cbn [app].
        destruct (upper_limits _); [reflexivity |].
        destruct (upper_limits _); [reflexivity |].
        destruct (savefig isdir (fig_dir (FILTER dd_0))) as [[] | e];
          [| reflexivity].
        cbn [bind mag]. rewrite Hmag, set_pair by assumption.
        reflexivity.
      * rewrite Hmag. apply get_pair_fst.
      * rewrite Hmag. now apply get_pair_snd.
Qed.

(** A catalog is returned when no figure raises, and only then. *)
Lemma extract_photometry_returned (isdir : string -> bool) (dd_0 : row) (dd : table)
    (_ab : Z) (_det_limit : npfloat) (_ap_size : string)
    (_templ_file : option table) (zp : npfloat * npfloat) (vega : npfloat)
    (catalog : Dict.t (list record)) :
  Dict.get ZP (FILTER dd_0) = Some zp ->
  Dict.get (Vega_corr_of _ab) (FILTER dd_0) = Some vega ->
  extract_photometry isdir (Some (dd_0 :: dd)) _ab _det_limit _ap_size _templ_file
  = Ok catalog ->
  let U := user_records _ab _det_limit _ap_size _templ_file zp vega
             (dd_0 :: dd) (FILTER dd_0) in
  let S := std_records _ab _det_limit _ap_size _templ_file zp vega
             (dd_0 :: dd) (FILTER dd_0) in
  catalog = catalog_of _ap_size U S /\
  upper_limits U = false /\ upper_limits S = false /\
  template_figures isdir _templ_file = Ok tt /\
  errorbar (map (S3BCRe (template_flag _templ_file) 1) (dd_0 :: dd)) = Ok tt /\
  isdir (fig_dir (FILTER dd_0)) = true.
Proof.
  intros Hzp Hvega Hrun U S.
  rewrite (extract_photometry_exact isdir dd_0 dd _ab _det_limit _ap_size
             _templ_file zp vega Hzp Hvega) in Hrun.
  fold U S in Hrun. unfold science_figures, savefig in Hrun.
  fold (template_flag _templ_file) in Hrun.
  destruct (template_figures isdir _templ_file) as [[] | e]; [| discriminate Hrun].
  cbn [bind] in Hrun.
  destruct (errorbar (map (S3BCRe (template_flag _templ_file) 1) (dd_0 :: dd)))
    as [[] | e]; [| discriminate Hrun].
  cbn [bind] in Hrun.
  destruct (upper_limits U); [discriminate Hrun |].
  destruct (upper_limits S); [discriminate Hrun |].
  destruct (isdir (fig_dir (FILTER dd_0))); [| discriminate Hrun].
  cbn [bind] in Hrun. injection Hrun as <-. repeat split; reflexivity.
Qed.

Lemma extract_photometry_detections (isdir : string -> bool) (dd_0 : row)
    (dd : table) (_ab : Z) (_det_limit : npfloat) (_ap_size : string)
    (_templ_file : option table) (zp : npfloat * npfloat) (vega : npfloat) :
  Dict.get ZP (FILTER dd_0) = Some zp ->
  Dict.get (Vega_corr_of _ab) (FILTER dd_0) = Some vega ->
  let U := user_records _ab _det_limit _ap_size _templ_file zp vega
             (dd_0 :: dd) (FILTER dd_0) in
  let S := std_records _ab _det_limit _ap_size _templ_file zp vega
             (dd_0 :: dd) (FILTER dd_0) in
  template_figures isdir _templ_file = Ok tt ->
  errorbar (map (S3BCRe (template_flag _templ_file) 1) (dd_0 :: dd)) = Ok tt ->
  upper_limits U = false -> upper_limits S = false ->
  isdir (fig_dir (FILTER dd_0)) = true ->
  extract_photometry isdir (Some (dd_0 :: dd)) _ab _det_limit _ap_size _templ_file
  = Ok (catalog_of _ap_size U S).
Proof.
  intros Hzp Hvega U S Ht Hd HU HS Hdir.
  rewrite (extract_photometry_exact isdir dd_0 dd _ab _det_limit _ap_size
             _templ_file zp vega Hzp Hvega).
  fold U S. unfold science_figures, savefig.
  fold (template_flag _templ_file).
  now rewrite Ht, Hd, HU, HS, Hdir.
Qed.

Lemma extract_photometry_upper_limit (isdir : string -> bool) (dd_0 : row)
    (dd : table) (_ab : Z) (_det_limit : npfloat) (_ap_size : string)
    (_templ_file : option table) (zp : npfloat * npfloat) (vega : npfloat) :
  Dict.get ZP (FILTER dd_0) = Some zp ->
  Dict.get (Vega_corr_of _ab) (FILTER dd_0) = Some vega ->
  let U := user_records _ab _det_limit _ap_size _templ_file zp vega
             (dd_0 :: dd) (FILTER dd_0) in
  let S := std_records _ab _det_limit _ap_size _templ_file zp vega
             (dd_0 :: dd) (FILTER dd_0) in
  template_figures isdir _templ_file = Ok tt ->
  errorbar (map (S3BCRe (template_flag _templ_file) 1) (dd_0 :: dd)) = Ok tt ->
  upper_limits U || upper_limits S = true ->
  extract_photometry isdir (Some (dd_0 :: dd)) _ab _det_limit _ap_size _templ_file
  = Err ValueError.
Proof.
  intros Hzp Hvega U S Ht Hd Hupper.
  rewrite (extract_photometry_exact isdir dd_0 dd _ab _det_limit _ap_size
             _templ_file zp vega Hzp Hvega).
  fold U S. unfold science_figures.
  fold (template_flag _templ_file).
  rewrite Ht, Hd. cbn [bind].
  destruct (upper_limits U); [reflexivity |].
  cbn [orb] in Hupper. now rewrite Hupper.
Qed.

(** *** Detections and upper limits among the records *)

Lemma upper_limits_entries (filter mag_sys : string) (template_ : Z)
    (zp : npfloat * npfloat) (vega _det_limit : npfloat) (rate err : column)
    (dd : table) :
  upper_limits
    (map (magnitude_entry filter mag_sys template_ zp vega _det_limit rate err) dd)
  = existsb (fun r => negb (Np.ge (rate r / err r)%np _det_limit)) dd.
Proof.
  induction dd as [| r dd IH]; [reflexivity |].
  cbn [map upper_limits existsb].
  change (existsb _ (map (magnitude_entry filter mag_sys template_ zp vega
                            _det_limit rate err) dd))
    with (upper_limits (map (magnitude_entry filter mag_sys template_ zp vega
                               _det_limit rate err) dd)).
  rewrite IH. f_equal.
  unfold magnitude_entry, BCGARs.
  destruct (Np.ge (rate r / err r)%np _det_limit); reflexivity.
Qed.

Lemma user_records_detected (_ab : Z) (_det_limit : npfloat) (_ap_size : string)
    (_templ_file : option table) (zp : npfloat * npfloat) (vega : npfloat)
    (dd : table) (filter : string) :
  Forall (fun r => Np.ge (user_ap_rate _ap_size _templ_file r
                          / user_ap_err _ap_size _templ_file r)%np _det_limit = true)
    dd ->
  upper_limits (user_records _ab _det_limit _ap_size _templ_file zp vega dd filter)
  = false.
Proof.
  intros H. unfold user_records, aperture_records. rewrite upper_limits_entries.
  induction H as [| r dd Hr _ IH]; [reflexivity |].
  cbn [existsb]. unfold user_ap_rate, user_ap_err in Hr. rewrite Hr. exact IH.
Qed.

Lemma std_records_detected (_ab : Z) (_det_limit : npfloat) (_ap_size : string)
    (_templ_file : option table) (zp : npfloat * npfloat) (vega : npfloat)
    (dd : table) (filter : string) :
  Forall (fun r => Np.ge (std_ap_rate _ap_size _templ_file r
                          / std_ap_err _ap_size _templ_file r)%np _det_limit = true)
    dd ->
  upper_limits (std_records _ab _det_limit _ap_size _templ_file zp vega dd filter)
  = false.
Proof.
  intros H. unfold std_records, aperture_records. rewrite upper_limits_entries.
  induction H as [| r dd Hr _ IH]; [reflexivity |].
  cbn [existsb]. unfold std_ap_rate, std_ap_err in Hr. rewrite Hr. exact IH.
Qed.

Lemma user_records_undetected (_ab : Z) (_det_limit : npfloat) (_ap_size : string)
    (_templ_file : option table) (zp : npfloat * npfloat) (vega : npfloat)
    (dd : table) (filter : string) (r : row) :
  In r dd ->
  Np.ge (user_ap_rate _ap_size _templ_file r
         / user_ap_err _ap_size _templ_file r)%np _det_limit = false ->
  upper_limits (user_records _ab _det_limit _ap_size _templ_file zp vega dd filter)
  = true.
Proof.
  intros Hin Hr. unfold user_records, aperture_records.
  rewrite upper_limits_entries. apply existsb_exists. exists r.
  split; [exact Hin |]. unfold user_ap_rate, user_ap_err in Hr. now rewrite Hr.
Qed.

Lemma std_records_undetected (_ab : Z) (_det_limit : npfloat) (_ap_size : string)
    (_templ_file : option table) (zp : npfloat * npfloat) (vega : npfloat)
    (dd : table) (filter : string) (r : row) :
  In r dd ->
  Np.ge (std_ap_rate _ap_size _templ_file r
         / std_ap_err _ap_size _templ_file r)%np _det_limit = false ->
  upper_limits (std_records _ab _det_limit _ap_size _templ_file zp vega dd filter)
  = true.
Proof.
  intros Hin Hr. unfold std_records, aperture_records.
  rewrite upper_limits_entries. apply existsb_exists. exists r.
  split; [exact Hin |]. unfold std_ap_rate, std_ap_err in Hr. now rewrite Hr.
Qed.

(** No record of a returned catalog is an upper limit. *)
Lemma no_upper_limit (l : list record) :
  upper_limits l = false ->
  Forall (fun rec => bool_item rec "upper_limit" = false) l.
Proof.
  induction l as [| r l IH]; intros H; [constructor |].
  cbn [upper_limits existsb] in H. apply orb_false_elim in H.
  destruct H as [Hr Hl]. constructor; [exact Hr | now apply IH].
Qed.

(** *** Tables of finite rows, without a template *)

(** Evaluation of the fields of a concrete row, and of the arithmetic on
    finite values that needs no side condition. *)
Ltac row_fields :=
  cbn [finite_row FILTER TSTART TSTOP SENSCORR_FACTOR COI_SRC_RATE
       COI_SRC_RATE_ERR RAW_STD_RATE RAW_STD_RATE_ERR COI_STD_FACTOR
       COI_BKG_RATE COI_BKG_RATE_ERR STD_AREA AP_FACTOR AP_FACTOR_ERR].

Ltac fin_arith := unfold Np.sq; cbn [Np.mul Np.add Np.sub].

Lemma sqrt_quadrature_zero (e : R) : 0 <= e -> sqrt (e * e + 0 * 0) = e.
Proof. intros He. replace (e * e + 0 * 0) with (e * e) by lra. now apply sqrt_square. Qed.

Lemma significant (a b d : R) :
  0 < b -> d * b <= a -> Np.ge (Fin a / Fin b)%np (Fin d) = true.
Proof.
  intros Hb Hd. rewrite div_fin by lra. apply ge_fin_true.
  apply Rmult_le_reg_r with b; [exact Hb |].
  unfold Rdiv. rewrite Rmult_assoc, Rinv_l by lra. lra.
Qed.

Lemma insignificant (a b d : R) :
  0 < b -> a < d * b -> Np.ge (Fin a / Fin b)%np (Fin d) = false.
Proof.
  intros Hb Hd. rewrite div_fin by lra. apply ge_fin_false.
  apply Rmult_lt_reg_r with b; [exact Hb |].
  unfold Rdiv. rewrite Rmult_assoc, Rinv_l by lra. lra.
Qed.

Lemma user_aperture_finite (f : string)
    (ts te sc src e std se coi bkg be area apf apfe : R) (_ap_size : string) :
  0 <= e ->
  let r := finite_row f ts te sc src e std se coi bkg be area apf apfe in
  user_ap_rate _ap_size None r = Fin ((src * sc - 0) * apf) /\
  user_ap_err _ap_size None r = Fin (e * apfe).
Proof.
  intros He r. subst r. split.
  - unfold user_ap_rate, BCGAR, BCGR, S3BCR, SC. rewrite String.eqb_refl.
    cbn [template_reference fst]. row_fields. fin_arith. reflexivity.
  - unfold user_ap_err, BCGARe, BCGRe, S3BCRe. rewrite String.eqb_refl.
    cbn [template_reference template_flag snd is_true Z.eqb negb andb].
    row_fields. fin_arith.
    rewrite sqrt_fin, sqrt_quadrature_zero by nra. fin_arith. reflexivity.
Qed.

Lemma std_aperture_finite (f : string)
    (ts te sc src e std se coi bkg be area apf apfe : R) (_ap_size : string) :
  let r := finite_row f ts te sc src e std se coi bkg be area apf apfe in
  let s := sqrt (se * coi * (se * coi) + be * area * (be * area)) in
  0 <= s /\
  std_ap_rate _ap_size None r
  = (if String.eqb "5_arcsec" (_ap_size ++ "_arcsec")
     then Fin ((std * coi * sc - bkg * sc * area - 0) * apf)
     else Fin (std * coi * sc - bkg * sc * area - 0)) /\
  std_ap_err _ap_size None r
  = (if String.eqb "5_arcsec" (_ap_size ++ "_arcsec")
     then Fin (s * apfe) else Fin s).
Proof.
  intros r s. subst r.
  assert (Hs : 0 <= s) by apply sqrt_pos.
  split; [exact Hs |]. split.
  - unfold std_ap_rate, BCGAR, BCGR, S5BCR, SC.
    cbn [template_reference fst]. row_fields. fin_arith.
    destruct (String.eqb "5_arcsec" (_ap_size ++ "_arcsec")); reflexivity.
  - unfold std_ap_err, BCGARe, BCGRe, S5BCRe, S5CRe.
    cbn [template_reference template_flag snd is_true Z.eqb negb andb].
    row_fields. fin_arith.
    rewrite sqrt_fin by nra. fold s. fin_arith.
    rewrite sqrt_fin, sqrt_quadrature_zero by nra. fin_arith.
    destruct (String.eqb "5_arcsec" (_ap_size ++ "_arcsec")); reflexivity.
Qed.

Lemma finite_errors_drawn (dd : table) :
  Forall (fun r => exists e : R, COI_SRC_RATE_ERR r = Fin e /\ 0 <= e) dd ->
  errorbar (map (S3BCRe 0 1) dd) = Ok tt.
Proof.
  intros H. apply errorbar_ok. intros r Hr. rewrite Forall_forall in H.
  destruct (H r Hr) as (e & He & Hpos).
  unfold S3BCRe. cbn [is_true Z.eqb negb andb]. rewrite He.
  now apply lt_fin_false.
Qed.

Lemma finite_row_detected (f : string)
    (ts te sc src e std se coi bkg be area apf apfe : R) (_ap_size : string)
    (d lo hi : R) :
  let r := finite_row f ts te sc src e std se coi bkg be area apf apfe in
  let x := se * coi * (se * coi) + be * area * (be * area) in
  let rate := std * coi * sc - bkg * sc * area - 0 in
  0 < e -> 0 < apfe -> d * (e * apfe) <= (src * sc - 0) * apf ->
  0 < lo -> lo <= hi -> lo * lo <= x -> x <= hi * hi ->
  d * lo <= rate -> d * hi <= rate ->
  d * (lo * apfe) <= rate * apf -> d * (hi * apfe) <= rate * apf ->
  (exists e' : R, COI_SRC_RATE_ERR r = Fin e' /\ 0 <= e') /\
  detected (Fin d) _ap_size None r.
Proof.
  intros r x rate He Hapfe Huser Hlo Hhi Hxlo Hxhi H1 H2 H3 H4.
  split; [exists e; split; [reflexivity | lra] |].
  destruct (user_aperture_finite f ts te sc src e std se coi bkg be area apf apfe
              _ap_size ltac:(lra)) as [Hur Hue].
  destruct (std_aperture_finite f ts te sc src e std se coi bkg be area apf apfe
              _ap_size) as (_ & Hsr & Hse).
  fold r in Hur, Hue, Hsr, Hse. fold x in Hse. fold rate in Hsr.
  assert (Hs : lo <= sqrt x <= hi).
  { split.
    - rewrite <- (sqrt_square lo) by lra. apply sqrt_le_1; nra.
    - rewrite <- (sqrt_square hi) by lra. apply sqrt_le_1; nra. }
  split.
  - rewrite Hur, Hue. apply significant; nra.
  - rewrite Hsr, Hse. generalize dependent (sqrt x). intros s _ Hs.
    assert (Hlo' : lo * apfe <= s * apfe) by nra.
    assert (Hhi' : s * apfe <= hi * apfe) by nra.
    destruct (String.eqb "5_arcsec" (_ap_size ++ "_arcsec")); apply significant;
      try nra; destruct (Rle_dec 0 d); nra.
Qed.

Lemma example_row_detected (_ap_size : string) :
  (exists e : R, COI_SRC_RATE_ERR example_row = Fin e /\ 0 <= e) /\
  detected (Fin 3) _ap_size None example_row.
Proof. apply (finite_row_detected "B" 0 0 2 10 1 9 1 1 1 1 1 1 1 _ 3 1 2); lra. Qed.

Lemma early_row_detected (_ap_size : string) :
  (exists e : R, COI_SRC_RATE_ERR early_row = Fin e /\ 0 <= e) /\
  detected (Fin 3) _ap_size None early_row.
Proof. apply (finite_row_detected "B" 0 0 1 10 1 10 1 1 0 0 1 1 1 _ 3 1 1); lra. Qed.

Lemma late_row_detected (_ap_size : string) :
  (exists e : R, COI_SRC_RATE_ERR late_row = Fin e /\ 0 <= e) /\
  detected (Fin 3) _ap_size None late_row.
Proof.
  apply (finite_row_detected "B" 86400 86400 1 10 1 10 1 1 0 0 1 1 1 _ 3 1 1); lra.
Qed.

Lemma other_band_row_detected (_ap_size : string) :
  (exists e : R, COI_SRC_RATE_ERR other_band_row = Fin e /\ 0 <= e) /\
  detected (Fin 3) _ap_size None other_band_row.
Proof. apply (finite_row_detected "V" 0 0 1 5 1 5 1 1 0 0 1 1 1 _ 3 1 1); lra. Qed.

Lemma corrected_row_detected (_ap_size : string) :
  (exists e : R, COI_SRC_RATE_ERR corrected_row = Fin e /\ 0 <= e) /\
  detected (Fin 3) _ap_size None corrected_row.
Proof. apply (finite_row_detected "B" 0 0 1 10 1 10 1 1 0 0 1 2 3 _ 3 1 1); lra. Qed.

Lemma nonphysical_row_detected (_ap_size : string) :
  (exists e : R, COI_SRC_RATE_ERR nonphysical_row = Fin e /\ 0 <= e) /\
  detected (Fin (-2)) _ap_size None nonphysical_row.
Proof.
  apply (finite_row_detected "B" 0 0 1 (-1) 1 10 1 1 0 0 1 1 1 _ (-2) 1 1); lra.
Qed.

(** A table of finite rows that are detections in both apertures is
    reduced to its catalog when there is no template and the directory of
    the figures exists. *)
Lemma detections_without_template (isdir : string -> bool) (dd_0 : row)
    (dd : table) (_ab : Z) (_det_limit : npfloat) (_ap_size : string)
    (zp : npfloat * npfloat) (vega : npfloat) :
  Dict.get ZP (FILTER dd_0) = Some zp ->
  Dict.get (Vega_corr_of _ab) (FILTER dd_0) = Some vega ->
  isdir (fig_dir (FILTER dd_0)) = true ->
  Forall (fun r => (exists e : R, COI_SRC_RATE_ERR r = Fin e /\ 0 <= e) /\
                   detected _det_limit _ap_size None r) (dd_0 :: dd) ->
  extract_photometry isdir (Some (dd_0 :: dd)) _ab _det_limit _ap_size None
  = Ok (catalog_of _ap_size
          (user_records _ab _det_limit _ap_size None zp vega (dd_0 :: dd)
             (FILTER dd_0))
          (std_records _ab _det_limit _ap_size None zp vega (dd_0 :: dd)
             (FILTER dd_0))).
Proof.
  intros Hzp Hvega Hdir Hrows.
  apply extract_photometry_detections; try assumption; try reflexivity.
  - apply finite_errors_drawn. eapply Forall_impl; [| exact Hrows].
    intros r [Hr _]. exact Hr.
  - apply user_records_detected. eapply Forall_impl; [| exact Hrows].
    intros r [_ [Hr _]]. exact Hr.
  - apply std_records_detected. eapply Forall_impl; [| exact Hrows].
    intros r [_ [_ Hr]]. exact Hr.
Qed.

(** The runs of the examples. *)
Lemma example_run (_ab : Z) (_ap_size : string) (vega : npfloat) :
  Dict.get (Vega_corr_of _ab) "B" = Some vega ->
  extract_photometry every_directory (Some [example_row]) _ab (Fin 3) _ap_size None
  = Ok (catalog_of _ap_size
          (user_records _ab (Fin 3) _ap_size None (Fin 18.98, Fin 0.02) vega
             [example_row] "B")
          (std_records _ab (Fin 3) _ap_size None (Fin 18.98, Fin 0.02) vega
             [example_row] "B")).
Proof.
  intros Hvega.
  apply (detections_without_template every_directory example_row []);
    try reflexivity; try assumption.
  apply Forall_cons; [apply example_row_detected | apply Forall_nil].
Qed.

Lemma two_epochs_run :
  extract_photometry every_directory (Some [late_row; early_row]) 1 (Fin 3) "3" None
  = Ok (catalog_of "3"
          (user_records 1 (Fin 3) "3" None (Fin 18.98, Fin 0.02) (Fin 0)
             [late_row; early_row] "B")
          (std_records 1 (Fin 3) "3" None (Fin 18.98, Fin 0.02) (Fin 0)
             [late_row; early_row] "B")).
Proof.
  apply (detections_without_template every_directory late_row [early_row]);
    try reflexivity.
  repeat (apply Forall_cons;
          [first [apply late_row_detected | apply early_row_detected] |]).
  apply Forall_nil.
Qed.

Lemma two_bands_run :
  extract_photometry every_directory (Some [example_row; other_band_row]) 0 (Fin 3)
    "3" None
  = Ok (catalog_of "3"
          (user_records 0 (Fin 3) "3" None (Fin 18.98, Fin 0.02) (Fin (-0.13))
             [example_row; other_band_row] "B")
          (std_records 0 (Fin 3) "3" None (Fin 18.98, Fin 0.02) (Fin (-0.13))
             [example_row; other_band_row] "B")).
Proof.
  apply (detections_without_template every_directory example_row [other_band_row]);
    try reflexivity.
  repeat (apply Forall_cons;
          [first [apply example_row_detected | apply other_band_row_detected] |]).
  apply Forall_nil.
Qed.

Lemma corrected_run :
  extract_photometry every_directory (Some [corrected_row]) 1 (Fin 3) "5" None
  = Ok (catalog_of "5"
          (user_records 1 (Fin 3) "5" None (Fin 18.98, Fin 0.02) (Fin 0)
             [corrected_row] "B")
          (std_records 1 (Fin 3) "5" None (Fin 18.98, Fin 0.02) (Fin 0)
             [corrected_row] "B")).
Proof.
  apply (detections_without_template every_directory corrected_row []);
    try reflexivity.
  apply Forall_cons; [apply corrected_row_detected | apply Forall_nil].
Qed.

Lemma nonphysical_run :
  extract_photometry every_directory (Some [nonphysical_row]) 1 (Fin (-2)) "3" None
  = Ok (catalog_of "3"
          (user_records 1 (Fin (-2)) "3" None (Fin 18.98, Fin 0.02) (Fin 0)
             [nonphysical_row] "B")
          (std_records 1 (Fin (-2)) "3" None (Fin 18.98, Fin 0.02) (Fin 0)
             [nonphysical_row] "B")).
Proof.
  apply (detections_without_template every_directory nonphysical_row []);
    try reflexivity.
  apply Forall_cons; [apply nonphysical_row_detected | apply Forall_nil].
Qed.

(** ** Science reduction *)

Lemma log_ten : Np.log (Fin 10) = Fin (ln 10).
Proof. apply log_fin. lra. Qed.

Lemma magnitude_factor : (Fin 2.5 / Np.log (Fin 10))%np = Fin (2.5 / ln 10).
Proof.
  rewrite log_ten. apply div_fin. pose proof ln10_pos. lra.
Qed.

Lemma Forall2_map_right {A B : Type} (P : A -> B -> Prop) (f : A -> B) (l : list A) :
  (forall a, In a l -> P a (f a)) -> Forall2 P l (map f l).
Proof.
  induction l as [| a l IH]; intros H; simpl; constructor.
  - apply H. now left.
  - apply IH. intros b Hb. apply H. now right.
Qed.

Lemma magnitude_entry_classified (filter mag_sys : string) (template_ : Z)
    (zp : npfloat * npfloat) (vega _det_limit : npfloat) (rate err : column)
    (dd : row) :
  classified (magnitude_entry filter mag_sys template_ zp vega _det_limit rate err dd)
    (rate dd) (err dd) (fst zp) (snd zp) vega _det_limit.
Proof.
  unfold classified, magnitude_entry, spec_mag, spec_mag_err, spec_mag_limit,
    BCGARs, BCGAMl.
  rewrite magnitude_factor.
  destruct (Np.ge (rate dd / err dd)%np _det_limit); repeat split; reflexivity.
Qed.

(** Every record that [extract_photometry] builds for the two apertures is
    classified from the rate and the error of its epoch, and a catalog
    that is returned holds these records, none of which is an upper
    limit. *)
Lemma records_classified (_ab : Z) (_det_limit : npfloat) (_ap_size : string)
    (_templ_file : option table) (zp : npfloat * npfloat) (vega : npfloat)
    (dd : table) (filter : string) :
  Forall2
    (fun dd_j rec =>
       classified rec (user_ap_rate _ap_size _templ_file dd_j)
         (user_ap_err _ap_size _templ_file dd_j) (fst zp) (snd zp) vega _det_limit)
    dd (user_records _ab _det_limit _ap_size _templ_file zp vega dd filter) /\
  Forall2
    (fun dd_j rec =>
       classified rec (std_ap_rate _ap_size _templ_file dd_j)
         (std_ap_err _ap_size _templ_file dd_j) (fst zp) (snd zp) vega _det_limit)
    dd (std_records _ab _det_limit _ap_size _templ_file zp vega dd filter).
Proof.
  split; apply Forall2_map_right; intros dd_j _; apply magnitude_entry_classified.
Qed.

Lemma inclusive_threshold (significance threshold : R) :
  Np.ge (Fin significance) (Fin threshold) = true <-> threshold <= significance.
Proof.
  unfold Np.ge. destruct (Rle_dec threshold significance); split; intros; auto.
  discriminate.
Qed.

(** The rate, error and significance of [faint_row] in the user aperture of
    3 arcsec, without a template. *)
Lemma faint_row_user_aperture :
  user_ap_rate "3" None faint_row = Fin 2 /\
  user_ap_err "3" None faint_row = Fin 1 /\
  Np.ge (user_ap_rate "3" None faint_row / user_ap_err "3" None faint_row)%np (Fin 3)
  = false.
Proof.
  destruct (user_aperture_finite "B" 0 0 1 2 1 10 1 1 0 0 1 1 1 "3" ltac:(lra))
    as [Hr He].
  fold faint_row in Hr, He.
  assert (Hr' : user_ap_rate "3" None faint_row = Fin 2)
    by (rewrite Hr; f_equal; lra).
  assert (He' : user_ap_err "3" None faint_row = Fin 1)
    by (rewrite He; f_equal; lra).
  repeat split; try assumption.
  rewrite Hr', He'. apply insignificant; lra.
Qed.

(** C1, at a science epoch below the detection threshold.  For [faint_row]
    the rate of the user aperture is 2 and its error 1, so that the
    significance 2 is below the threshold 3.  The record that
    [extract_photometry] builds is the upper limit of the claim:
    [upper_limit] true, [mag] the 3 sigma limit
    [-2.5*log10(3*ap_err) + zero_point - vega_offset] and [mag_err = 0.2].
    It is never returned: the figure of the magnitudes draws the upper
    limits with the error [-1 * mag_err], [errorbar] raises [ValueError],
    and the reduction returns no catalog. *)
Theorem upper_limit_is_not_returned :
  user_ap_rate "3" None faint_row = Fin 2 /\
  user_ap_err "3" None faint_row = Fin 1 /\
  Np.ge (Fin 2 / Fin 1)%np (Fin 3) = false /\
  Forall
    (fun rec =>
       Dict.get rec "upper_limit" = Some (VBool true) /\
       Dict.get rec "mag"
         = Some (VFloat (spec_mag_limit (Fin 1) (Fin 18.98) (Fin 0))) /\
       Dict.get rec "mag_err" = Some (VFloat (Fin 0.2)))
    (user_records 1 (Fin 3) "3" None (Fin 18.98, Fin 0.02) (Fin 0)
       [faint_row] "B") /\
  extract_photometry every_directory (Some [faint_row]) 1 (Fin 3) "3" None
  = Err ValueError.
Proof.
  destruct faint_row_user_aperture as (Hr & He & Hge).
  split; [exact Hr |]. split; [exact He |].
  split; [now rewrite Hr, He in Hge |]. split.
  - constructor; [| constructor].
    pose proof (magnitude_entry_classified "B" (mag_sys_of 1) (template_flag None)
                  (Fin 18.98, Fin 0.02) (Fin 0) (Fin 3)
                  (user_ap_rate "3" None) (user_ap_err "3" None) faint_row)
      as [_ Hc].
    rewrite Hge in Hc. rewrite He in Hc. exact Hc.
  - apply (extract_photometry_upper_limit every_directory faint_row [] 1 (Fin 3)
             "3" None (Fin 18.98, Fin 0.02) (Fin 0)); try reflexivity.
    + apply finite_errors_drawn.
      apply Forall_cons; [| apply Forall_nil]. exists 1. split; [reflexivity | lra].
    + apply orb_true_intro. left.
      apply (user_records_undetected _ _ _ _ _ _ _ _ faint_row);
        [now left | exact Hge].
Qed.

Lemma sqrt_sum_squares_1_0 : sqrt (1 * 1 + 0 * 0) = 1.
Proof. replace (1 * 1 + 0 * 0) with 1 by lra. apply sqrt_1. Qed.

(** The template-subtracted and the aperture-corrected values of the
    5 arcsec aperture for [corrected_row], without a template, when the
    user aperture is 5 arcsec too. *)
Lemma corrected_row_standard_aperture :
  BCGR S5BCR (Fin 0) corrected_row = Fin 10 /\
  BCGRe (S5BCRe 0 1) (Fin 0) corrected_row = Fin 1 /\
  std_ap_rate "5" None corrected_row = Fin 20 /\
  std_ap_err "5" None corrected_row = Fin 3.
Proof.
  assert (Hr : BCGR S5BCR (Fin 0) corrected_row = Fin 10).
  { unfold BCGR, S5BCR, SC, corrected_row. row_fields. fin_arith. f_equal. lra. }
  assert (He : BCGRe (S5BCRe 0 1) (Fin 0) corrected_row = Fin 1).
  { unfold BCGRe, S5BCRe, S5CRe, corrected_row.
    cbn [is_true Z.eqb negb andb]. row_fields. fin_arith.
    replace (1 * 1 * (1 * 1) + 0 * 1 * (0 * 1)) with (1 * 1 + 0 * 0) by lra.
    rewrite sqrt_fin, sqrt_sum_squares_1_0 by lra. fin_arith.
    rewrite sqrt_fin, sqrt_sum_squares_1_0 by lra. reflexivity. }
  repeat split; try assumption.
  - unfold std_ap_rate, BCGAR. cbn [template_reference fst].
    change (String.eqb "5_arcsec" ("5" ++ "_arcsec")) with true.
    cbv iota. rewrite Hr. unfold corrected_row. row_fields. fin_arith.
    f_equal. lra.
  - unfold std_ap_err, BCGARe. cbn [template_reference template_flag snd].
    change (String.eqb "5_arcsec" ("5" ++ "_arcsec")) with true.
    cbv iota. rewrite He. unfold corrected_row. row_fields. fin_arith.
    f_equal. lra.
Qed.

(** The aperture correction is skipped whenever the label of the aperture
    is not the user aperture's. *)
Lemma aperture_correction_other_label (user_ap label : string)
    (BCR BCRe : column) (BCR_t BCRe_t : npfloat) (dd : row) :
  label <> user_ap ->
  BCGAR user_ap label BCR BCR_t dd = BCGR BCR BCR_t dd /\
  BCGARe user_ap label BCRe BCRe_t dd = BCGRe BCRe BCRe_t dd.
Proof.
  intros Hne. apply String.eqb_neq in Hne. unfold BCGAR, BCGARe.
  now rewrite Hne.
Qed.

Lemma aperture_correction_user_label (user_ap : string)
    (BCR BCRe : column) (BCR_t BCRe_t : npfloat) (dd : row) :
  BCGAR user_ap user_ap BCR BCR_t dd = (BCGR BCR BCR_t dd * AP_FACTOR dd)%np /\
  BCGARe user_ap user_ap BCRe BCRe_t dd
    = (BCGRe BCRe BCRe_t dd * AP_FACTOR_ERR dd)%np.
Proof. unfold BCGAR, BCGARe. now rewrite String.eqb_refl. Qed.

(** C5, at the aperture size ["5"].  The label of the user aperture is
    then the label of the 5 arcsec aperture, and the aperture correction is
    applied to the 5 arcsec aperture as well: for [corrected_row] the
    subtracted rate 10 and error 1 of the 5 arcsec aperture become 20 and
    3, and the 3 sigma limit of its record is computed from the error 3. *)
Theorem aperture_correction_label_collision :
  extract_photometry every_directory (Some [corrected_row]) 1 (Fin 3) "5" None
    = Ok [("5_arcsec"%string,
           (user_records 1 (Fin 3) "5" None (Fin 18.98, Fin 0.02) (Fin 0)
              [corrected_row] "B"
            ++ std_records 1 (Fin 3) "5" None (Fin 18.98, Fin 0.02) (Fin 0)
                 [corrected_row] "B")%list)] /\
  BCGR S5BCR (Fin 0) corrected_row = Fin 10 /\
  BCGRe (S5BCRe 0 1) (Fin 0) corrected_row = Fin 1 /\
  std_ap_rate "5" None corrected_row = Fin 20 /\
  std_ap_err "5" None corrected_row = Fin 3 /\
  Forall
    (fun rec =>
       Dict.get rec "mag_limit"
       = Some (VFloat (spec_mag_limit (Fin 3) (Fin 18.98) (Fin 0))))
    (std_records 1 (Fin 3) "5" None (Fin 18.98, Fin 0.02) (Fin 0)
       [corrected_row] "B").
Proof.
  destruct corrected_row_standard_aperture as (Hr & He & Har & Hae).
  split; [| repeat split; try assumption].
  - exact corrected_run.
  - constructor; [| constructor].
    pose proof (magnitude_entry_classified "B" (mag_sys_of 1) (template_flag None)
                  (Fin 18.98, Fin 0.02) (Fin 0) (Fin 3)
                  (std_ap_rate "5" None) (std_ap_err "5" None) corrected_row)
      as [Hl _].
    rewrite Hae in Hl. exact Hl.
Qed.

(** ** Non-positive rates in the detection branch *)

Lemma ZP_finite (filter : string) (zp : npfloat * npfloat) :
  Dict.get ZP filter = Some zp -> exists z ze : R, zp = (Fin z, Fin ze).
Proof.
  unfold ZP. cbn.
  repeat (match goal with
          | |- context [String.eqb filter ?k] => destruct (String.eqb filter k)
          end; [intros [= <-]; eexists; eexists; reflexivity |]).
  discriminate.
Qed.

Lemma Vega_corr_finite (_ab : Z) (filter : string) (vega : npfloat) :
  Dict.get (Vega_corr_of _ab) filter = Some vega -> exists v : R, vega = Fin v.
Proof.
  unfold Vega_corr_of, Vega. destruct (Z.eqb _ab 1); cbn;
    repeat (match goal with
            | |- context [String.eqb filter ?k] => destruct (String.eqb filter k)
            end; [intros [= <-]; eexists; reflexivity |]);
    discriminate.
Qed.

Lemma log10_nonpositive (a : R) : a <= 0 ->
  Np.log10 (Fin a) = if Rlt_dec a 0 then NaN else NInf.
Proof.
  intros Ha. unfold Np.log10, Np.Rsign.
  destruct (total_order_T a 0) as [[Hlt | Heq] | Hgt];
    destruct (Rlt_dec a 0); try reflexivity; lra.
Qed.

Lemma spec_mag_nonpositive (a z v : R) : a <= 0 ->
  spec_mag (Fin a) (Fin z) (Fin v) = nonphysical_mag a.
Proof.
  intros Ha. unfold spec_mag, nonphysical_mag. rewrite log10_nonpositive by assumption.
  destruct (Rlt_dec a 0); [reflexivity |].
  cbn [Np.mul]. rewrite Rsign_neg by lra. reflexivity.
Qed.

Lemma nonphysical_entry (filter mag_sys : string) (template_ : Z)
    (zp : npfloat * npfloat) (vega _det_limit : npfloat) (rate err : column)
    (dd : row) (a z ze v : R) :
  zp = (Fin z, Fin ze) -> vega = Fin v ->
  rate dd = Fin a -> a <= 0 ->
  Np.ge (rate dd / err dd)%np _det_limit = true ->
  let rec := magnitude_entry filter mag_sys template_ zp vega _det_limit rate err dd in
  Dict.get rec "upper_limit" = Some (VBool false) /\
  Dict.get rec "mag" = Some (VFloat (nonphysical_mag a)).
Proof.
  intros -> -> Hr Ha Hge rec.
  pose proof (magnitude_entry_classified filter mag_sys template_ (Fin z, Fin ze)
                (Fin v) _det_limit rate err dd) as [_ Hc].
  rewrite Hge in Hc. destruct Hc as (Hu & Hm & _).
  split; [exact Hu |].
  subst rec. rewrite Hm. cbn [fst]. rewrite Hr.
  now rewrite spec_mag_nonpositive.
Qed.

(** The rate, error and significance of [nonphysical_row] in the user
    aperture of 3 arcsec, without a template. *)
Lemma nonphysical_row_user_aperture :
  user_ap_rate "3" None nonphysical_row = Fin (-1) /\
  user_ap_err "3" None nonphysical_row = Fin 1 /\
  Np.ge (user_ap_rate "3" None nonphysical_row
         / user_ap_err "3" None nonphysical_row)%np (Fin (-2)) = true.
Proof.
  assert (Hr : user_ap_rate "3" None nonphysical_row = Fin (-1)).
  { unfold user_ap_rate, BCGAR, BCGR, S3BCR, SC, nonphysical_row.
    rewrite String.eqb_refl. cbn [template_reference fst]. row_fields. fin_arith.
    f_equal. lra. }
  assert (He : user_ap_err "3" None nonphysical_row = Fin 1).
  { unfold user_ap_err, BCGARe, BCGRe, S3BCRe, nonphysical_row.
    rewrite String.eqb_refl. cbn [template_reference template_flag snd].
    cbn [is_true Z.eqb negb andb]. row_fields. fin_arith.
    rewrite sqrt_fin, sqrt_sum_squares_1_0 by lra. fin_arith.
    f_equal. lra. }
  repeat split; try assumption.
  rewrite Hr, He, div_fin by lra. apply ge_fin_true. lra.
Qed.

(** C6 as stated fails: with the detection threshold -2, the epoch
    [nonphysical_row] has the rate -1 and the significance -1, its
    detection branch is taken, and the reduction returns a catalog. *)
Lemma nonphysical_flux_is_not_an_error :
  ~ fails_on_nonphysical_flux every_directory [nonphysical_row] 1 (Fin (-2)) "3" None.
Proof.
  unfold fails_on_nonphysical_flux. intros Hclaim.
  assert (Hepoch : exists dd_j, In dd_j [nonphysical_row] /\
                     nonphysical_detection (Fin (-2)) "3" None dd_j).
  { exists nonphysical_row. split; [now left |].
    destruct nonphysical_row_user_aperture as (Hr & _ & Hge).
    exists (-1). repeat split; [exact Hr | lra | exact Hge]. }
  destruct (Hclaim Hepoch) as [e He].
  pose proof nonphysical_run as Hok.
  assert (Habs : Ok (catalog_of "3"
                       (user_records 1 (Fin (-2)) "3" None (Fin 18.98, Fin 0.02)
                          (Fin 0) [nonphysical_row] "B")
                       (std_records 1 (Fin (-2)) "3" None (Fin 18.98, Fin 0.02)
                          (Fin 0) [nonphysical_row] "B")) = Err e).
  { etransitivity; [symmetry; exact Hok | exact He]. }
  discriminate Habs.
Qed.

(** C6, amended.  The reduction has no check on the sign of a rate: for a
    science table with a known filter it raises what its figures raise and
    nothing else.  In the catalog that a run returns, an epoch whose
    detection branch is taken with a rate [a <= 0] is recorded as a
    detection whose magnitude is [nan] when [a < 0] and [+inf] when
    [a = 0]. *)
Theorem nonphysical_flux_recorded :
  forall (isdir : string -> bool) (dd_0 : row) (dd : table) (_ab : Z)
         (_det_limit : npfloat) (_ap_size : string) (_templ_file : option table)
         (zp : npfloat * npfloat) (vega : npfloat)
         (catalog : Dict.t (list record)),
    Dict.get ZP (FILTER dd_0) = Some zp ->
    Dict.get (Vega_corr_of _ab) (FILTER dd_0) = Some vega ->
    extract_photometry isdir (Some (dd_0 :: dd)) _ab _det_limit _ap_size _templ_file
      = Ok catalog ->
    let U := user_records _ab _det_limit _ap_size _templ_file zp vega
               (dd_0 :: dd) (FILTER dd_0) in
    let S := std_records _ab _det_limit _ap_size _templ_file zp vega
               (dd_0 :: dd) (FILTER dd_0) in
    extract_photometry isdir (Some (dd_0 :: dd)) _ab _det_limit _ap_size _templ_file
      = (_ <- template_figures isdir _templ_file ;;
         _ <- science_figures isdir _templ_file (dd_0 :: dd) (FILTER dd_0) U S ;;
         Ok (catalog_of _ap_size U S)) /\
    catalog = catalog_of _ap_size U S /\
    Forall2
      (fun dd_j rec =>
         forall a : R,
           user_ap_rate _ap_size _templ_file dd_j = Fin a -> a <= 0 ->
           Np.ge (user_ap_rate _ap_size _templ_file dd_j
                  / user_ap_err _ap_size _templ_file dd_j)%np _det_limit = true ->
           Dict.get rec "upper_limit" = Some (VBool false) /\
           Dict.get rec "mag" = Some (VFloat (nonphysical_mag a)))
      (dd_0 :: dd) U /\
    Forall2
      (fun dd_j rec =>
         forall a : R,
           std_ap_rate _ap_size _templ_file dd_j = Fin a -> a <= 0 ->
           Np.ge (std_ap_rate _ap_size _templ_file dd_j
                  / std_ap_err _ap_size _templ_file dd_j)%np _det_limit = true ->
           Dict.get rec "upper_limit" = Some (VBool false) /\
           Dict.get rec "mag" = Some (VFloat (nonphysical_mag a)))
      (dd_0 :: dd) S.
Proof.
  intros isdir dd_0 dd _ab _det_limit _ap_size _templ_file zp vega catalog
    Hzp Hvega Hrun U S.
  destruct (ZP_finite _ _ Hzp) as (z & ze & Hz).
  destruct (Vega_corr_finite _ _ _ Hvega) as (v & Hv).
  split; [| split; [| split]].
  - exact (extract_photometry_exact isdir dd_0 dd _ab _det_limit _ap_size
             _templ_file zp vega Hzp Hvega).
  - now apply (extract_photometry_returned isdir dd_0 dd _ab _det_limit _ap_size
                 _templ_file zp vega catalog).
  - apply Forall2_map_right. intros dd_j _ a Hr Ha Hge.
    now apply (nonphysical_entry _ _ _ _ _ _ _ _ _ a z ze v).
  - apply Forall2_map_right. intros dd_j _ a Hr Ha Hge.
    now apply (nonphysical_entry _ _ _ _ _ _ _ _ _ a z ze v).
Qed.

Lemma nonphysical_flux_recorded_witness :
  Forall2
    (fun dd_j rec =>
       forall a : R,
         user_ap_rate "3" None dd_j = Fin a -> a <= 0 ->
         Np.ge (user_ap_rate "3" None dd_j / user_ap_err "3" None dd_j)%np (Fin (-2))
         = true ->
         Dict.get rec "upper_limit" = Some (VBool false) /\
         Dict.get rec "mag" = Some (VFloat (nonphysical_mag a)))
    [nonphysical_row]
    (user_records 1 (Fin (-2)) "3" None (Fin 18.98, Fin 0.02) (Fin 0)
       [nonphysical_row] "B").
Proof.
  exact (proj1 (proj2 (proj2
           (nonphysical_flux_recorded every_directory nonphysical_row [] 1 (Fin (-2))
              "3" None (Fin 18.98, Fin 0.02) (Fin 0) _ eq_refl eq_refl
              nonphysical_run)))).
Defined.

(** ** Reduction without a template *)

Lemma magnitude_entry_template_subtracted (filter mag_sys : string) (template_ : Z)
    (zp : npfloat * npfloat) (vega _det_limit : npfloat) (rate err : column)
    (dd : row) :
  Dict.get (magnitude_entry filter mag_sys template_ zp vega _det_limit rate err dd)
    "template_subtracted" = Some (VBool (is_true template_)).
Proof.
  unfold magnitude_entry.
  destruct (Np.ge (BCGARs rate err dd) _det_limit); reflexivity.
Qed.

(** C7. Without a template file, reading the missing file raises nothing:
    it leaves the flag [template] at 0 and the template rate and error of
    both apertures at 0, and no figure is drawn for it; subtracting that
    rate leaves every science rate unchanged.  The run then does what the
    science table alone makes it do, and every record of the catalog it
    returns has [template_subtracted] false. *)
Theorem reduction_without_template :
  forall (isdir : string -> bool) (dd_0 : row) (dd : table) (_ab : Z)
         (_det_limit : npfloat) (_ap_size : string) (zp : npfloat * npfloat)
         (vega : npfloat) (catalog : Dict.t (list record)),
    Dict.get ZP (FILTER dd_0) = Some zp ->
    Dict.get (Vega_corr_of _ab) (FILTER dd_0) = Some vega ->
    extract_photometry isdir (Some (dd_0 :: dd)) _ab _det_limit _ap_size None
      = Ok catalog ->
    let user_ap := (_ap_size ++ "_arcsec")%string in
    let U := user_records _ab _det_limit _ap_size None zp vega
               (dd_0 :: dd) (FILTER dd_0) in
    let S := std_records _ab _det_limit _ap_size None zp vega
               (dd_0 :: dd) (FILTER dd_0) in
    (forall (st : state) (i : nat),
        exists st',
          process_file isdir (mag_sys_of _ab) (Vega_corr_of _ab) _det_limit user_ap
            st i None = Ok st' /\
          template st' = 0%Z /\ mag st' = mag st /\
          Dict.get (BCR_temp st') user_ap = Some (Fin 0) /\
          Dict.get (BCRe_temp st') user_ap = Some (Fin 0) /\
          Dict.get (BCR_temp st') "5_arcsec" = Some (Fin 0) /\
          Dict.get (BCRe_temp st') "5_arcsec" = Some (Fin 0)) /\
    (forall (BCR : column) (dd_j : row), BCGR BCR (Fin 0) dd_j = BCR dd_j) /\
    (forall label, template_reference label None = (Fin 0, Fin 0)) /\
    extract_photometry isdir (Some (dd_0 :: dd)) _ab _det_limit _ap_size None
      = (_ <- science_figures isdir None (dd_0 :: dd) (FILTER dd_0) U S ;;
         Ok (catalog_of _ap_size U S)) /\
    catalog = catalog_of _ap_size U S /\
    Forall (fun rec => Dict.get rec "template_subtracted" = Some (VBool false))
      (U ++ S).
Proof.
  intros isdir dd_0 dd _ab _det_limit _ap_size zp vega catalog Hzp Hvega Hrun
    user_ap U S.
  repeat split.
  - intros st i. eexists. split; [apply process_file_none |].
    cbn [template BCR_temp BCRe_temp mag].
    repeat split; apply zero_rates; auto.
  - intros BCR dd_j. unfold BCGR. apply sub_zero.
  - exact (extract_photometry_exact isdir dd_0 dd _ab _det_limit _ap_size None
             zp vega Hzp Hvega).
  - now apply (extract_photometry_returned isdir dd_0 dd _ab _det_limit _ap_size
                 None zp vega catalog).
  - apply Forall_app. split; apply Forall_map, Forall_forall; intros dd_j _;
      apply magnitude_entry_template_subtracted.
Qed.

Lemma reduction_without_template_witness :
  Forall (fun rec => Dict.get rec "template_subtracted" = Some (VBool false))
    (user_records 0 (Fin 3) "3" None (Fin 18.98, Fin 0.02) (Fin (-0.13))
       [example_row] "B"
     ++ std_records 0 (Fin 3) "3" None (Fin 18.98, Fin 0.02) (Fin (-0.13))
          [example_row] "B").
Proof.
  exact (proj2 (proj2 (proj2 (proj2 (proj2
           (reduction_without_template every_directory example_row [] 0 (Fin 3) "3"
              (Fin 18.98, Fin 0.02) (Fin (-0.13)) _ eq_refl eq_refl
              (example_run 0 "3" (Fin (-0.13)) eq_refl))))))).
Defined.

(** ** Sorting by epoch *)

Lemma insert_by_mjd_perm (x : record) (l : list record) :
  Permutation (insert_by_mjd x l) (x :: l).
Proof.
  induction l as [| y l IH]; simpl; [reflexivity |].
  destruct (Np.lt (mjd_of y) (mjd_of x)); [| reflexivity].
  rewrite IH. apply perm_swap.
Qed.

Lemma chronological_perm (l : list record) : Permutation (chronological l) l.
Proof.
  induction l as [| x l IH]; simpl; [reflexivity |].
  rewrite insert_by_mjd_perm. now constructor.
Qed.

Lemma chronological_Forall (P : record -> Prop) (l : list record) :
  Forall P l -> Forall P (chronological l).
Proof.
  intros H. rewrite Forall_forall in *. intros r Hr. apply H.
  apply (Permutation_in r (chronological_perm l) Hr).
Qed.

Section FiniteKeys.
(** With finite keys, [<] on [npfloat] is the order of the reals. *)

Let le (r1 r2 : record) : Prop := Np.lt (mjd_of r2) (mjd_of r1) = false.
Let fin (r : record) : Prop := exists x : R, mjd_of r = Fin x.

Lemma le_of_lt (r1 r2 : record) :
  fin r1 -> fin r2 -> Np.lt (mjd_of r1) (mjd_of r2) = true -> le r1 r2.
Proof.
  intros [x Hx] [y Hy]. unfold le. rewrite Hx, Hy. unfold Np.lt.
  destruct (Rlt_dec x y), (Rlt_dec y x); try reflexivity; try discriminate.
  lra.
Qed.

Lemma le_trans (r1 r2 r3 : record) :
  fin r1 -> fin r2 -> fin r3 -> le r1 r2 -> le r2 r3 -> le r1 r3.
Proof.
  intros [x Hx] [y Hy] [z Hz]. unfold le. rewrite Hx, Hy, Hz. unfold Np.lt.
  destruct (Rlt_dec y x), (Rlt_dec z y), (Rlt_dec z x);
    try reflexivity; try discriminate.
  lra.
Qed.

Lemma insert_by_mjd_sorted (x : record) (l : list record) :
  fin x -> Forall fin l -> ascending l -> ascending (insert_by_mjd x l).
Proof.
  intros Hx Hl Hs. induction Hs as [| y l Hs IH Hy]; simpl.
  - repeat constructor.
  - inversion Hl as [| ? ? Hfy Hfl]; subst.
    destruct (Np.lt (mjd_of y) (mjd_of x)) eqn:E.
    + constructor; [now apply IH |].
      rewrite Forall_forall. intros r Hr.
      apply (Permutation_in r (insert_by_mjd_perm x l)) in Hr.
      destruct Hr as [<- | Hr].
      * now apply le_of_lt.
      * rewrite Forall_forall in Hy. now apply Hy.
    + constructor; [now constructor |].
      constructor; [exact E |].
      rewrite Forall_forall in *. intros r Hr.
      apply (le_trans x y r); auto. exact (Hy r Hr).
Qed.

Lemma chronological_sorted (l : list record) :
  Forall fin l -> ascending (chronological l).
Proof.
  induction l as [| x l IH]; intros H; simpl.
  - constructor.
  - inversion H; subst. apply insert_by_mjd_sorted; auto.
    now apply chronological_Forall.
Qed.
End FiniteKeys.

Lemma at_epoch_insert (t : R) (x : record) (l : list record) :
  at_epoch t (insert_by_mjd x l) = at_epoch t (x :: l).
Proof.
  induction l as [| y l IH]; [reflexivity |].
  cbn [insert_by_mjd]. destruct (Np.lt (mjd_of y) (mjd_of x)) eqn:E; [| reflexivity].
  unfold at_epoch in *. cbn [filter] in *. rewrite IH.
  destruct (mjd_of y) as [ky | | |] eqn:Hy; try reflexivity.
  destruct (Req_dec_T t ky) as [-> |]; [| reflexivity].
  destruct (mjd_of x) as [kx | | |] eqn:Hx; try reflexivity.
  destruct (Req_dec_T ky kx) as [<- |]; [| reflexivity].
  unfold Np.lt in E. destruct (Rlt_dec ky ky); [lra | discriminate].
Qed.

Lemma chronological_stable (t : R) (l : list record) :
  at_epoch t (chronological l) = at_epoch t l.
Proof.
  induction l as [| x l IH]; [reflexivity |].
  cbn [chronological fold_right]. rewrite at_epoch_insert.
  fold (chronological l). unfold at_epoch in *. cbn [filter]. now rewrite IH.
Qed.

(** ** The output of the catalog *)

Lemma magnitude_entry_record (filter mag_sys : string) (template_ : Z)
    (zp : npfloat * npfloat) (vega _det_limit : npfloat) (rate err : column)
    (dd : row) :
  magnitude_record
    (magnitude_entry filter mag_sys template_ zp vega _det_limit rate err dd).
Proof.
  unfold magnitude_record, magnitude_entry.
  destruct (Np.ge (BCGARs rate err dd) _det_limit);
    do 10 eexists; reflexivity.
Qed.

Lemma magnitude_entry_mjd (filter mag_sys : string) (template_ : Z)
    (zp : npfloat * npfloat) (vega _det_limit : npfloat) (rate err : column)
    (dd : row) :
  mjd_of (magnitude_entry filter mag_sys template_ zp vega _det_limit rate err dd)
  = mjd dd.
Proof.
  unfold magnitude_entry.
  destruct (Np.ge (BCGARs rate err dd) _det_limit); reflexivity.
Qed.

Lemma aperture_records_are_records (_ab : Z) (_det_limit : npfloat)
    (user_ap : string) (_templ_file : option table) (zp : npfloat * npfloat)
    (vega : npfloat) (dd : table) (filter : string) (BCR BCRe : column)
    (label : string) :
  Forall magnitude_record
    (aperture_records _ab _det_limit user_ap _templ_file zp vega dd filter
       BCR BCRe label).
Proof.
  unfold aperture_records. apply Forall_map, Forall_forall. intros dd_j _.
  apply magnitude_entry_record.
Qed.

Lemma record_keys (r : record) : magnitude_record r -> Dict.keys r = record_fields.
Proof. intros (f & m & a & c & l & j & t & u & g & e & ->). reflexivity. Qed.

Lemma record_mjd (r : record) :
  magnitude_record r -> Dict.lookup r "mjd" = Ok (VFloat (mjd_of r)).
Proof. intros (f & m & a & c & l & j & t & u & g & e & ->). reflexivity. Qed.

Lemma record_report (r : record) :
  magnitude_record r -> report_line r = Ok (report_of r).
Proof.
  intros (f & m & a & c & l & j & t & u & g & e & ->).
  destruct u; reflexivity.
Qed.

Lemma insert_sorted_decorate (x : record) (l : list record) :
  insert_sorted (mjd_of x, x) (map (fun r => (mjd_of r, r)) l)
  = map (fun r => (mjd_of r, r)) (insert_by_mjd x l).
Proof.
  induction l as [| y l IH]; [reflexivity |].
  cbn [map insert_sorted insert_by_mjd fst].
  destruct (Np.lt (mjd_of y) (mjd_of x)); [| reflexivity].
  cbn [map]. now rewrite IH.
Qed.

Lemma sort_keyed_decorate (l : list record) :
  sort_keyed (combine (map mjd_of l) l)
  = map (fun r => (mjd_of r, r)) (chronological l).
Proof.
  induction l as [| x l IH]; [reflexivity |].
  cbn [map combine]. unfold sort_keyed in *. cbn [fold_right].
  rewrite IH. apply insert_sorted_decorate.
Qed.

Lemma sorted_by_mjd_ok (l : list record) :
  Forall magnitude_record l -> sorted_by_mjd l = Ok (chronological l).
Proof.
  intros H. unfold sorted_by_mjd.
  rewrite (mapM_ok _ (fun r => VFloat (mjd_of r))).
  2:{ intros r Hr. apply record_mjd. rewrite Forall_forall in H. now apply H. }
  cbn [bind].
  rewrite (mapM_ok as_float (fun v => match v with VFloat x => x | _ => NaN end)).
  2:{ intros v Hv. apply in_map_iff in Hv. destruct Hv as (r & <- & _).
      reflexivity. }
  cbn [bind]. rewrite map_map.
  change (map (fun r => mjd_of r) l) with (map mjd_of l).
  rewrite sort_keyed_decorate, map_map. cbn [snd]. now rewrite map_id.
Qed.

Lemma output_mags_ok (_mag : Dict.t (list record)) (_ap_size : string)
    (files : Dict.t json) (U S : list record) :
  Dict.get _mag (_ap_size ++ "_arcsec") = Some U ->
  Dict.get _mag "5_arcsec" = Some S ->
  Forall magnitude_record S ->
  output_mags _mag _ap_size files
  = Ok (Dict.set _mag "5_arcsec" (chronological S),
        Dict.set (Dict.set files (user_path _ap_size) (json_dumps U))
          std_path (json_dumps S),
        (report_header ++ map report_of (chronological S))%list).
Proof.
  intros HU HS Hrec. unfold output_mags.
  rewrite (lookup_get _ _ _ HU). cbn [bind].
  rewrite (lookup_get _ _ _ HS). cbn [bind].
  rewrite (sorted_by_mjd_ok S Hrec). cbn [bind].
  rewrite (lookup_get _ _ (chronological S)) by apply get_set_same.
  cbn [bind].
  rewrite (mapM_ok report_line report_of).
  2:{ intros r Hr. apply record_report.
      pose proof (chronological_Forall _ _ Hrec) as Hc.
      rewrite Forall_forall in Hc. now apply Hc. }
  reflexivity.
Qed.

Lemma catalog_of_user (_ap_size : string) (U S : list record) :
  Dict.get (catalog_of _ap_size U S) (_ap_size ++ "_arcsec")
  = Some (user_sequence _ap_size U S).
Proof.
  unfold catalog_of, user_sequence.
  destruct (String.eqb "5_arcsec" (_ap_size ++ "_arcsec")) eqn:E;
    cbn [Dict.get].
  - rewrite String.eqb_sym. now rewrite E.
  - now rewrite String.eqb_refl.
Qed.

Lemma catalog_of_std (_ap_size : string) (U S : list record) :
  Dict.get (catalog_of _ap_size U S) "5_arcsec"
  = Some (std_sequence _ap_size U S).
Proof.
  unfold catalog_of, std_sequence.
  destruct (String.eqb "5_arcsec" (_ap_size ++ "_arcsec")) eqn:E;
    cbn [Dict.get].
  - now rewrite String.eqb_refl.
  - now rewrite E, String.eqb_refl.
Qed.

Lemma sequences_are_records (_ab : Z) (_det_limit : npfloat) (_ap_size : string)
    (_templ_file : option table) (zp : npfloat * npfloat) (vega : npfloat)
    (dd : table) (filter : string) :
  let U := user_records _ab _det_limit _ap_size _templ_file zp vega dd filter in
  let S := std_records _ab _det_limit _ap_size _templ_file zp vega dd filter in
  Forall magnitude_record (user_sequence _ap_size U S) /\
  Forall magnitude_record (std_sequence _ap_size U S).
Proof.
  intros U S.
  assert (HU : Forall magnitude_record U) by apply aperture_records_are_records.
  assert (HS : Forall magnitude_record S) by apply aperture_records_are_records.
  unfold user_sequence, std_sequence.
  destruct (String.eqb "5_arcsec" (_ap_size ++ "_arcsec"));
    split; try assumption; apply Forall_app; now split.
Qed.

Lemma json_fields (l : list record) :
  Forall magnitude_record l ->
  Forall (fun object => map fst object = record_fields) (json_dumps l).
Proof.
  intros H. unfold json_dumps. apply Forall_map.
  rewrite Forall_forall in *. intros r Hr.
  unfold json_of_record. rewrite map_map. cbn [fst].
  apply (record_keys r), H, Hr.
Qed.

(** C8 as stated fails: the records written for one B-band epoch have an
    item [mjd], which is not a field name of the data model. *)
Lemma serialized_fields_differ_from_data_model :
  exists catalog,
    extract_photometry every_directory (Some [example_row]) 0 (Fin 3) "3" None
    = Ok catalog /\
    ~ serialized_with_fields spec_fields catalog "3".
Proof.
  set (U := user_records 0 (Fin 3) "3" None (Fin 18.98, Fin 0.02) (Fin (-0.13))
              [example_row] "B").
  set (S := std_records 0 (Fin 3) "3" None (Fin 18.98, Fin 0.02) (Fin (-0.13))
              [example_row] "B").
  exists (catalog_of "3" U S). split.
  - exact (example_run 0 "3" (Fin (-0.13)) eq_refl).
  - intros Hclaim.
    assert (HS : Forall magnitude_record S) by apply aperture_records_are_records.
    pose proof (output_mags_ok (catalog_of "3" U S) "3" [] U S
                  eq_refl eq_refl HS) as Hout.
    specialize (Hclaim _ _ _ Hout std_path (json_dumps S) (get_set_same _ _ _)).
    pose proof (json_fields S HS) as Hkeys.
    unfold S, std_records, aperture_records in Hclaim, Hkeys.
    cbn [map json_dumps] in Hclaim, Hkeys.
    inversion Hclaim as [| object ? Hobject _]; subst.
    inversion Hkeys as [| ? ? Hfields _]; subst.
    rewrite Hfields in Hobject.
    assert (Hin : In "mjd"%string spec_fields).
    { apply Hobject. unfold record_fields. simpl. tauto. }
    unfold spec_fields in Hin. simpl in Hin.
    repeat (destruct Hin as [Hin | Hin]; [discriminate Hin |]).
    exact Hin.
Qed.

(** C8, amended.  For the catalog that a run of [extract_photometry]
    returns, the two JSON arrays written by [output_mags] hold the
    sequences of the catalog, and every record in them carries exactly the
    items [filter], [aperture_correction], [coincidence_loss_correction],
    [mag_sys], [mag_limit], [template_subtracted], [mjd], [upper_limit],
    [mag] and [mag_err], in this order. *)
Theorem serialized_field_names :
  forall (isdir : string -> bool) (dd_0 : row) (dd : table) (_ab : Z)
         (_det_limit : npfloat) (_ap_size : string) (_templ_file : option table)
         (zp : npfloat * npfloat) (vega : npfloat) (files : Dict.t json)
         (catalog : Dict.t (list record)),
    Dict.get ZP (FILTER dd_0) = Some zp ->
    Dict.get (Vega_corr_of _ab) (FILTER dd_0) = Some vega ->
    extract_photometry isdir (Some (dd_0 :: dd)) _ab _det_limit _ap_size _templ_file
      = Ok catalog ->
    let U := user_records _ab _det_limit _ap_size _templ_file zp vega
               (dd_0 :: dd) (FILTER dd_0) in
    let S := std_records _ab _det_limit _ap_size _templ_file zp vega
               (dd_0 :: dd) (FILTER dd_0) in
    let user_array := json_dumps (user_sequence _ap_size U S) in
    let std_array := json_dumps (std_sequence _ap_size U S) in
    Dict.get catalog (_ap_size ++ "_arcsec") = Some (user_sequence _ap_size U S) /\
    Dict.get catalog "5_arcsec" = Some (std_sequence _ap_size U S) /\
    (exists _mag' out,
        output_mags catalog _ap_size files
        = Ok (_mag',
              Dict.set (Dict.set files (user_path _ap_size) user_array)
                std_path std_array,
              out)) /\
    Forall (fun object => map fst object = record_fields) user_array /\
    Forall (fun object => map fst object = record_fields) std_array.
Proof.
  intros isdir dd_0 dd _ab _det_limit _ap_size _templ_file zp vega files catalog
    Hzp Hvega Hrun U S user_array std_array.
  destruct (sequences_are_records _ab _det_limit _ap_size _templ_file zp vega
              (dd_0 :: dd) (FILTER dd_0)) as [HU HS].
  fold U S in HU, HS.
  destruct (extract_photometry_returned isdir dd_0 dd _ab _det_limit _ap_size
              _templ_file zp vega catalog Hzp Hvega Hrun) as [-> _].
  fold U S.
  split; [apply catalog_of_user |]. split; [apply catalog_of_std |].
  split; [| split; now apply json_fields].
  do 2 eexists.
  apply output_mags_ok;
    [apply catalog_of_user | apply catalog_of_std | exact HS].
Qed.

Lemma serialized_field_names_witness :
  Forall (fun object => map fst object = record_fields)
    (json_dumps
       (user_sequence "3"
          (user_records 0 (Fin 3) "3" None (Fin 18.98, Fin 0.02) (Fin (-0.13))
             [example_row] "B")
          (std_records 0 (Fin 3) "3" None (Fin 18.98, Fin 0.02) (Fin (-0.13))
             [example_row] "B"))).
Proof.
  exact (proj1 (proj2 (proj2 (proj2
           (serialized_field_names every_directory example_row [] 0 (Fin 3) "3" None
              (Fin 18.98, Fin 0.02) (Fin (-0.13)) [] _ eq_refl eq_refl
              (example_run 0 "3" (Fin (-0.13)) eq_refl)))))).
Defined.

Lemma mjd_finite (dd : row) (a b : R) :
  TSTART dd = Fin a -> TSTOP dd = Fin b ->
  mjd dd = Fin (51910 + (a + b) / 2 / 86400).
Proof.
  intros Ha Hb. unfold mjd, mjdref. rewrite Ha, Hb. cbn [Np.add].
  rewrite !div_fin by lra. cbn [Np.add]. f_equal. lra.
Qed.

(** C9 as stated fails: for a science table whose later epoch comes first,
    the sequence of the 3 arcsec aperture is still in the order of the table
    once [output_mags] has run. *)
Lemma user_sequence_is_not_sorted :
  exists catalog,
    extract_photometry every_directory (Some [late_row; early_row]) 1 (Fin 3) "3"
      None = Ok catalog /\
    ~ output_is_chronological catalog "3".
Proof.
  set (U := user_records 1 (Fin 3) "3" None (Fin 18.98, Fin 0.02) (Fin 0)
              [late_row; early_row] "B").
  set (S := std_records 1 (Fin 3) "3" None (Fin 18.98, Fin 0.02) (Fin 0)
              [late_row; early_row] "B").
  exists (catalog_of "3" U S). split.
  - exact two_epochs_run.
  - intros Hclaim.
    assert (HS : Forall magnitude_record S) by apply aperture_records_are_records.
    pose proof (output_mags_ok (catalog_of "3" U S) "3" [] U S
                  eq_refl eq_refl HS) as Hout.
    specialize (Hclaim _ _ _ Hout "3_arcsec"%string U eq_refl).
    unfold U, user_records, aperture_records in Hclaim. cbn [map] in Hclaim.
    inversion Hclaim as [| r l _ Hall]; subst.
    inversion Hall as [| r' l' Hlt _]; subst.
    rewrite !magnitude_entry_mjd in Hlt.
    rewrite (mjd_finite early_row 0 0 eq_refl eq_refl) in Hlt.
    rewrite (mjd_finite late_row 86400 86400 eq_refl eq_refl) in Hlt.
    rewrite lt_fin_true in Hlt by lra. discriminate Hlt.
Qed.

(** C9, amended.  [output_mags] writes the two JSON arrays from the
    sequences of the catalog in the order it receives them, then replaces
    the 5 arcsec sequence by its stable sort by [mjd] and prints, under two
    header lines, one line per record of the sorted sequence: [mjd] with 5
    decimals, the filter, the limit or the magnitude with 4 decimals, and
    0.0 or the magnitude error with 4 decimals.  The sorted sequence is a
    permutation of the 5 arcsec sequence that keeps the records of equal
    [mjd] in their order, and is ascending when every [mjd] is finite; the
    sequence of another label is left as it is. *)
Theorem report_is_chronological :
  forall (_mag : Dict.t (list record)) (_ap_size : string) (files : Dict.t json)
         (U S : list record),
    Dict.get _mag (_ap_size ++ "_arcsec") = Some U ->
    Dict.get _mag "5_arcsec" = Some S ->
    Forall magnitude_record S ->
    output_mags _mag _ap_size files
    = Ok (Dict.set _mag "5_arcsec" (chronological S),
          Dict.set (Dict.set files (user_path _ap_size) (json_dumps U))
            std_path (json_dumps S),
          (report_header ++ map report_of (chronological S))%list) /\
    Permutation (chronological S) S /\
    (forall t : R, at_epoch t (chronological S) = at_epoch t S) /\
    (Forall (fun r => exists t : R, mjd_of r = Fin t) S ->
     ascending (chronological S)) /\
    (forall label, label <> "5_arcsec"%string ->
       Dict.get (Dict.set _mag "5_arcsec" (chronological S)) label
       = Dict.get _mag label) /\
    (forall filter mag_sys apc clc mag_limit mjd_ ts ul mag_ mag_err,
        report_of (record_of filter mag_sys apc clc mag_limit mjd_ ts ul mag_ mag_err)
        = [TFixed 5 mjd_; TValue (VStr filter);
           TFixed 4 (if ul then mag_limit else mag_);
           TFixed 4 (if ul then Fin 0.0 else mag_err)]).
Proof.
  intros _mag _ap_size files U S HU HS Hrec.
  split; [now apply output_mags_ok |].
  split; [apply chronological_perm |].
  split; [intros t; apply chronological_stable |].
  split; [apply chronological_sorted |].
  split.
  - intros label Hne. apply get_set_other. congruence.
  - intros. destruct ul; reflexivity.
Qed.

Lemma report_is_chronological_witness :
  output_mags example_catalog "3" []
  = Ok (Dict.set example_catalog "5_arcsec"
          (chronological [example_late; example_early]),
        Dict.set (Dict.set [] (user_path "3")
                    (json_dumps [example_late; example_early]))
          std_path (json_dumps [example_late; example_early]),
        (report_header
         ++ map report_of (chronological [example_late; example_early]))%list).
Proof.
  refine (proj1 (report_is_chronological example_catalog "3" []
                   [example_late; example_early] [example_late; example_early]
                   eq_refl eq_refl _)).
  repeat constructor; do 10 eexists; reflexivity.
Defined.

Lemma chronological_example :
  chronological [example_late; example_early] = [example_early; example_late].
Proof.
  cbn [chronological fold_right insert_by_mjd].
  change (mjd_of example_early) with (Fin 1).
  change (mjd_of example_late) with (Fin 2).
  now rewrite lt_fin_true by lra.
Qed.

(** ** The aperture size 5 *)

(** C10. With the aperture size ["5"] the label of the user aperture is
    [5_arcsec]: the catalog that a run returns has this single label, its
    sequence holds the records of the user aperture followed by those of
    the 5 arcsec aperture, one of each per epoch, and [output_mags] writes
    this sequence twice, to the same path. *)
Theorem aperture_five_single_sequence :
  forall (isdir : string -> bool) (dd_0 : row) (dd : table) (_ab : Z)
         (_det_limit : npfloat) (_templ_file : option table)
         (zp : npfloat * npfloat) (vega : npfloat) (files : Dict.t json)
         (catalog : Dict.t (list record)),
    Dict.get ZP (FILTER dd_0) = Some zp ->
    Dict.get (Vega_corr_of _ab) (FILTER dd_0) = Some vega ->
    extract_photometry isdir (Some (dd_0 :: dd)) _ab _det_limit "5" _templ_file
      = Ok catalog ->
    let U := user_records _ab _det_limit "5" _templ_file zp vega
               (dd_0 :: dd) (FILTER dd_0) in
    let S := std_records _ab _det_limit "5" _templ_file zp vega
               (dd_0 :: dd) (FILTER dd_0) in
    ("5" ++ "_arcsec")%string = "5_arcsec"%string /\
    user_path "5" = std_path /\
    catalog = [("5_arcsec"%string, (U ++ S)%list)] /\
    List.length U = List.length (dd_0 :: dd) /\
    List.length S = List.length (dd_0 :: dd) /\
    map mjd_of U = map mjd (dd_0 :: dd) /\
    map mjd_of S = map mjd (dd_0 :: dd) /\
    output_mags catalog "5" files
    = Ok ([("5_arcsec"%string, chronological (U ++ S))],
          Dict.set (Dict.set files std_path (json_dumps (U ++ S)))
            std_path (json_dumps (U ++ S)),
          (report_header ++ map report_of (chronological (U ++ S)))%list).
Proof.
  intros isdir dd_0 dd _ab _det_limit _templ_file zp vega files catalog
    Hzp Hvega Hrun U S.
  destruct (extract_photometry_returned isdir dd_0 dd _ab _det_limit "5"
              _templ_file zp vega catalog Hzp Hvega Hrun) as [-> _].
  fold U S.
  split; [reflexivity |]. split; [reflexivity |]. split; [reflexivity |].
  split; [| split; [| split; [| split]]].
  - unfold U, user_records, aperture_records. apply length_map.
  - unfold S, std_records, aperture_records. apply length_map.
  - unfold U, user_records, aperture_records. rewrite map_map.
    apply map_ext. intros r. apply magnitude_entry_mjd.
  - unfold S, std_records, aperture_records. rewrite map_map.
    apply map_ext. intros r. apply magnitude_entry_mjd.
  - apply (output_mags_ok [("5_arcsec"%string, (U ++ S)%list)] "5" files
             (U ++ S) (U ++ S) eq_refl eq_refl).
    apply Forall_app. split; apply aperture_records_are_records.
Qed.

Lemma aperture_five_single_sequence_witness :
  catalog_of "5"
    (user_records 0 (Fin 3) "5" None (Fin 18.98, Fin 0.02) (Fin (-0.13))
       [example_row] "B")
    (std_records 0 (Fin 3) "5" None (Fin 18.98, Fin 0.02) (Fin (-0.13))
       [example_row] "B")
  = [("5_arcsec"%string,
      (user_records 0 (Fin 3) "5" None (Fin 18.98, Fin 0.02) (Fin (-0.13))
         [example_row] "B"
       ++ std_records 0 (Fin 3) "5" None (Fin 18.98, Fin 0.02) (Fin (-0.13))
            [example_row] "B")%list)].
Proof.
  exact (proj1 (proj2 (proj2
           (aperture_five_single_sequence every_directory example_row [] 0
              (Fin 3) None (Fin 18.98, Fin 0.02) (Fin (-0.13)) [] _
              eq_refl eq_refl (example_run 0 "5" (Fin (-0.13)) eq_refl))))).
Defined.

(** * Further properties of the reduction *)

(** ** Bounds on the template aggregate *)

Section SumBounds.
Context {A : Type}.
Implicit Types (f g : A -> R) (l : list A).

Lemma Rsum_le f g l :
  (forall a, In a l -> f a <= g a) -> Rsum f l <= Rsum g l.
Proof.
  induction l as [| a l IH]; intros H; simpl; [lra |].
  assert (f a <= g a) by (apply H; now left).
  assert (Rsum f l <= Rsum g l) by (apply IH; intros; apply H; now right).
  lra.
Qed.

Lemma Rsum_scal (c : R) f l : Rsum (fun a => c * f a) l = c * Rsum f l.
Proof.
  induction l as [| a l IH]; simpl; [lra |]. rewrite IH. lra.
Qed.

Lemma Rsum_ge_term f l (a : A) :
  (forall b, In b l -> 0 <= f b) -> In a l -> f a <= Rsum f l.
Proof.
  induction l as [| b l IH]; intros Hpos Hin; [contradiction |].
  simpl. assert (0 <= f b) by (apply Hpos; now left).
  assert (0 <= Rsum f l).
  { apply Rsum_nonneg. intros; apply Hpos; now right. }
  destruct Hin as [-> | Hin]; [lra |].
  assert (f a <= Rsum f l) by (apply IH; auto; intros; apply Hpos; now right).
  lra.
Qed.
End SumBounds.

Lemma template_weighted_average_formula (dd : table) (BCR BCRe : column)
    (rate err : row -> R) :
  dd <> [] ->
  (forall r, In r dd -> BCR r = Fin (rate r) /\ BCRe r = Fin (err r) /\ 0 < err r) ->
  weighted_average dd BCR BCRe =
    (Fin (Rsum (fun r => rate r / err r ^ 2) dd / Rsum (fun r => 1 / err r ^ 2) dd),
     Fin (sqrt (1 / Rsum (fun r => 1 / err r ^ 2) dd))) /\
  0 < Rsum (fun r => 1 / err r ^ 2) dd.
Proof.
  intros Hne H.
  assert (Hw : 0 < Rsum (fun r => 1 / err r ^ 2) dd).
  { apply Rsum_pos; [assumption |]. intros r Hr. apply inv_sq_pos, H, Hr. }
  split; [| exact Hw].
  unfold weighted_average.
  assert (Hden : Np.sum (map (fun r => (1 / Np.sq (BCRe r))%np) dd)
                 = Fin (Rsum (fun r => 1 / err r ^ 2) dd)).
  { apply np_sum_map_fin. intros r Hr. destruct (H r Hr) as (_ & -> & He).
    unfold Np.sq. cbn [Np.mul]. rewrite div_fin by nra. f_equal. field. lra. }
  assert (Hnum : Np.sum (map (fun r => (BCR r / Np.sq (BCRe r))%np) dd)
                 = Fin (Rsum (fun r => rate r / err r ^ 2) dd)).
  { apply np_sum_map_fin. intros r Hr. destruct (H r Hr) as (-> & -> & He).
    unfold Np.sq. cbn [Np.mul]. rewrite div_fin by nra. f_equal. field. lra. }
  rewrite Hden, Hnum, !div_fin by lra.
  rewrite sqrt_fin; [reflexivity |].
  apply Rlt_le, Rdiv_lt_0_compat; lra.
Qed.

(** The template rate lies between any two bounds of the rates it is
    averaged from, and the template error is positive and not larger than
    the error of any of the observations. *)
Theorem template_aggregate_bounds :
  forall (dd : table) (BCR BCRe : column) (rate err : row -> R) (lo hi : R),
    dd <> [] ->
    (forall r, In r dd -> BCR r = Fin (rate r) /\ BCRe r = Fin (err r) /\ 0 < err r) ->
    (forall r, In r dd -> lo <= rate r <= hi) ->
    exists ref ref_err : R,
      weighted_average dd BCR BCRe = (Fin ref, Fin ref_err) /\
      lo <= ref <= hi /\
      0 < ref_err /\
      (forall r, In r dd -> ref_err <= err r).
Proof.
  intros dd BCR BCRe rate err lo hi Hne H Hb.
  destruct (template_weighted_average_formula dd BCR BCRe rate err Hne H)
    as (Hwa & Hw).
  set (W := Rsum (fun r => 1 / err r ^ 2) dd) in *.
  set (N := Rsum (fun r => rate r / err r ^ 2) dd) in *.
  exists (N / W), (sqrt (1 / W)). split; [exact Hwa |].
  assert (Hterm : forall r, In r dd -> 0 < 1 / err r ^ 2).
  { intros r Hr. apply inv_sq_pos, H, Hr. }
  assert (Hlo : lo * W <= N).
  { unfold W, N. rewrite <- Rsum_scal. apply Rsum_le. intros r Hr.
    specialize (Hterm r Hr). specialize (Hb r Hr).
    replace (rate r / err r ^ 2) with (rate r * (1 / err r ^ 2)) by (unfold Rdiv; ring).
    nra. }
  assert (Hhi : N <= hi * W).
  { unfold W, N. rewrite <- Rsum_scal. apply Rsum_le. intros r Hr.
    specialize (Hterm r Hr). specialize (Hb r Hr).
    replace (rate r / err r ^ 2) with (rate r * (1 / err r ^ 2)) by (unfold Rdiv; ring).
    nra. }
  assert (Hinv : 0 < 1 / W) by (apply Rdiv_lt_0_compat; lra).
  repeat split.
  - apply (Rmult_le_reg_r W); [lra |].
    replace (N / W * W) with N by (field; lra). exact Hlo.
  - apply (Rmult_le_reg_r W); [lra |].
    replace (N / W * W) with N by (field; lra). exact Hhi.
  - now apply sqrt_lt_R0.
  - intros r Hr. destruct (H r Hr) as (_ & _ & He).
    assert (Hr2 : 1 / err r ^ 2 <= W).
    { unfold W. apply (Rsum_ge_term (fun r => 1 / err r ^ 2)); [| exact Hr].
      intros b Hb'. apply Rlt_le, Hterm, Hb'. }
    rewrite <- (sqrt_pow2 (err r)) by lra.
    apply sqrt_le_1_alt.
    assert (Hpos : 0 < err r ^ 2) by (apply pow_lt; exact He).
    apply (Rmult_le_reg_r W); [lra |].
    replace (1 / W * W) with 1 by (field; lra).
    apply (Rmult_le_compat_l (err r ^ 2)) in Hr2; [| lra].
    replace (err r ^ 2 * (1 / err r ^ 2)) with 1 in Hr2 by (field; lra).
    exact Hr2.
Qed.

Lemma template_aggregate_bounds_witness :
  exists ref ref_err : R,
    weighted_average example_template S3BCR (S3BCRe 1 0) = (Fin ref, Fin ref_err) /\
    4 <= ref <= 6 /\
    0 < ref_err /\
    (forall r, In r example_template ->
               ref_err <= match S3BCRe 1 0 r with Fin e => e | _ => 0 end).
Proof.
  refine (template_aggregate_bounds example_template S3BCR (S3BCRe 1 0)
            (fun r => match S3BCR r with Fin x => x | _ => 0 end)
            (fun r => match S3BCRe 1 0 r with Fin e => e | _ => 0 end)
            4 6 _ _ _).
  - discriminate.
  - intros r [<- | [<- | []]]; cbn; repeat split; lra.
  - intros r [<- | [<- | []]]; cbn; lra.
Defined.

(** ** Error propagation *)

Lemma sqrt_sum_ge_left (e t : R) : 0 <= e -> e <= sqrt (e * e + t * t).
Proof.
  intros He. rewrite <- (sqrt_square e) at 1 by assumption.
  apply sqrt_le_1_alt. nra.
Qed.

(** Neither the 3% systematic nor the subtraction of the template reduces
    an error: on finite input with a non-negative error [e], the error of
    the user aperture is at least [e], and the subtracted error is at least
    [e] and at least the absolute value of the template error. *)
Theorem errors_never_shrink :
  forall (template_ : Z) (i : nat) (dd : row) (c s e : R)
         (BCRe : column) (BCRe_t : npfloat) (be t : R),
    COI_SRC_RATE dd = Fin c -> SENSCORR_FACTOR dd = Fin s ->
    COI_SRC_RATE_ERR dd = Fin e -> 0 <= e ->
    BCRe dd = Fin be -> BCRe_t = Fin t -> 0 <= be ->
    (exists e' : R, S3BCRe template_ i dd = Fin e' /\ e <= e') /\
    (exists sub_err : R,
        BCGRe BCRe BCRe_t dd = Fin sub_err /\ be <= sub_err /\ Rabs t <= sub_err).
Proof.
  intros template_ i dd c s e BCRe BCRe_t be t Hc Hs He Hpos Hbe Ht Hbpos.
  split.
  - unfold S3BCRe, S3BCR, SC. rewrite Hc, Hs, He.
    destruct (is_true template_ && Nat.eqb i 1).
    + unfold Np.sq. cbn [Np.mul Np.add]. rewrite sqrt_fin by nra.
      eexists. split; [reflexivity |]. now apply sqrt_sum_ge_left.
    + exists e. split; [reflexivity | lra].
  - unfold BCGRe. rewrite Hbe, Ht. unfold Np.sq. cbn [Np.mul Np.add].
    rewrite sqrt_fin by nra.
    eexists. split; [reflexivity |]. split.
    + now apply sqrt_sum_ge_left.
    + rewrite <- sqrt_Rsqr_abs. apply sqrt_le_1_alt. unfold Rsqr. nra.
Qed.

Lemma errors_never_shrink_witness :
  (exists e' : R, S3BCRe 1 1 example_row = Fin e' /\ 1 <= e') /\
  (exists sub_err : R,
      BCGRe (S3BCRe 1 1) (Fin 2) example_row = Fin sub_err /\
      sqrt (1 * 1 + 10 * 2 * 0.03 * (10 * 2 * 0.03)) <= sub_err /\
      Rabs 2 <= sub_err).
Proof.
  refine (errors_never_shrink 1 1 example_row 10 2 1 (S3BCRe 1 1) (Fin 2)
            (sqrt (1 * 1 + 10 * 2 * 0.03 * (10 * 2 * 0.03))) 2
            eq_refl eq_refl eq_refl _ _ eq_refl _).
  - lra.
  - unfold S3BCRe, S3BCR, SC, example_row. cbn [is_true Z.eqb negb andb Nat.eqb].
    row_fields. fin_arith. apply sqrt_fin. nra.
  - apply sqrt_pos.
Defined.

(** ** What the filter names are used for *)

Lemma weighted_average_map (g : row -> row) (BCR BCRe : column) (dd : table) :
  (forall r, BCR (g r) = BCR r /\ BCRe (g r) = BCRe r) ->
  weighted_average (map g dd) BCR BCRe = weighted_average dd BCR BCRe.
Proof.
  intros H. unfold weighted_average. rewrite !map_map.
  assert (H1 : map (fun r => (BCR (g r) / Np.sq (BCRe (g r)))%np) dd
               = map (fun r => (BCR r / Np.sq (BCRe r))%np) dd).
  { apply map_ext. intros r. now destruct (H r) as [-> ->]. }
  assert (H2 : map (fun r => (1 / Np.sq (BCRe (g r)))%np) dd
               = map (fun r => (1 / Np.sq (BCRe r))%np) dd).
  { apply map_ext. intros r. now destruct (H r) as [_ ->]. }
  now rewrite H1, H2.
Qed.

Lemma S3BCRe_with_FILTER (template_ : Z) (i : nat) (filter : string) (dd : table) :
  map (S3BCRe template_ i) (map (with_FILTER filter) dd) = map (S3BCRe template_ i) dd.
Proof. rewrite map_map. apply map_ext. reflexivity. Qed.

Lemma process_file_template_filter (isdir : string -> bool) (mag_sys : string)
    (Vega_corr : Dict.t npfloat)
    (_det_limit : npfloat) (u : string) (st : state) (filter : string)
    (t_0 : row) (t : table) :
  isdir (fig_dir filter) = isdir (fig_dir (FILTER t_0)) ->
  process_file isdir mag_sys Vega_corr _det_limit u st 0
    (Some (map (with_FILTER filter) (t_0 :: t)))
  = process_file isdir mag_sys Vega_corr _det_limit u st 0 (Some (t_0 :: t)).
Proof.
  intros Hdir. cbn [map]. rewrite !process_file_template.
  change (with_FILTER filter t_0 :: map (with_FILTER filter) t)
    with (map (with_FILTER filter) (t_0 :: t)).
  rewrite S3BCRe_with_FILTER.
  rewrite !weighted_average_map by (intros r; split; reflexivity).
  unfold savefig. cbn [with_FILTER FILTER]. rewrite Hdir.
  reflexivity.
Qed.

(** The filter of the template table is used for one thing only, the
    directory in which the figure of the template is saved: it is not
    looked up in the calibration tables and not compared with the filter
    of the science table.  With another filter name on the template rows
    the reduction gives the same result, errors included, as long as the
    directory of the figures of that name exists exactly when the one of
    the original name does, so that a template taken in another band is
    subtracted without an error.  A template whose directory of figures
    does not exist makes the reduction raise [FileNotFoundError]. *)
Theorem template_filter_names_a_directory :
  forall (isdir : string -> bool) (_phot_file : option table) (_ab : Z)
         (_det_limit : npfloat) (_ap_size : string) (t_0 : row) (t : table)
         (filter : string),
    isdir (fig_dir filter) = isdir (fig_dir (FILTER t_0)) ->
    extract_photometry isdir _phot_file _ab _det_limit _ap_size
      (Some (map (with_FILTER filter) (t_0 :: t)))
    = extract_photometry isdir _phot_file _ab _det_limit _ap_size (Some (t_0 :: t)) /\
    (errorbar (map COI_SRC_RATE_ERR (t_0 :: t)) = Ok tt ->
     isdir (fig_dir (FILTER t_0)) = false ->
     extract_photometry isdir _phot_file _ab _det_limit _ap_size (Some (t_0 :: t))
     = Err FileNotFoundError).
Proof.
  intros isdir _phot_file _ab _det_limit _ap_size t_0 t filter Hdir. split.
  - unfold extract_photometry.
    destruct (Z.eqb _ab 1); cbn [fold_left fst snd bind];
      now rewrite process_file_template_filter.
  - intros Hdrawn Hnone. unfold extract_photometry.
    destruct (Z.eqb _ab 1); cbn [fold_left fst snd bind];
      rewrite process_file_template;
      change (map (S3BCRe 1 0) (t_0 :: t)) with (map COI_SRC_RATE_ERR (t_0 :: t));
      rewrite Hdrawn; unfold savefig; rewrite Hnone; reflexivity.
Qed.

Lemma template_filter_names_a_directory_witness :
  extract_photometry every_directory (Some [example_row]) 0 (Fin 3) "3"
    (Some (map (with_FILTER "R") example_template))
  = extract_photometry every_directory (Some [example_row]) 0 (Fin 3) "3"
      (Some example_template).
Proof.
  exact (proj1 (template_filter_names_a_directory every_directory
                  (Some [example_row]) 0 (Fin 3) "3"
                  (finite_row "B" 0 0 1 4 1 4 1 1 0 0 1 1 1)
                  [finite_row "B" 0 0 1 6 2 6 2 1 0 0 1 1 1] "R" eq_refl)).
Defined.

Lemma magnitude_entry_filter (filter mag_sys : string) (template_ : Z)
    (zp : npfloat * npfloat) (vega _det_limit : npfloat) (rate err : column)
    (dd : row) :
  item (magnitude_entry filter mag_sys template_ zp vega _det_limit rate err dd)
    "filter" = VStr filter.
Proof.
  unfold magnitude_entry.
  destruct (Np.ge (BCGARs rate err dd) _det_limit); reflexivity.
Qed.

Lemma aperture_records_map_filter (_ab : Z) (_det_limit : npfloat)
    (user_ap : string) (_templ_file : option table) (zp : npfloat * npfloat)
    (vega : npfloat) (dd : table) (filter f : string) (BCR BCRe : column)
    (label : string) :
  (forall r, BCR (with_FILTER f r) = BCR r /\ BCRe (with_FILTER f r) = BCRe r) ->
  aperture_records _ab _det_limit user_ap _templ_file zp vega
    (map (with_FILTER f) dd) filter BCR BCRe label
  = aperture_records _ab _det_limit user_ap _templ_file zp vega
      dd filter BCR BCRe label.
Proof.
  intros H. unfold aperture_records. rewrite map_map. apply map_ext.
  intros r. destruct (H r) as [Hr He].
  unfold magnitude_entry, BCGARs, BCGAMl, BCGAR, BCGARe, BCGR, BCGRe.
  rewrite Hr, He. reflexivity.
Qed.

(** Every record of a returned catalog is labelled and calibrated with the
    filter of the first row of the science table: the filter names of the
    other rows are never read, and rows of another band get the zero point
    of the first. *)
Theorem first_row_filter_calibrates_all :
  forall (isdir : string -> bool) (dd_0 : row) (dd : table) (_ab : Z)
         (_det_limit : npfloat) (_ap_size : string) (_templ_file : option table)
         (zp : npfloat * npfloat) (vega : npfloat)
         (catalog : Dict.t (list record)),
    Dict.get ZP (FILTER dd_0) = Some zp ->
    Dict.get (Vega_corr_of _ab) (FILTER dd_0) = Some vega ->
    extract_photometry isdir (Some (dd_0 :: dd)) _ab _det_limit _ap_size _templ_file
      = Ok catalog ->
    let U := user_records _ab _det_limit _ap_size _templ_file zp vega
               (dd_0 :: dd) (FILTER dd_0) in
    let S := std_records _ab _det_limit _ap_size _templ_file zp vega
               (dd_0 :: dd) (FILTER dd_0) in
    catalog = catalog_of _ap_size U S /\
    Forall (fun rec => item rec "filter" = VStr (FILTER dd_0)) (U ++ S) /\
    (forall filter,
        extract_photometry isdir (Some (dd_0 :: map (with_FILTER filter) dd))
          _ab _det_limit _ap_size _templ_file
        = Ok catalog).
Proof.
  intros isdir dd_0 dd _ab _det_limit _ap_size _templ_file zp vega catalog
    Hzp Hvega Hrun U S.
  split; [| split].
  - now apply (extract_photometry_returned isdir dd_0 dd _ab _det_limit _ap_size
                 _templ_file zp vega catalog).
  - apply Forall_app. split; apply Forall_map, Forall_forall; intros dd_j _;
      apply magnitude_entry_filter.
  - intros filter. rewrite <- Hrun.
    rewrite !(extract_photometry_exact isdir dd_0 _ _ab _det_limit _ap_size
                _templ_file zp vega Hzp Hvega).
    unfold science_figures, user_records, std_records.
    change (dd_0 :: map (with_FILTER filter) dd)
      with ([dd_0] ++ map (with_FILTER filter) dd)%list.
    change (dd_0 :: dd) with ([dd_0] ++ dd)%list.
    unfold aperture_records. rewrite !map_app.
    fold (aperture_records _ab _det_limit (_ap_size ++ "_arcsec") _templ_file zp vega
            (map (with_FILTER filter) dd) (FILTER dd_0) S3BCR
            (S3BCRe (template_flag _templ_file) 1) (_ap_size ++ "_arcsec")).
    fold (aperture_records _ab _det_limit (_ap_size ++ "_arcsec") _templ_file zp vega
            (map (with_FILTER filter) dd) (FILTER dd_0) S5BCR
            (S5BCRe (template_flag _templ_file) 1) "5_arcsec").
    rewrite !aperture_records_map_filter by (intros r; split; reflexivity).
    rewrite S3BCRe_with_FILTER.
    reflexivity.
Qed.

Lemma first_row_filter_calibrates_all_witness :
  Forall (fun rec => item rec "filter" = VStr "B")
    (user_records 0 (Fin 3) "3" None (Fin 18.98, Fin 0.02) (Fin (-0.13))
       [example_row; other_band_row] "B"
     ++ std_records 0 (Fin 3) "3" None (Fin 18.98, Fin 0.02) (Fin (-0.13))
          [example_row; other_band_row] "B").
Proof.
  exact (proj1 (proj2
           (first_row_filter_calibrates_all every_directory example_row
              [other_band_row] 0 (Fin 3) "3" None (Fin 18.98, Fin 0.02)
              (Fin (-0.13)) _ eq_refl eq_refl two_bands_run))).
Defined.

(** ** The two magnitude systems *)

Lemma Forall2_map_both {A B C : Type} (P : B -> C -> Prop) (f : A -> B) (g : A -> C)
    (l : list A) :
  (forall a, P (f a) (g a)) -> Forall2 P (map f l) (map g l).
Proof. intros H. induction l; simpl; constructor; auto. Qed.

Lemma AB_corr_zero (filter : string) (zp : npfloat * npfloat) :
  Dict.get ZP filter = Some zp -> Dict.get (Vega_corr_of 1) filter = Some (Fin 0).
Proof.
  unfold Vega_corr_of, ZP. cbn.
  repeat (match goal with
          | |- context [String.eqb filter ?k] => destruct (String.eqb filter k)
          end; [intros _; reflexivity |]).
  discriminate.
Qed.

Lemma magnitude_entry_shift (filter : string) (template_ : Z)
    (zp : npfloat * npfloat) (vega _det_limit : npfloat) (rate err : column)
    (dd : row) :
  shifted_by vega
    (magnitude_entry filter "AB" template_ zp (Fin 0) _det_limit rate err dd)
    (magnitude_entry filter "Vega" template_ zp vega _det_limit rate err dd).
Proof.
  unfold shifted_by, magnitude_entry, BCGAMl.
  destruct (Np.ge (BCGARs rate err dd) _det_limit);
    unfold float_item, item, Dict.keys;
    cbn [Dict.get Dict.set Dict.of_list fold_left fst snd map
         String.eqb Ascii.eqb Bool.eqb];
    rewrite !sub_zero;
    repeat split; try reflexivity; repeat constructor.
Qed.

(** The records of the two systems are upper limits for the same epochs. *)
Lemma upper_limits_of_system (_ab _ab' : Z) (_det_limit : npfloat)
    (user_ap : string) (_templ_file : option table) (zp : npfloat * npfloat)
    (vega vega' : npfloat) (dd : table) (filter : string) (BCR BCRe : column)
    (label : string) :
  upper_limits (aperture_records _ab _det_limit user_ap _templ_file zp vega dd
                  filter BCR BCRe label)
  = upper_limits (aperture_records _ab' _det_limit user_ap _templ_file zp vega' dd
                    filter BCR BCRe label).
Proof. unfold aperture_records. now rewrite !upper_limits_entries. Qed.

(** Asking for Vega magnitudes instead of AB magnitudes changes the
    records in one way only: the magnitude and the 3 sigma limit of every
    record are lowered by the Vega offset of the band, and [mag_sys] says
    Vega.  When the AB run returns a catalog, so does the Vega run, with
    records of the same keys whose filter, correction factors, template
    flag, epoch, classification and error are those of the AB records. *)
Theorem magnitude_system_shift :
  forall (isdir : string -> bool) (dd_0 : row) (dd : table) (_ab : Z)
         (_det_limit : npfloat) (_ap_size : string) (_templ_file : option table)
         (zp : npfloat * npfloat) (vega : npfloat)
         (catalog : Dict.t (list record)),
    Dict.get ZP (FILTER dd_0) = Some zp ->
    Dict.get Vega (FILTER dd_0) = Some vega ->
    _ab <> 1%Z ->
    extract_photometry isdir (Some (dd_0 :: dd)) 1 _det_limit _ap_size _templ_file
      = Ok catalog ->
    let U_ab := user_records 1 _det_limit _ap_size _templ_file zp (Fin 0)
                  (dd_0 :: dd) (FILTER dd_0) in
    let S_ab := std_records 1 _det_limit _ap_size _templ_file zp (Fin 0)
                  (dd_0 :: dd) (FILTER dd_0) in
    let U_vega := user_records _ab _det_limit _ap_size _templ_file zp vega
                    (dd_0 :: dd) (FILTER dd_0) in
    let S_vega := std_records _ab _det_limit _ap_size _templ_file zp vega
                    (dd_0 :: dd) (FILTER dd_0) in
    catalog = catalog_of _ap_size U_ab S_ab /\
    extract_photometry isdir (Some (dd_0 :: dd)) _ab _det_limit _ap_size _templ_file
      = Ok (catalog_of _ap_size U_vega S_vega) /\
    Forall2 (shifted_by vega) U_ab U_vega /\
    Forall2 (shifted_by vega) S_ab S_vega.
Proof.
  intros isdir dd_0 dd _ab _det_limit _ap_size _templ_file zp vega catalog
    Hzp Hvega Hab Hrun U_ab S_ab U_vega S_vega.
  assert (Hsys : Z.eqb _ab 1 = false) by now apply Z.eqb_neq.
  assert (Hvega' : Dict.get (Vega_corr_of _ab) (FILTER dd_0) = Some vega)
    by (unfold Vega_corr_of; now rewrite Hsys).
  destruct (extract_photometry_returned isdir dd_0 dd 1 _det_limit _ap_size
              _templ_file zp (Fin 0) catalog Hzp (AB_corr_zero _ zp Hzp) Hrun)
    as (Hcat & HU & HS & Ht & Hd & Hdir).
  split; [exact Hcat |]. split; [| split].
  - apply extract_photometry_detections; try assumption.
    + unfold user_records.
      rewrite (upper_limits_of_system _ab 1 _ _ _ _ vega (Fin 0)). exact HU.
    + unfold std_records.
      rewrite (upper_limits_of_system _ab 1 _ _ _ _ vega (Fin 0)). exact HS.
  - unfold U_ab, U_vega, user_records, aperture_records, mag_sys_of.
    rewrite Hsys. apply Forall2_map_both. intros r. apply magnitude_entry_shift.
  - unfold S_ab, S_vega, std_records, aperture_records, mag_sys_of.
    rewrite Hsys. apply Forall2_map_both. intros r. apply magnitude_entry_shift.
Qed.

Lemma magnitude_system_shift_witness :
  Forall2 (shifted_by (Fin (-0.13)))
    (user_records 1 (Fin 3) "3" None (Fin 18.98, Fin 0.02) (Fin 0)
       [example_row] "B")
    (user_records 0 (Fin 3) "3" None (Fin 18.98, Fin 0.02) (Fin (-0.13))
       [example_row] "B").
Proof.
  refine (proj1 (proj2 (proj2
            (magnitude_system_shift every_directory example_row [] 0 (Fin 3) "3"
               None (Fin 18.98, Fin 0.02) (Fin (-0.13)) _ eq_refl eq_refl _
               (example_run 1 "3" (Fin 0) eq_refl))))).
  discriminate.
Defined.

(** ** Running the output twice, and with another aperture size *)

Lemma chronological_of_ascending (l : list record) :
  ascending l -> chronological l = l.
Proof.
  induction 1 as [| x l Hs IH Hx]; [reflexivity |].
  cbn [chronological fold_right]. fold (chronological l). rewrite IH.
  destruct l as [| y l]; [reflexivity |].
  cbn [insert_by_mjd]. inversion Hx as [| ? ? Hy _]; subst. now rewrite Hy.
Qed.

(** [output_mags] leaves its catalog sorted, so that a second call changes
    nothing more: on the catalog left by a first call it returns that same
    catalog and prints the same report, and the 5 arcsec file now holds the
    sorted sequence. *)
Theorem output_mags_twice :
  forall (_mag : Dict.t (list record)) (_ap_size : string)
         (files files' : Dict.t json) (U S : list record),
    Dict.get _mag (_ap_size ++ "_arcsec") = Some U ->
    Dict.get _mag "5_arcsec" = Some S ->
    Forall magnitude_record S ->
    Forall (fun r => exists t : R, mjd_of r = Fin t) S ->
    let _mag' := Dict.set _mag "5_arcsec" (chronological S) in
    let report := (report_header ++ map report_of (chronological S))%list in
    output_mags _mag _ap_size files
    = Ok (_mag',
          Dict.set (Dict.set files (user_path _ap_size) (json_dumps U))
            std_path (json_dumps S),
          report) /\
    exists U',
      Dict.get _mag' (_ap_size ++ "_arcsec") = Some U' /\
      output_mags _mag' _ap_size files'
      = Ok (_mag',
            Dict.set (Dict.set files' (user_path _ap_size) (json_dumps U'))
              std_path (json_dumps (chronological S)),
            report).
Proof.
  intros _mag _ap_size files files' U S HU HS Hrec Hfin _mag' report.
  split; [now apply output_mags_ok |].
  assert (Hsorted : chronological (chronological S) = chronological S).
  { apply chronological_of_ascending, chronological_sorted, Hfin. }
  assert (HS' : Dict.get _mag' "5_arcsec" = Some (chronological S))
    by apply get_set_same.
  assert (HU' : exists U', Dict.get _mag' (_ap_size ++ "_arcsec") = Some U').
  { destruct (String.eqb_spec "5_arcsec" (_ap_size ++ "_arcsec")) as [<- | Hne].
    - eexists. exact HS'.
    - exists U. unfold _mag'. now rewrite get_set_other. }
  destruct HU' as [U' HU']. exists U'. split; [exact HU' |].
  rewrite (output_mags_ok _mag' _ap_size files' U' (chronological S) HU' HS'
             (chronological_Forall _ _ Hrec)).
  unfold report, _mag'. now rewrite Hsorted, set_set.
Qed.

Lemma output_mags_twice_witness :
  exists U',
    Dict.get (Dict.set example_catalog "5_arcsec"
                (chronological [example_late; example_early])) ("3" ++ "_arcsec")
    = Some U' /\
    output_mags (Dict.set example_catalog "5_arcsec"
                   (chronological [example_late; example_early])) "3" []
    = Ok (Dict.set example_catalog "5_arcsec"
            (chronological [example_late; example_early]),
          Dict.set (Dict.set [] (user_path "3") (json_dumps U'))
            std_path (json_dumps (chronological [example_late; example_early])),
          (report_header
           ++ map report_of (chronological [example_late; example_early]))%list).
Proof.
  refine (proj2 (output_mags_twice example_catalog "3" [] []
                   [example_late; example_early] [example_late; example_early]
                   eq_refl eq_refl _ _)).
  - repeat constructor; do 10 eexists; reflexivity.
  - repeat constructor; eexists; reflexivity.
Defined.

(** The aperture size given to [output_mags] must be the one the catalog
    was built with: with a size whose label is not in the catalog it raises
    [KeyError] for that label. *)
Theorem output_mags_other_aperture :
  forall (_ap_size other_size : string) (U S : list record) (files : Dict.t json),
    (other_size ++ "_arcsec")%string <> (_ap_size ++ "_arcsec")%string ->
    (other_size ++ "_arcsec")%string <> "5_arcsec"%string ->
    output_mags (catalog_of _ap_size U S) other_size files
    = Err (KeyError (other_size ++ "_arcsec")).
Proof.
  intros _ap_size other_size U S files Hu H5.
  apply String.eqb_neq in Hu, H5.
  unfold output_mags, Dict.lookup at 1.
  assert (Hget : Dict.get (catalog_of _ap_size U S) (other_size ++ "_arcsec") = None).
  { unfold catalog_of.
    destruct (String.eqb "5_arcsec" (_ap_size ++ "_arcsec"));
      cbn [Dict.get]; now rewrite ?Hu, ?H5. }
  now rewrite Hget.
Qed.

Lemma output_mags_other_aperture_witness :
  output_mags (catalog_of "3" [example_late] [example_early]) "4" []
  = Err (KeyError "4_arcsec").
Proof.
  refine (output_mags_other_aperture "3" "4" [example_late] [example_early] [] _ _);
    discriminate.
Defined.

(** ** Rates that are not numbers *)

Lemma div_nan_left (b : npfloat) : (NaN / b)%np = NaN.
Proof. reflexivity. Qed.

Lemma div_nan_right (a : npfloat) : (a / NaN)%np = NaN.
Proof. now destruct a. Qed.

Lemma nan_entry (filter mag_sys : string) (template_ : Z)
    (zp : npfloat * npfloat) (vega _det_limit : npfloat) (rate err : column)
    (dd : row) :
  rate dd = NaN \/ err dd = NaN ->
  let rec := magnitude_entry filter mag_sys template_ zp vega _det_limit rate err dd in
  bool_item rec "upper_limit" = true /\
  float_item rec "mag" = float_item rec "mag_limit" /\
  float_item rec "mag_err" = Fin 0.2.
Proof.
  intros Hnan rec. subst rec. unfold magnitude_entry, BCGARs.
  assert (Hs : (rate dd / err dd)%np = NaN).
  { destruct Hnan as [-> | ->]; [apply div_nan_left | apply div_nan_right]. }
  rewrite Hs. cbn [Np.ge]. repeat split; reflexivity.
Qed.

(** An epoch whose rate or error is [nan], as when a column of the table
    holds a [nan], is never a detection, whatever the threshold: the
    record built for it is an upper limit, with the 3 sigma limit as
    magnitude and the error 0.2.  As for every upper limit, the figure of
    the magnitudes then raises [ValueError]: once the figures of the
    template and of the rates are drawn, a science table with such an
    epoch in the user aperture is not reduced to a catalog. *)
Theorem nan_is_an_upper_limit :
  forall (isdir : string -> bool) (dd_0 : row) (dd : table) (_ab : Z)
         (_det_limit : npfloat) (_ap_size : string) (_templ_file : option table)
         (zp : npfloat * npfloat) (vega : npfloat) (dd_j : row),
    Dict.get ZP (FILTER dd_0) = Some zp ->
    Dict.get (Vega_corr_of _ab) (FILTER dd_0) = Some vega ->
    template_figures isdir _templ_file = Ok tt ->
    errorbar (map (S3BCRe (template_flag _templ_file) 1) (dd_0 :: dd)) = Ok tt ->
    In dd_j (dd_0 :: dd) ->
    user_ap_rate _ap_size _templ_file dd_j = NaN \/
    user_ap_err _ap_size _templ_file dd_j = NaN ->
    let U := user_records _ab _det_limit _ap_size _templ_file zp vega
               (dd_0 :: dd) (FILTER dd_0) in
    let S := std_records _ab _det_limit _ap_size _templ_file zp vega
               (dd_0 :: dd) (FILTER dd_0) in
    Forall2
      (fun dd_j rec =>
         user_ap_rate _ap_size _templ_file dd_j = NaN \/
         user_ap_err _ap_size _templ_file dd_j = NaN ->
         bool_item rec "upper_limit" = true /\
         float_item rec "mag" = float_item rec "mag_limit" /\
         float_item rec "mag_err" = Fin 0.2)
      (dd_0 :: dd) U /\
    Forall2
      (fun dd_j rec =>
         std_ap_rate _ap_size _templ_file dd_j = NaN \/
         std_ap_err _ap_size _templ_file dd_j = NaN ->
         bool_item rec "upper_limit" = true /\
         float_item rec "mag" = float_item rec "mag_limit" /\
         float_item rec "mag_err" = Fin 0.2)
      (dd_0 :: dd) S /\
    extract_photometry isdir (Some (dd_0 :: dd)) _ab _det_limit _ap_size _templ_file
      = Err ValueError.
Proof.
  intros isdir dd_0 dd _ab _det_limit _ap_size _templ_file zp vega dd_j
    Hzp Hvega Ht Hd Hin Hnan U S.
  split; [| split].
  - apply Forall2_map_right; intros r _ Hr; now apply nan_entry.
  - apply Forall2_map_right; intros r _ Hr; now apply nan_entry.
  - apply (extract_photometry_upper_limit isdir dd_0 dd _ab _det_limit _ap_size
             _templ_file zp vega); try assumption.
    apply orb_true_intro. left.
    apply (user_records_undetected _ _ _ _ _ _ _ _ dd_j); [exact Hin |].
    assert (Hs : (user_ap_rate _ap_size _templ_file dd_j
                  / user_ap_err _ap_size _templ_file dd_j)%np = NaN).
    { destruct Hnan as [-> | ->]; [apply div_nan_left | apply div_nan_right]. }
    now rewrite Hs.
Qed.

Lemma nan_is_an_upper_limit_witness :
  extract_photometry every_directory (Some [nan_row]) 0 (Fin 3) "3" None
  = Err ValueError.
Proof.
  refine (proj2 (proj2
            (nan_is_an_upper_limit every_directory nan_row [] 0 (Fin 3) "3" None
               (Fin 18.98, Fin 0.02) (Fin (-0.13)) nan_row
               eq_refl eq_refl eq_refl _ _ _))).
  - apply finite_errors_drawn. apply Forall_cons; [| apply Forall_nil].
    exists 1. split; [reflexivity | lra].
  - now left.
  - left. unfold user_ap_rate, BCGAR, BCGR, S3BCR, nan_row.
    rewrite String.eqb_refl. reflexivity.
Defined.

(** ** The runs that return a catalog *)

Lemma entries_detected (filter mag_sys : string) (template_ : Z)
    (zp : npfloat * npfloat) (vega _det_limit : npfloat) (rate err : column)
    (dd : table) :
  upper_limits
    (map (magnitude_entry filter mag_sys template_ zp vega _det_limit rate err) dd)
  = false ->
  Forall2
    (fun dd_j rec =>
       Np.ge (rate dd_j / err dd_j)%np _det_limit = true /\
       Dict.get rec "upper_limit" = Some (VBool false) /\
       Dict.get rec "mag" = Some (VFloat (spec_mag (rate dd_j) (fst zp) vega)) /\
       Dict.get rec "mag_err"
         = Some (VFloat (spec_mag_err (rate dd_j) (err dd_j) (snd zp))) /\
       Dict.get rec "mag_limit"
         = Some (VFloat (spec_mag_limit (err dd_j) (fst zp) vega)))
    dd (map (magnitude_entry filter mag_sys template_ zp vega _det_limit rate err) dd).
Proof.
  rewrite upper_limits_entries. intros Hnone.
  apply Forall2_map_right. intros dd_j Hin.
  assert (Hge : Np.ge (rate dd_j / err dd_j)%np _det_limit = true).
  { destruct (Np.ge (rate dd_j / err dd_j)%np _det_limit) eqn:E; [reflexivity |].
    assert (Hex : existsb (fun r => negb (Np.ge (rate r / err r)%np _det_limit)) dd
                  = true).
    { apply existsb_exists. exists dd_j. split; [exact Hin | now rewrite E]. }
    rewrite Hex in Hnone. discriminate Hnone. }
  pose proof (magnitude_entry_classified filter mag_sys template_ zp vega
                _det_limit rate err dd_j) as [Hl Hc].
  rewrite Hge in Hc. destruct Hc as (Hu & Hm & He).
  repeat split; assumption.
Qed.

(** A catalog that [extract_photometry] returns holds detections only: the
    significance [ap_rate / ap_err] of every epoch is at least the
    threshold in both apertures, and its records have [upper_limit] false,
    [mag = -2.5*log10(ap_rate) + zero_point - vega_offset],
    [mag_err = sqrt(((2.5/ln 10) * ap_err/ap_rate)^2 + zero_point_err^2)]
    and [mag_limit = -2.5*log10(3*ap_err) + zero_point - vega_offset]. *)
Theorem returned_catalog_holds_detections :
  forall (isdir : string -> bool) (dd_0 : row) (dd : table) (_ab : Z)
         (_det_limit : npfloat) (_ap_size : string) (_templ_file : option table)
         (zp : npfloat * npfloat) (vega : npfloat)
         (catalog : Dict.t (list record)),
    Dict.get ZP (FILTER dd_0) = Some zp ->
    Dict.get (Vega_corr_of _ab) (FILTER dd_0) = Some vega ->
    extract_photometry isdir (Some (dd_0 :: dd)) _ab _det_limit _ap_size _templ_file
      = Ok catalog ->
    let U := user_records _ab _det_limit _ap_size _templ_file zp vega
               (dd_0 :: dd) (FILTER dd_0) in
    let S := std_records _ab _det_limit _ap_size _templ_file zp vega
               (dd_0 :: dd) (FILTER dd_0) in
    catalog = catalog_of _ap_size U S /\
    Forall2
      (fun dd_j rec =>
         let ap_rate := user_ap_rate _ap_size _templ_file dd_j in
         let ap_err := user_ap_err _ap_size _templ_file dd_j in
         Np.ge (ap_rate / ap_err)%np _det_limit = true /\
         Dict.get rec "upper_limit" = Some (VBool false) /\
         Dict.get rec "mag" = Some (VFloat (spec_mag ap_rate (fst zp) vega)) /\
         Dict.get rec "mag_err"
           = Some (VFloat (spec_mag_err ap_rate ap_err (snd zp))) /\
         Dict.get rec "mag_limit"
           = Some (VFloat (spec_mag_limit ap_err (fst zp) vega)))
      (dd_0 :: dd) U /\
    Forall2
      (fun dd_j rec =>
         let ap_rate := std_ap_rate _ap_size _templ_file dd_j in
         let ap_err := std_ap_err _ap_size _templ_file dd_j in
         Np.ge (ap_rate / ap_err)%np _det_limit = true /\
         Dict.get rec "upper_limit" = Some (VBool false) /\
         Dict.get rec "mag" = Some (VFloat (spec_mag ap_rate (fst zp) vega)) /\
         Dict.get rec "mag_err"
           = Some (VFloat (spec_mag_err ap_rate ap_err (snd zp))) /\
         Dict.get rec "mag_limit"
           = Some (VFloat (spec_mag_limit ap_err (fst zp) vega)))
      (dd_0 :: dd) S.
Proof.
  intros isdir dd_0 dd _ab _det_limit _ap_size _templ_file zp vega catalog
    Hzp Hvega Hrun U S.
  destruct (extract_photometry_returned isdir dd_0 dd _ab _det_limit _ap_size
              _templ_file zp vega catalog Hzp Hvega Hrun)
    as (Hcat & HU & HS & _).
  split; [exact Hcat |].
  split; [exact (entries_detected _ _ _ _ _ _ _ _ _ HU)
         | exact (entries_detected _ _ _ _ _ _ _ _ _ HS)].
Qed.

Lemma returned_catalog_holds_detections_witness :
  Forall2
    (fun dd_j rec =>
       let ap_rate := user_ap_rate "3" None dd_j in
       let ap_err := user_ap_err "3" None dd_j in
       Np.ge (ap_rate / ap_err)%np (Fin 3) = true /\
       Dict.get rec "upper_limit" = Some (VBool false) /\
       Dict.get rec "mag" = Some (VFloat (spec_mag ap_rate (Fin 18.98) (Fin 0))) /\
       Dict.get rec "mag_err"
         = Some (VFloat (spec_mag_err ap_rate ap_err (Fin 0.02))) /\
       Dict.get rec "mag_limit"
         = Some (VFloat (spec_mag_limit ap_err (Fin 18.98) (Fin 0))))
    [late_row; early_row]
    (user_records 1 (Fin 3) "3" None (Fin 18.98, Fin 0.02) (Fin 0)
       [late_row; early_row] "B").
Proof.
  exact (proj1 (proj2
           (returned_catalog_holds_detections every_directory late_row
              [early_row] 1 (Fin 3) "3" None (Fin 18.98, Fin 0.02) (Fin 0) _
              eq_refl eq_refl two_epochs_run))).
Defined.

(** An epoch below the detection threshold in one of the two apertures is
    never returned as an upper limit: once the figures of the template and
    of the rates are drawn, the figure of the magnitudes of its aperture
    raises [ValueError], whatever the other epochs are. *)
Theorem undetected_epoch_raises :
  forall (isdir : string -> bool) (dd_0 : row) (dd : table) (_ab : Z)
         (_det_limit : npfloat) (_ap_size : string) (_templ_file : option table)
         (zp : npfloat * npfloat) (vega : npfloat) (dd_j : row),
    Dict.get ZP (FILTER dd_0) = Some zp ->
    Dict.get (Vega_corr_of _ab) (FILTER dd_0) = Some vega ->
    template_figures isdir _templ_file = Ok tt ->
    errorbar (map (S3BCRe (template_flag _templ_file) 1) (dd_0 :: dd)) = Ok tt ->
    In dd_j (dd_0 :: dd) ->
    Np.ge (user_ap_rate _ap_size _templ_file dd_j
           / user_ap_err _ap_size _templ_file dd_j)%np _det_limit = false \/
    Np.ge (std_ap_rate _ap_size _templ_file dd_j
           / std_ap_err _ap_size _templ_file dd_j)%np _det_limit = false ->
    extract_photometry isdir (Some (dd_0 :: dd)) _ab _det_limit _ap_size _templ_file
    = Err ValueError.
Proof.
  intros isdir dd_0 dd _ab _det_limit _ap_size _templ_file zp vega dd_j
    Hzp Hvega Ht Hd Hin Hlow.
  apply (extract_photometry_upper_limit isdir dd_0 dd _ab _det_limit _ap_size
           _templ_file zp vega); try assumption.
  apply orb_true_intro. destruct Hlow as [Hlow | Hlow]; [left | right].
  - now apply (user_records_undetected _ _ _ _ _ _ _ _ dd_j).
  - now apply (std_records_undetected _ _ _ _ _ _ _ _ dd_j).
Qed.

Lemma undetected_epoch_raises_witness :
  extract_photometry every_directory (Some [early_row; faint_row]) 1 (Fin 3) "3" None
  = Err ValueError.
Proof.
  refine (undetected_epoch_raises every_directory early_row [faint_row] 1 (Fin 3)
            "3" None (Fin 18.98, Fin 0.02) (Fin 0) faint_row
            eq_refl eq_refl eq_refl _ _ _).
  - apply finite_errors_drawn.
    repeat (apply Forall_cons; [exists 1; split; [reflexivity | lra] |]).
    apply Forall_nil.
  - right. now left.
  - left. exact (proj2 (proj2 faint_row_user_aperture)).
Defined.

(** ** Tables that cannot be reduced *)

Lemma process_file_empty (isdir : string -> bool) (mag_sys : string)
    (Vega_corr : Dict.t npfloat)
    (_det_limit : npfloat) (u : string) (st : state) (i : nat) :
  process_file isdir mag_sys Vega_corr _det_limit u st i (Some []) = Err IndexError.
Proof. reflexivity. Qed.

(** Reading the template file raises what its figures raise, and otherwise
    leaves a rate and an error for the user aperture and the catalog as it
    was. *)
Lemma process_file_first (isdir : string -> bool) (mag_sys : string)
    (Vega_corr : Dict.t npfloat)
    (_det_limit : npfloat) (u : string) (st : state) (t : option table) :
  (exists e, template_figures isdir t = Err e /\
             process_file isdir mag_sys Vega_corr _det_limit u st 0 t = Err e) \/
  (template_figures isdir t = Ok tt /\
   exists st',
     process_file isdir mag_sys Vega_corr _det_limit u st 0 t = Ok st' /\
     template st' = (match t with Some _ => template st | None => 0%Z end) /\
     (exists a, Dict.get (BCR_temp st') u = Some a) /\
     (exists a, Dict.get (BCRe_temp st') u = Some a) /\
     mag st' = mag st).
Proof.
  destruct t as [[| t_0 t] |].
  - left. exists IndexError. split; reflexivity.
  - rewrite process_file_template. cbn [template_figures].
    destruct (errorbar (map (S3BCRe 1 0) (t_0 :: t))) as [[] | e];
      [| left; exists e; split; reflexivity].
    cbn [bind].
    destruct (savefig isdir (fig_dir (FILTER t_0))) as [[] | e];
      [| left; exists e; split; reflexivity].
    right. split; [reflexivity |]. eexists. split; [reflexivity |].
    cbn [template BCR_temp BCRe_temp mag].
    destruct (String.eqb_spec "5_arcsec" u) as [<- | Hu].
    + repeat split; eexists; apply get_set_same.
    + repeat split; eexists;
        (rewrite get_set_other by assumption; apply get_set_same).
  - right. split; [reflexivity |].
    rewrite process_file_none. eexists. split; [reflexivity |].
    cbn [template BCR_temp BCRe_temp mag].
    repeat split; eexists; apply zero_rates; now left.
Qed.

(** The figures of the template come before the science table is read:
    with a template whose directory of figures is missing, an empty
    science table is not reached. *)
Lemma template_figures_come_first :
  extract_photometry (fun _ => false) (Some []) 0 (Fin 3) "3" (Some example_template)
  = Err FileNotFoundError.
Proof.
  unfold extract_photometry, example_template. cbn [Z.eqb fold_left fst snd bind].
  rewrite process_file_template.
  rewrite errorbar_ok; [reflexivity |].
  intros r [<- | [<- | []]]; apply lt_fin_false; lra.
Qed.

(** The reduction fails on tables it cannot use, the template table being
    read first: an empty template table raises [IndexError] whatever the
    science table is.  Otherwise the figures of the template are drawn,
    and unless they raise, an empty science table raises [IndexError],
    and a science table whose first row has none of the six filters raises
    [KeyError] with that filter name once its rates are drawn. *)
Theorem unusable_tables_raise :
  forall (isdir : string -> bool) (_phot_file : option table) (dd_0 : row)
         (dd : table) (_ab : Z) (_det_limit : npfloat) (_ap_size : string)
         (_templ_file : option table),
    extract_photometry isdir _phot_file _ab _det_limit _ap_size (Some [])
      = Err IndexError /\
    extract_photometry isdir (Some []) _ab _det_limit _ap_size _templ_file
      = (_ <- template_figures isdir _templ_file ;; Err IndexError) /\
    (Dict.get ZP (FILTER dd_0) = None ->
     extract_photometry isdir (Some (dd_0 :: dd)) _ab _det_limit _ap_size _templ_file
       = (_ <- template_figures isdir _templ_file ;;
          _ <- errorbar (map (S3BCRe (template_flag _templ_file) 1) (dd_0 :: dd)) ;;
          Err (KeyError (FILTER dd_0)))) /\
    (_templ_file <> Some [] ->
     template_figures isdir _templ_file = Ok tt ->
     extract_photometry isdir (Some []) _ab _det_limit _ap_size _templ_file
       = Err IndexError) /\
    (_templ_file <> Some [] ->
     template_figures isdir _templ_file = Ok tt ->
     errorbar (map (S3BCRe (template_flag _templ_file) 1) (dd_0 :: dd)) = Ok tt ->
     Dict.get ZP (FILTER dd_0) = None ->
     extract_photometry isdir (Some (dd_0 :: dd)) _ab _det_limit _ap_size _templ_file
       = Err (KeyError (FILTER dd_0))).
Proof.
  intros isdir _phot_file dd_0 dd _ab _det_limit _ap_size _templ_file.
  assert (Hempty : extract_photometry isdir (Some []) _ab _det_limit _ap_size
                     _templ_file
                   = (_ <- template_figures isdir _templ_file ;; Err IndexError)).
  { unfold extract_photometry.
    destruct (Z.eqb _ab 1); cbn [fold_left fst snd bind];
      match goal with
      | |- context [process_file ?i ?m ?v ?d ?u ?st 0 _templ_file] =>
          destruct (process_file_first i m v d u st _templ_file)
            as [(e & -> & ->) | (-> & st' & -> & _)]
      end; reflexivity. }
  assert (Hfilter : Dict.get ZP (FILTER dd_0) = None ->
            extract_photometry isdir (Some (dd_0 :: dd)) _ab _det_limit _ap_size
              _templ_file
            = (_ <- template_figures isdir _templ_file ;;
               _ <- errorbar (map (S3BCRe (template_flag _templ_file) 1)
                                (dd_0 :: dd)) ;;
               Err (KeyError (FILTER dd_0)))).
  { intros Hzp. unfold extract_photometry.
    destruct (Z.eqb _ab 1); cbn [fold_left fst snd bind];
      match goal with
      | |- context [process_file ?i ?m ?v ?d ?u ?st 0 _templ_file] =>
          destruct (process_file_first i m v d u st _templ_file)
            as [(e & -> & ->) | (-> & st' & -> & Htemplate & [a Ha] & [b Hb] & _)]
      end; try reflexivity; cbn [bind];
      cbn [template] in Htemplate;
      (assert (Htf : template st' = template_flag _templ_file)
         by (rewrite Htemplate; now destruct _templ_file));
      unfold process_file; cbn [bind fold_left Nat.eqb];
      unfold science_aperture at 1;
      rewrite Htf;
      (destruct (errorbar (map (S3BCRe (template_flag _templ_file) 1) (dd_0 :: dd)))
         as [[] | e]; [| reflexivity]);
      cbn [bind];
      rewrite (lookup_get _ _ _ Ha), (lookup_get _ _ _ Hb); cbn [bind];
      (assert (Hl : Dict.lookup ZP (FILTER dd_0) = Err (KeyError (FILTER dd_0)))
         by (unfold Dict.lookup; now rewrite Hzp));
      rewrite !Hl;
      destruct (is_true (template_flag _templ_file)); reflexivity. }
  split; [| split; [| split; [| split]]].
  - unfold extract_photometry. now destruct (Z.eqb _ab 1).
  - exact Hempty.
  - exact Hfilter.
  - intros _ Ht. rewrite Hempty, Ht. reflexivity.
  - intros _ Ht Hd Hzp. rewrite (Hfilter Hzp), Ht, Hd. reflexivity.
Qed.

Lemma unusable_tables_raise_witness :
  extract_photometry every_directory
    (Some [finite_row "R" 0 0 1 1 1 1 1 1 1 1 1 1 1]) 0 (Fin 3)
    "3" (Some example_template)
  = Err (KeyError "R").
Proof.
  refine (proj2 (proj2 (proj2 (proj2
            (unusable_tables_raise every_directory None
               (finite_row "R" 0 0 1 1 1 1 1 1 1 1 1 1 1)
               [] 0 (Fin 3) "3" (Some example_template)))))
            _ _ _ eq_refl).
  - discriminate.
  - unfold template_figures, example_template.
    rewrite errorbar_ok; [reflexivity |].
    intros r [<- | [<- | []]]; apply lt_fin_false; lra.
  - apply S3BCRe_drawn_with_template.
Defined.

(** ** The epochs and the correction factors of the records *)

Lemma magnitude_entry_factors (filter mag_sys : string) (template_ : Z)
    (zp : npfloat * npfloat) (vega _det_limit : npfloat) (rate err : column)
    (dd : row) :
  let rec := magnitude_entry filter mag_sys template_ zp vega _det_limit rate err dd in
  float_item rec "aperture_correction" = AP_FACTOR dd /\
  float_item rec "coincidence_loss_correction" = COI_STD_FACTOR dd.
Proof.
  intros rec. subst rec. unfold magnitude_entry.
  destruct (Np.ge (BCGARs rate err dd) _det_limit); split; reflexivity.
Qed.

(** A returned catalog is in the order of the science table, one record
    per row and aperture, with the epoch [mjdref + (TSTART + TSTOP)/2/86400]
    of the row.  The records of both apertures carry the same two
    correction factors of the row: [AP_FACTOR], which is applied to the
    user aperture only, and [COI_STD_FACTOR], the coincidence-loss factor
    of the 5 arcsec aperture. *)
Theorem records_follow_table :
  forall (isdir : string -> bool) (dd_0 : row) (dd : table) (_ab : Z)
         (_det_limit : npfloat) (_ap_size : string) (_templ_file : option table)
         (zp : npfloat * npfloat) (vega : npfloat)
         (catalog : Dict.t (list record)),
    Dict.get ZP (FILTER dd_0) = Some zp ->
    Dict.get (Vega_corr_of _ab) (FILTER dd_0) = Some vega ->
    extract_photometry isdir (Some (dd_0 :: dd)) _ab _det_limit _ap_size _templ_file
      = Ok catalog ->
    let U := user_records _ab _det_limit _ap_size _templ_file zp vega
               (dd_0 :: dd) (FILTER dd_0) in
    let S := std_records _ab _det_limit _ap_size _templ_file zp vega
               (dd_0 :: dd) (FILTER dd_0) in
    catalog = catalog_of _ap_size U S /\
    map mjd_of U = map mjd (dd_0 :: dd) /\
    map mjd_of S = map mjd (dd_0 :: dd) /\
    map (fun rec => float_item rec "aperture_correction") U
      = map AP_FACTOR (dd_0 :: dd) /\
    map (fun rec => float_item rec "aperture_correction") S
      = map AP_FACTOR (dd_0 :: dd) /\
    map (fun rec => float_item rec "coincidence_loss_correction") U
      = map COI_STD_FACTOR (dd_0 :: dd) /\
    map (fun rec => float_item rec "coincidence_loss_correction") S
      = map COI_STD_FACTOR (dd_0 :: dd).
Proof.
  intros isdir dd_0 dd _ab _det_limit _ap_size _templ_file zp vega catalog
    Hzp Hvega Hrun U S.
  split.
  - now apply (extract_photometry_returned isdir dd_0 dd _ab _det_limit _ap_size
                 _templ_file zp vega catalog).
  - unfold U, S, user_records, std_records, aperture_records.
    rewrite !map_map.
    repeat split; apply map_ext; intros r;
      first [apply magnitude_entry_mjd | apply magnitude_entry_factors].
Qed.

Lemma records_follow_table_witness :
  map mjd_of
    (user_records 1 (Fin 3) "3" None (Fin 18.98, Fin 0.02) (Fin 0)
       [late_row; early_row] "B")
  = map mjd [late_row; early_row].
Proof.
  exact (proj1 (proj2
           (records_follow_table every_directory late_row [early_row] 1 (Fin 3) "3"
              None (Fin 18.98, Fin 0.02) (Fin 0) _ eq_refl eq_refl
              two_epochs_run))).
Defined.

(** * File and filter handling *)

(** ** Strings *)

Lemma upper_ascii_comma (c : ascii) :
  Ascii.eqb (Str.upper_ascii c) Str.comma = Ascii.eqb c Str.comma.
Proof.
  destruct c as [[] [] [] [] [] [] [] []]; reflexivity.
Qed.

Lemma upper_ascii_idem (c : ascii) :
  Str.upper_ascii (Str.upper_ascii c) = Str.upper_ascii c.
Proof.
  destruct c as [[] [] [] [] [] [] [] []]; reflexivity.
Qed.

Lemma upper_idem (s : string) : Str.upper (Str.upper s) = Str.upper s.
Proof.
  induction s as [| c s IH]; simpl; [reflexivity |].
  now rewrite upper_ascii_idem, IH.
Qed.

Lemma split_nonempty (sep : ascii) (s : string) : Str.split sep s <> [].
Proof.
  destruct s as [| c s]; simpl; [discriminate |].
  destruct (Ascii.eqb c sep); [discriminate |].
  destruct (Str.split sep s); discriminate.
Qed.

Lemma split_upper (s : string) :
  Str.split Str.comma (Str.upper s) = map Str.upper (Str.split Str.comma s).
Proof.
  induction s as [| c s IH]; [reflexivity |].
  cbn [Str.upper Str.split]. rewrite upper_ascii_comma, IH.
  destruct (Ascii.eqb c Str.comma); [reflexivity |].
  destruct (Str.split Str.comma s); reflexivity.
Qed.

Lemma split_without_sep (sep : ascii) (s : string) :
  contains_char sep s = false -> Str.split sep s = [s].
Proof.
  induction s as [| c s IH]; [reflexivity |].
  cbn [contains_char Str.split]. intros H. apply orb_false_iff in H.
  destruct H as [Hc Hs]. now rewrite Hc, (IH Hs).
Qed.

Lemma split_app_sep (sep : ascii) (t s : string) :
  contains_char sep t = false ->
  Str.split sep (t ++ String sep s) = t :: Str.split sep s.
Proof.
  induction t as [| c t IH]; intros H.
  - cbn [String.append Str.split]. now rewrite Ascii.eqb_refl.
  - cbn [contains_char] in H. apply orb_false_iff in H. destruct H as [Hc Ht].
    cbn [String.append Str.split]. now rewrite Hc, (IH Ht).
Qed.

Lemma join_cons (sep : ascii) (t t' : string) (l : list string) :
  Str.join sep (t :: t' :: l) = (t ++ String sep (Str.join sep (t' :: l)))%string.
Proof. reflexivity. Qed.

Lemma split_join (sep : ascii) (l : list string) :
  l <> [] ->
  Forall (fun t => contains_char sep t = false) l ->
  Str.split sep (Str.join sep l) = l.
Proof.
  intros Hne H. induction H as [| t l Ht Hl IH]; [congruence |].
  destruct l as [| t' l].
  - cbn. now apply split_without_sep.
  - rewrite join_cons, split_app_sep by assumption.
    f_equal. apply IH. discriminate.
Qed.

(** ** The filters to reduce *)

Lemma sort_filters_loop (tokens printed out : list string) :
  fold_left
    (fun acc _f =>
       let '(printed, out_filter_list) := acc in
       if negb (Str.mem (Str.upper _f) full_filter_list)
       then ((printed ++ [filter_warning _f])%list, out_filter_list)
       else (printed, (out_filter_list ++ [Str.upper _f])%list))
    tokens (printed, out)
  = ((printed
      ++ map filter_warning (filter (fun t => negb (recognised t)) tokens))%list,
     (out ++ map Str.upper (filter recognised tokens))%list).
Proof.
  revert printed out. induction tokens as [| t tokens IH]; intros printed out.
  - cbn. now rewrite !app_nil_r.
  - cbn [fold_left filter].
    change (Str.mem (Str.upper t) full_filter_list) with (recognised t).
    destruct (recognised t); cbn [negb];
      rewrite IH; cbn [map]; now rewrite <- app_assoc.
Qed.

Lemma sort_filters_not_keyword (s : string) :
  is_keyword s = false ->
  sort_filters s
  = (map filter_warning
       (filter (fun t => negb (recognised t)) (Str.split Str.comma s)),
     match map Str.upper (filter recognised (Str.split Str.comma s)) with
     | [] => Raise FilterError
     | l => Return l
     end).
Proof.
  unfold is_keyword. intros H.
  apply orb_false_iff in H. destruct H as [H Huv].
  apply orb_false_iff in H. destruct H as [Hall Hopt].
  unfold sort_filters. rewrite Hall, Hopt, Huv, sort_filters_loop.
  cbn [app]. now destruct (map Str.upper (filter recognised (Str.split Str.comma s))).
Qed.

Lemma supported_filter (f : string) :
  Str.mem f full_filter_list = true ->
  In f full_filter_list /\ Str.upper f = f /\ contains_char Str.comma f = false /\
  is_keyword f = false /\
  exists zp vega, Dict.get ZP f = Some zp /\ Dict.get Vega f = Some vega.
Proof.
  unfold Str.mem, full_filter_list. cbn [existsb]. intros H.
  repeat (apply orb_true_iff in H; destruct H as [H | H];
          [apply String.eqb_eq in H; subst f; cbn;
           repeat split; auto 10; do 2 eexists; split; reflexivity |]).
  discriminate.
Qed.

Lemma recognised_upper_supported (l : list string) :
  Forall (fun f => Str.mem f full_filter_list = true)
    (map Str.upper (filter recognised l)).
Proof.
  apply Forall_map, Forall_forall. intros t Ht.
  apply filter_In in Ht. exact (proj2 Ht).
Qed.

Lemma sort_filters_returns (s : string) (l : list string) :
  snd (sort_filters s) = Return l ->
  l <> [] /\ Forall (fun f => Str.mem f full_filter_list = true) l.
Proof.
  destruct (is_keyword s) eqn:Hk.
  - unfold is_keyword in Hk. unfold sort_filters.
    destruct (String.eqb s "ALL");
      [intros [= <-]; split; [discriminate | repeat constructor] |].
    destruct (String.eqb s "OPT");
      [intros [= <-]; split; [discriminate | repeat constructor] |].
    destruct (String.eqb s "UV");
      [intros [= <-]; split; [discriminate | repeat constructor] |].
    discriminate Hk.
  - rewrite (sort_filters_not_keyword s Hk). cbn [snd].
    pose proof (recognised_upper_supported (Str.split Str.comma s)) as Hs.
    destruct (map Str.upper (filter recognised (Str.split Str.comma s)));
      [discriminate |].
    intros [= <-]. split; [discriminate | exact Hs].
Qed.

(** Whatever [sort_filters] returns is a non-empty list of names among the
    six bands, each with a zero point in [ZP] and an offset in [Vega]: a
    science table in a returned filter is never refused with [KeyError]. *)
Theorem sort_filters_are_calibrated :
  forall (s : string) (l : list string),
    snd (sort_filters s) = Return l ->
    l <> [] /\
    Forall (fun f => In f full_filter_list /\
                     exists zp vega,
                       Dict.get ZP f = Some zp /\ Dict.get Vega f = Some vega) l.
Proof.
  intros s l H. destruct (sort_filters_returns s l H) as [Hne Hl].
  split; [exact Hne |].
  rewrite Forall_forall in *. intros f Hf.
  destruct (supported_filter f (Hl f Hf)) as (Hin & _ & _ & _ & Hcal).
  now split.
Qed.

Lemma sort_filters_are_calibrated_witness :
  ["V"; "UVW1"; "V"]%string <> [] /\
  Forall (fun f => In f full_filter_list /\
                   exists zp vega,
                     Dict.get ZP f = Some zp /\ Dict.get Vega f = Some vega)
    ["V"; "UVW1"; "V"]%string.
Proof.
  exact (sort_filters_are_calibrated "v,x,uvw1,V" ["V"; "UVW1"; "V"]%string eq_refl).
Defined.

(** For an input that is none of the keywords [ALL], [OPT] and [UV], every
    token between commas is either returned in upper case, in the order and
    as many times as it is written, or reported in a warning; [FilterError]
    is raised exactly when no token is recognised. *)
Theorem sort_filters_accounts_for_tokens :
  forall s : string,
    is_keyword s = false ->
    let tokens := Str.split Str.comma s in
    fst (sort_filters s)
      = map filter_warning (filter (fun t => negb (recognised t)) tokens) /\
    (filter recognised tokens = [] -> snd (sort_filters s) = Raise FilterError) /\
    (filter recognised tokens <> [] ->
     snd (sort_filters s) = Return (map Str.upper (filter recognised tokens))) /\
    (List.length (fst (sort_filters s))
     + List.length (filter recognised tokens) = List.length tokens)%nat.
Proof.
  intros s Hk tokens. rewrite (sort_filters_not_keyword s Hk). fold tokens.
  cbn [fst snd]. repeat split.
  - now intros ->.
  - intros Hne. destruct (filter recognised tokens); [congruence | reflexivity].
  - rewrite length_map. clear. induction tokens as [| t tokens IH]; [reflexivity |].
    cbn [filter]. destruct (recognised t); cbn [negb List.length]; lia.
Qed.

Lemma sort_filters_accounts_for_tokens_witness :
  fst (sort_filters "v,x,uvw1,V")
  = map filter_warning
      (filter (fun t => negb (recognised t)) (Str.split Str.comma "v,x,uvw1,V")).
Proof.
  exact (proj1 (sort_filters_accounts_for_tokens "v,x,uvw1,V" eq_refl)).
Defined.

(** The names returned by [sort_filters], joined by commas, are accepted
    as they are: [sort_filters] returns them again and prints nothing. *)
Theorem sort_filters_round_trip :
  forall (s : string) (l : list string),
    snd (sort_filters s) = Return l ->
    sort_filters (Str.join Str.comma l) = ([], Return l).
Proof.
  intros s l H. destruct (sort_filters_returns s l H) as [Hne Hl].
  assert (Hsplit : Str.split Str.comma (Str.join Str.comma l) = l).
  { apply split_join; [exact Hne |].
    rewrite Forall_forall in *. intros f Hf.
    now destruct (supported_filter f (Hl f Hf)) as (_ & _ & Hc & _). }
  assert (Hk : is_keyword (Str.join Str.comma l) = false).
  { destruct (is_keyword (Str.join Str.comma l)) eqn:Hk; [| reflexivity].
    exfalso.
    assert (Hone : l = [Str.join Str.comma l]).
    { rewrite <- Hsplit at 1. unfold is_keyword in Hk.
      repeat (apply orb_true_iff in Hk; destruct Hk as [Hk | Hk]);
        apply String.eqb_eq in Hk; rewrite Hk; reflexivity. }
    rewrite Forall_forall in Hl.
    assert (Hin : In (Str.join Str.comma l) l) by (rewrite Hone at 2; now left).
    destruct (supported_filter _ (Hl _ Hin)) as (_ & _ & _ & Hnk & _).
    congruence. }
  rewrite (sort_filters_not_keyword _ Hk), Hsplit.
  assert (Hrec : filter recognised l = l).
  { apply forallb_filter_id. apply forallb_forall. intros f Hf.
    rewrite Forall_forall in Hl. unfold recognised.
    destruct (supported_filter f (Hl f Hf)) as (_ & -> & _). now apply Hl. }
  assert (Hneg : filter (fun t => negb (recognised t)) l = []).
  { rewrite <- Hrec at 1. clear. induction l as [| t l IH]; [reflexivity |].
    cbn [filter]. destruct (recognised t) eqn:E; [| exact IH].
    cbn [filter]. now rewrite E. }
  rewrite Hrec, Hneg.
  assert (Hup : map Str.upper l = l).
  { rewrite <- map_id. apply map_ext_in. intros f Hf.
    rewrite Forall_forall in Hl.
    now destruct (supported_filter f (Hl f Hf)) as (_ & -> & _). }
  rewrite Hup. destruct l; [congruence | reflexivity].
Qed.

Lemma sort_filters_round_trip_witness :
  sort_filters (Str.join Str.comma ["V"; "UVW1"; "V"]%string)
  = ([], Return ["V"; "UVW1"; "V"]%string).
Proof.
  exact (sort_filters_round_trip "v,x,uvw1,V" ["V"; "UVW1"; "V"]%string eq_refl).
Defined.

(** Filter names are read without regard to case, the keywords are not:
    unless the upper-case input is one of [ALL], [OPT] and [UV], the input
    and its upper case give the same result. *)
Theorem sort_filters_ignores_case :
  forall s : string,
    is_keyword (Str.upper s) = false ->
    is_keyword s = false /\
    snd (sort_filters (Str.upper s)) = snd (sort_filters s).
Proof.
  intros s Hk.
  assert (Hs : is_keyword s = false).
  { destruct (is_keyword s) eqn:E; [| reflexivity].
    unfold is_keyword in E.
    repeat (apply orb_true_iff in E; destruct E as [E | E]);
      apply String.eqb_eq in E; subst s; discriminate Hk. }
  split; [exact Hs |].
  rewrite (sort_filters_not_keyword _ Hk), (sort_filters_not_keyword _ Hs).
  cbn [snd]. rewrite split_upper.
  assert (Heq : map Str.upper (filter recognised (map Str.upper (Str.split Str.comma s)))
                = map Str.upper (filter recognised (Str.split Str.comma s))).
  { generalize (Str.split Str.comma s). intros l.
    induction l as [| t l IH]; [reflexivity |].
    cbn [map filter].
    assert (Hr : recognised (Str.upper t) = recognised t)
      by (unfold recognised; now rewrite upper_idem).
    rewrite Hr. destruct (recognised t); cbn [map];
      now rewrite ?upper_idem, IH. }
  now rewrite Heq.
Qed.

Lemma sort_filters_ignores_case_witness :
  snd (sort_filters (Str.upper "v,x,uvw1,V")) = snd (sort_filters "v,x,uvw1,V").
Proof.
  exact (proj2 (sort_filters_ignores_case "v,x,uvw1,V" eq_refl)).
Defined.

(** ** The aperture size of a region file *)

Lemma append_assoc (a b c : string) : ((a ++ b) ++ c)%string = (a ++ (b ++ c))%string.
Proof. induction a as [| x a IH]; simpl; [reflexivity | now rewrite IH]. Qed.

Lemma length_append (a b : string) :
  String.length (a ++ b) = (String.length a + String.length b)%nat.
Proof. induction a as [| x a IH]; simpl; [reflexivity | now rewrite IH]. Qed.

Lemma substring_prefix (a b : string) :
  String.substring 0 (String.length a) (a ++ b) = a.
Proof.
  induction a as [| x a IH]; simpl.
  - now destruct b.
  - now rewrite IH.
Qed.

Lemma drop_last_app (a b : string) :
  Str.drop_last (String.length b) (a ++ b) = a.
Proof.
  unfold Str.drop_last. rewrite length_append.
  replace (String.length a + String.length b - String.length b)%nat
    with (String.length a) by lia.
  apply substring_prefix.
Qed.

Lemma rstrip_app (c : ascii) (s t : string) :
  Str.rstrip c (s ++ t)
  = match Str.rstrip c t with
    | EmptyString => Str.rstrip c s
    | r => (s ++ r)%string
    end.
Proof.
  induction s as [| a s IH].
  - cbn [String.append Str.rstrip]. now destruct (Str.rstrip c t).
  - cbn [String.append Str.rstrip]. rewrite IH.
    destruct (Str.rstrip c t) as [| b r]; [reflexivity |].
    now destruct s.
Qed.

Lemma rstrip_zeros (s : string) (k : nat) :
  Str.rstrip Str.zero (s ++ zeros k) = Str.rstrip Str.zero s.
Proof.
  rewrite rstrip_app.
  assert (H : Str.rstrip Str.zero (zeros k) = EmptyString).
  { induction k as [| k IH]; [reflexivity |]. cbn [zeros Str.rstrip]. now rewrite IH. }
  now rewrite H.
Qed.

Lemma rstrip_last_other (c d : ascii) (s : string) :
  d <> c -> Str.rstrip c (s ++ String d EmptyString) = (s ++ String d EmptyString)%string.
Proof.
  intros Hd. rewrite rstrip_app. cbn [Str.rstrip].
  apply Ascii.eqb_neq in Hd. now rewrite Hd.
Qed.

Lemma last_char_app (s : string) (d : ascii) :
  Str.last_char (s ++ String d EmptyString) = Return d.
Proof.
  unfold Str.last_char.
  assert (H : String.get (String.length (s ++ String d EmptyString) - 1)
                (s ++ String d EmptyString) = Some d).
  { rewrite length_append. cbn [String.length].
    replace (String.length s + 1 - 1)%nat with (String.length s) by lia.
    induction s as [| a s IH]; [reflexivity | exact IH]. }
  rewrite H. now destruct s.
Qed.

Lemma last_app_nonempty {A : Type} (l l' : list A) (d : A) :
  l' <> [] -> last (l ++ l') d = last l' d.
Proof.
  intros Hne. induction l as [| a l IH]; [reflexivity |].
  cbn [app last]. rewrite IH. destruct (l ++ l')%list eqn:E; [| reflexivity].
  apply app_eq_nil in E. destruct E; congruence.
Qed.

Lemma split_app_prefix (sep : ascii) (p t : string) :
  exists x init, Str.split sep (p ++ String sep t) = (x :: init ++ Str.split sep t)%list.
Proof.
  induction p as [| a p (x & init & IH)].
  - exists EmptyString, []. cbn [String.append Str.split]. now rewrite Ascii.eqb_refl.
  - cbn [String.append Str.split]. rewrite IH. destruct (Ascii.eqb a sep).
    + now exists EmptyString, (x :: init).
    + now exists (String a x), init.
Qed.

Lemma last_split_app (sep : ascii) (p t d : string) :
  last (Str.split sep (p ++ String sep t)) d = last (Str.split sep t) d.
Proof.
  destruct (split_app_prefix sep p t) as (x & init & ->).
  pose proof (split_nonempty sep t) as Hne.
  change (x :: init ++ Str.split sep t)%list
    with ((x :: init) ++ Str.split sep t)%list.
  now apply last_app_nonempty.
Qed.

Lemma contains_char_app (c : ascii) (a b : string) :
  contains_char c (a ++ b) = contains_char c a || contains_char c b.
Proof.
  induction a as [| x a IH]; simpl; [reflexivity |]. now rewrite IH, orb_assoc.
Qed.

Lemma contains_char_zeros (k : nat) : contains_char Str.comma (zeros k) = false.
Proof. induction k; [reflexivity | exact IHk]. Qed.

(** The size read from one region line: the text between the last comma
    and the two characters before the line break. *)
Lemma region_line_size (c : ascii) (p size : string) :
  c <> Str.line_break ->
  contains_char Str.comma size = false ->
  Str.drop_last 2
    (last (Str.split Str.comma
             (Str.strip Str.line_break
                (String c p ++ String Str.comma size ++ region_end)))
       EmptyString)
  = size.
Proof.
  intros Hc Hsize.
  set (mark := String (ascii_of_nat 34) (String (ascii_of_nat 41) EmptyString)).
  assert (Hline : (String c p ++ String Str.comma size ++ region_end)%string
                  = ((String c p ++ String Str.comma (size ++ mark))
                     ++ String Str.line_break EmptyString)%string).
  { rewrite (append_assoc (String c p)). f_equal.
    cbn [String.append]. f_equal. now rewrite append_assoc. }
  rewrite Hline. unfold Str.strip.
  assert (Hl : Str.lstrip Str.line_break
                 ((String c p ++ String Str.comma (size ++ mark))
                  ++ String Str.line_break EmptyString)
               = ((String c p ++ String Str.comma (size ++ mark))
                  ++ String Str.line_break EmptyString)%string).
  { cbn [String.append Str.lstrip]. apply Ascii.eqb_neq in Hc. now rewrite Hc. }
  rewrite Hl, rstrip_app. cbn [Str.rstrip]. rewrite Ascii.eqb_refl.
  assert (Hr : Str.rstrip Str.line_break (String c p ++ String Str.comma (size ++ mark))
               = (String c p ++ String Str.comma (size ++ mark))%string).
  { rewrite rstrip_app.
    replace (Str.rstrip Str.line_break (String Str.comma (size ++ mark)))
      with (String Str.comma (size ++ mark)); [reflexivity |].
    change (String Str.comma (size ++ mark))
      with (String Str.comma size ++ mark)%string.
    rewrite rstrip_app. reflexivity. }
  rewrite Hr, last_split_app, split_without_sep.
  - cbn [last]. apply (drop_last_app size mark).
  - rewrite contains_char_app, Hsize. reflexivity.
Qed.

Lemma aperture_loop_comments (post : list string) (size : option string) :
  Forall comment_line post ->
  fold_left
    (fun acc line =>
       size <~ acc ;;
       match line with
       | EmptyString => Raise StringIndexError
       | String c _ =>
           if Ascii.eqb c Str.hash then Return size
           else Return
                  (Some (Str.drop_last 2
                           (last (Str.split Str.comma (Str.strip Str.line_break line))
                              EmptyString)))
       end)
    post (Return size)
  = Return size.
Proof.
  induction 1 as [| line post [rest ->] _ IH]; [reflexivity |].
  cbn [fold_left and_then]. rewrite Ascii.eqb_refl. exact IH.
Qed.

Lemma aperture_loop_lines (pre : list string) (size : option string) :
  Forall (fun line => line <> EmptyString) pre ->
  exists size',
    fold_left
      (fun acc line =>
         size <~ acc ;;
         match line with
         | EmptyString => Raise StringIndexError
         | String c _ =>
             if Ascii.eqb c Str.hash then Return size
             else Return
                    (Some (Str.drop_last 2
                             (last (Str.split Str.comma (Str.strip Str.line_break line))
                                EmptyString)))
         end)
      pre (Return size)
    = Return size'.
Proof.
  intros H. revert size. induction H as [| line pre Hline _ IH]; intros size.
  - now exists size.
  - cbn [fold_left and_then]. destruct line as [| c rest]; [congruence |].
    destruct (Ascii.eqb c Str.hash); apply IH.
Qed.

Lemma aperture_last_data_line (pre post : list string) (c : ascii) (rest : string) :
  Forall (fun line => line <> EmptyString) pre ->
  Forall comment_line post ->
  c <> Str.hash ->
  get_aperture_size (pre ++ String c rest :: post)
  = get_aperture_size [String c rest].
Proof.
  intros Hpre Hpost Hc. apply Ascii.eqb_neq in Hc.
  unfold get_aperture_size. rewrite fold_left_app.
  destruct (aperture_loop_lines pre None Hpre) as [size' ->].
  cbn [fold_left and_then]. rewrite Hc.
  now rewrite aperture_loop_comments.
Qed.

Lemma aperture_of_region_line (c : ascii) (p size : string) :
  c <> Str.hash -> c <> Str.line_break ->
  contains_char Str.comma size = false ->
  get_aperture_size [(String c p ++ String Str.comma size ++ region_end)%string]
  = (c' <~ Str.last_char (Str.rstrip Str.zero size) ;;
     if Ascii.eqb c' Str.dot
     then Return (Str.drop_last 1 (Str.rstrip Str.zero size))
     else Return (Str.rstrip Str.zero size)).
Proof.
  intros Hh Hn Hsize. unfold get_aperture_size.
  cbn [fold_left and_then].
  change (String c p ++ String Str.comma size ++ region_end)%string
    with (String c (p ++ String Str.comma size ++ region_end)) at 1.
  cbv iota. apply Ascii.eqb_neq in Hh. rewrite Hh.
  change (String c (p ++ String Str.comma size ++ region_end))
    with (String c p ++ String Str.comma size ++ region_end)%string.
  now rewrite region_line_size.
Qed.

(** A radius written with a decimal point and nothing but zeros after it
    gives its integer part: the radius 5.0 gives [5], whatever lines come
    before the last region line and whatever comments after it. *)
Theorem aperture_size_drops_zero_decimals :
  forall (pre post : list string) (c : ascii) (p n : string) (k : nat),
    Forall (fun line => line <> EmptyString) pre ->
    Forall comment_line post ->
    c <> Str.hash -> c <> Str.line_break ->
    contains_char Str.comma n = false ->
    get_aperture_size
      (pre ++ (String c p ++ String Str.comma (n ++ String Str.dot (zeros k))
               ++ region_end)%string :: post)
    = Return n.
Proof.
  intros pre post c p n k Hpre Hpost Hh Hn Hcomma.
  change (String c p ++ String Str.comma (n ++ String Str.dot (zeros k)) ++ region_end)%string
    with (String c (p ++ String Str.comma (n ++ String Str.dot (zeros k)) ++ region_end)).
  rewrite aperture_last_data_line by assumption.
  change (String c (p ++ String Str.comma (n ++ String Str.dot (zeros k)) ++ region_end))
    with (String c p ++ String Str.comma (n ++ String Str.dot (zeros k)) ++ region_end)%string.
  rewrite aperture_of_region_line; try assumption.
  - change (n ++ String Str.dot (zeros k))%string
      with (n ++ (String Str.dot EmptyString ++ zeros k))%string.
    rewrite <- append_assoc, rstrip_zeros, rstrip_last_other by discriminate.
    rewrite last_char_app. cbn [and_then]. rewrite Ascii.eqb_refl.
    f_equal. apply (drop_last_app n (String Str.dot EmptyString)).
  - rewrite contains_char_app, Hcomma. cbn [contains_char orb].
    change (Ascii.eqb Str.dot Str.comma) with false. apply contains_char_zeros.
Qed.

Lemma aperture_size_drops_zero_decimals_witness :
  get_aperture_size
    ["# Region file"%string;
     ("fk5;circle(12:00:00.00,+30:00:00.00" ++ String Str.comma
        ("5" ++ String Str.dot (zeros 1)) ++ region_end)%string]
  = Return "5"%string.
Proof.
  refine (aperture_size_drops_zero_decimals ["# Region file"%string] []
            "f" "k5;circle(12:00:00.00,+30:00:00.00" "5" 1 _ _ _ _ eq_refl).
  - repeat constructor; discriminate.
  - constructor.
  - discriminate.
  - discriminate.
Defined.

(** The trailing zeros of the size are removed wherever they stand, not
    only after a decimal point: a radius written 30 gives [3].  In
    general a size made of a text, a last character that is neither [0]
    nor the decimal point, and zeros, gives the text and that character. *)
Theorem aperture_size_loses_trailing_zeros :
  forall (pre post : list string) (c : ascii) (p m : string) (d : ascii) (k : nat),
    Forall (fun line => line <> EmptyString) pre ->
    Forall comment_line post ->
    c <> Str.hash -> c <> Str.line_break ->
    contains_char Str.comma m = false ->
    d <> Str.comma -> d <> Str.zero -> d <> Str.dot ->
    get_aperture_size
      (pre ++ (String c p ++ String Str.comma (m ++ String d (zeros k))
               ++ region_end)%string :: post)
    = Return (m ++ String d EmptyString)%string.
Proof.
  intros pre post c p m d k Hpre Hpost Hh Hn Hcomma Hdc Hdz Hdd.
  change (String c p ++ String Str.comma (m ++ String d (zeros k)) ++ region_end)%string
    with (String c (p ++ String Str.comma (m ++ String d (zeros k)) ++ region_end)).
  rewrite aperture_last_data_line by assumption.
  change (String c (p ++ String Str.comma (m ++ String d (zeros k)) ++ region_end))
    with (String c p ++ String Str.comma (m ++ String d (zeros k)) ++ region_end)%string.
  rewrite aperture_of_region_line; try assumption.
  - change (m ++ String d (zeros k))%string
      with (m ++ (String d EmptyString ++ zeros k))%string.
    rewrite <- append_assoc, rstrip_zeros, rstrip_last_other by assumption.
    rewrite last_char_app. cbn [and_then].
    apply Ascii.eqb_neq in Hdd. now rewrite Hdd.
  - rewrite contains_char_app, Hcomma. cbn [contains_char orb].
    apply Ascii.eqb_neq in Hdc. rewrite Hdc. apply contains_char_zeros.
Qed.

Lemma aperture_size_loses_trailing_zeros_witness :
  get_aperture_size
    [("fk5;circle(12:00:00.00,+30:00:00.00" ++ String Str.comma
        ("" ++ String "3" (zeros 1)) ++ region_end)%string]
  = Return "3"%string.
Proof.
  refine (aperture_size_loses_trailing_zeros [] [] "f"
            "k5;circle(12:00:00.00,+30:00:00.00" "" "3" 1 _ _ _ _ eq_refl _ _ _);
    try constructor; discriminate.
Defined.

(** Only the last line that is not a comment counts.  A file of comments
    alone raises [UnboundLocalError], and a size made of zeros alone raises
    [IndexError]. *)
Theorem aperture_size_of_last_region_line :
  forall (pre post : list string) (c : ascii) (rest p : string) (k : nat),
    Forall (fun line => line <> EmptyString) pre ->
    Forall comment_line post ->
    c <> Str.hash ->
    get_aperture_size (pre ++ String c rest :: post)
      = get_aperture_size [String c rest] /\
    get_aperture_size post = Raise (UnboundLocalError "size") /\
    (c <> Str.line_break ->
     get_aperture_size
       (pre ++ (String c p ++ String Str.comma (zeros k) ++ region_end)%string :: post)
     = Raise StringIndexError).
Proof.
  intros pre post c rest p k Hpre Hpost Hh. split; [| split].
  - now apply aperture_last_data_line.
  - unfold get_aperture_size. now rewrite aperture_loop_comments.
  - intros Hn.
    change (String c p ++ String Str.comma (zeros k) ++ region_end)%string
      with (String c (p ++ String Str.comma (zeros k) ++ region_end)).
    rewrite aperture_last_data_line by assumption.
    change (String c (p ++ String Str.comma (zeros k) ++ region_end))
      with (String c p ++ String Str.comma (zeros k) ++ region_end)%string.
    rewrite aperture_of_region_line; try assumption;
      [| apply contains_char_zeros].
    change (zeros k) with (EmptyString ++ zeros k)%string.
    now rewrite rstrip_zeros.
Qed.

Lemma aperture_size_of_last_region_line_witness :
  get_aperture_size ["# a comment"%string; "# another"%string]
  = Raise (UnboundLocalError "size").
Proof.
  refine (proj1 (proj2
            (aperture_size_of_last_region_line [] ["# a comment"%string; "# another"%string]
               "f" "" "" 0 _ _ _))).
  - constructor.
  - repeat constructor; eexists; reflexivity.
  - discriminate.
Defined.

(** ** Files by filter *)

Section FilesByFilter.
Variable header_FILTER : string -> outcome string.
Variable h : string -> string.

Let step (acc : outcome (Dict.t (list string))) (file : string) :=
  out_file_list <~ acc ;;
  filter <~ header_FILTER file ;;
  let out_file_list :=
    match Dict.get out_file_list filter with
    | None => Dict.set out_file_list filter []
    | Some _ => out_file_list
    end in
  match Dict.get out_file_list filter with
  | Some l => Return (Dict.set out_file_list filter (l ++ [file])%list)
  | None => Raise (DictKeyError filter)
  end.

Let grouped (d : Dict.t (list string)) (l : list string) (k : string) :=
  match filter (fun f => String.eqb (h f) k) l with
  | [] => Dict.get d k
  | fl => Some ((match Dict.get d k with Some x => x | None => [] end) ++ fl)%list
  end.

Lemma sort_file_list_loop (l : list string) :
  (forall file, In file l -> header_FILTER file = Return (h file)) ->
  forall d, exists out,
    fold_left step l (Return d) = Return out /\
    forall k, Dict.get out k = grouped d l k.
Proof.
  induction l as [| f l IH]; intros Hh d.
  - exists d. split; reflexivity.
  - cbn [fold_left]. unfold step at 2. cbn [and_then].
    rewrite (Hh f (or_introl eq_refl)). cbn [and_then].
    set (d1 := match Dict.get d (h f) with
               | None => Dict.set d (h f) []
               | Some _ => d
               end).
    set (l0 := match Dict.get d (h f) with Some x => x | None => [] end).
    assert (Hd1 : Dict.get d1 (h f) = Some l0).
    { unfold d1, l0. destruct (Dict.get d (h f)) eqn:E; [exact E |].
      apply get_set_same. }
    assert (Hother : forall k, k <> h f -> Dict.get d1 k = Dict.get d k).
    { intros k Hk. unfold d1. destruct (Dict.get d (h f)); [reflexivity |].
      apply get_set_other. congruence. }
    rewrite Hd1.
    destruct (IH (fun file Hin => Hh file (or_intror Hin))
                (Dict.set d1 (h f) (l0 ++ [f])%list)) as (out & Hout & Hget).
    exists out. split; [exact Hout |].
    intros k. rewrite Hget. unfold grouped. cbn [filter].
    destruct (String.eqb_spec (h f) k) as [<- | Hk].
    + rewrite get_set_same. fold l0.
      destruct (filter (fun f0 => String.eqb (h f0) (h f)) l);
        [reflexivity | now rewrite <- app_assoc].
    + rewrite get_set_other by assumption.
      now rewrite Hother by congruence.
Qed.

Lemma sort_file_list_failure (ok_files rest : list string) (bad : string)
    (e : exception) :
  (forall file, In file ok_files -> header_FILTER file = Return (h file)) ->
  header_FILTER bad = Raise e ->
  fold_left step (ok_files ++ bad :: rest) (Return []) = Raise e.
Proof.
  intros Hok Hbad. rewrite fold_left_app.
  destruct (sort_file_list_loop ok_files Hok []) as (out & Hout & _).
  unfold Dict.t in *. rewrite Hout. cbn [fold_left]. unfold step at 2. cbn [and_then].
  rewrite Hbad. cbn [and_then].
  clear. induction rest as [| f rest IH]; [reflexivity | exact IH].
Qed.
End FilesByFilter.

(** [sort_file_list] files every path under the filter of its header: the
    list found under a filter is the list of the files of that filter, in
    the order of the input, and a filter without a file is not a key.  When
    a header cannot be read, the error of the first such file is raised. *)
Theorem sort_file_list_groups :
  forall (header_FILTER : string -> outcome string) (h : string -> string)
         (_flist rest : list string) (bad : string) (e : exception),
    (forall file, In file _flist -> header_FILTER file = Return (h file)) ->
    (exists out,
        sort_file_list header_FILTER _flist = Return out /\
        forall k,
          Dict.get out k
          = match filter (fun file => String.eqb (h file) k) _flist with
            | [] => None
            | files => Some files
            end) /\
    (header_FILTER bad = Raise e ->
     sort_file_list header_FILTER (_flist ++ bad :: rest) = Raise e).
Proof.
  intros header_FILTER h _flist rest bad e Hh. split.
  - destruct (sort_file_list_loop header_FILTER h _flist Hh []) as (out & Hout & Hget).
    exists out. split; [exact Hout |].
    intros k. rewrite Hget. cbn [Dict.get].
    now destruct (filter (fun f => String.eqb (h f) k) _flist).
  - intros Hbad. now apply (sort_file_list_failure header_FILTER h).
Qed.

Lemma sort_file_list_groups_witness :
  exists out,
    sort_file_list (fun file => Return (String.substring 0 1 file))
      ["b1"; "v1"; "b2"]%string = Return out /\
    forall k,
      Dict.get out k
      = match filter (fun file => String.eqb (String.substring 0 1 file) k)
                ["b1"; "v1"; "b2"]%string with
        | [] => None
        | files => Some files
        end.
Proof.
  refine (proj1 (sort_file_list_groups
                   (fun file => Return (String.substring 0 1 file))
                   (String.substring 0 1) ["b1"; "v1"; "b2"]%string [] ""
                   FilterError _)).
  intros file _. reflexivity.
Defined.

(** * The exposure summary *)

Lemma template_totals_loop (f : string) (td : list frame) :
  forall d : Dict.t npfloat,
    Dict.get
      (fold_left
         (fun templates t =>
            let filt := frame_filter t in
            match Dict.get templates filt with
            | Some total => Dict.set templates filt (total + frame_exptime t)%np
            | None => Dict.set templates filt (frame_exptime t)
            end)
         td d) f
    = match Dict.get d f, frames_of f td with
      | Some a, ts => Some (fold_left Np.add (map frame_exptime ts) a)
      | None, [] => None
      | None, t :: ts => Some (fold_left Np.add (map frame_exptime ts) (frame_exptime t))
      end.
Proof.
  induction td as [| t td IH]; intros d.
  - cbn. now destruct (Dict.get d f).
  - cbn [fold_left]. rewrite IH. unfold frames_of. cbn [filter].
    destruct (String.eqb_spec (frame_filter t) f) as [<- | Hne].
    + destruct (Dict.get d (frame_filter t)) as [a |] eqn:E;
        rewrite get_set_same; reflexivity.
    + destruct (Dict.get d (frame_filter t)) as [a |] eqn:E;
        rewrite get_set_other by assumption; reflexivity.
Qed.

(** The exposure of the templates of a filter is the sum of the exposures
    of the template frames of that filter, and 0 when there is none. *)
Theorem template_exposure_is_the_sum :
  forall (template_data : list frame) (x : frame -> R) (filt : string),
    (forall t, In t template_data -> frame_exptime t = Fin (x t)) ->
    template_exptime (template_totals template_data) filt
    = Fin (Rsum x (frames_of filt template_data)).
Proof.
  intros td x f Hx. unfold template_exptime, template_totals.
  rewrite template_totals_loop. cbn [Dict.get].
  assert (Hin : forall t, In t (frames_of f td) -> frame_exptime t = Fin (x t)).
  { intros t Ht. apply Hx. unfold frames_of in Ht. now apply filter_In in Ht. }
  destruct (frames_of f td) as [| t ts].
  - cbn. f_equal. lra.
  - rewrite (Hin t (or_introl eq_refl)).
    rewrite (sum_map_fin frame_exptime x ts (x t))
      by (intros a Ha; apply Hin; now right).
    reflexivity.
Qed.

Lemma template_exposure_is_the_sum_witness :
  template_exptime
    (template_totals
       [{| frame_filter := "B"; frame_exptime := Fin 100; frame_mjd := Fin 1 |};
        {| frame_filter := "V"; frame_exptime := Fin 50; frame_mjd := Fin 2 |};
        {| frame_filter := "B"; frame_exptime := Fin 30; frame_mjd := Fin 3 |}])
    "B"
  = Fin (Rsum (fun t => match frame_exptime t with Fin e => e | _ => 0 end)
           (frames_of "B"
              [{| frame_filter := "B"; frame_exptime := Fin 100; frame_mjd := Fin 1 |};
               {| frame_filter := "V"; frame_exptime := Fin 50; frame_mjd := Fin 2 |};
               {| frame_filter := "B"; frame_exptime := Fin 30; frame_mjd := Fin 3 |}])).
Proof.
  refine (template_exposure_is_the_sum _
            (fun t => match frame_exptime t with Fin e => e | _ => 0 end) "B" _).
  intros t [<- | [<- | [<- | []]]]; reflexivity.
Defined.

Lemma float_eq_fin (x y : R) : float_eq (Fin x) (Fin y) = true <-> x = y.
Proof.
  unfold float_eq. destruct (Req_dec_T x y); split; intros; auto; discriminate.
Qed.

Lemma float_eq_fin_false (x y : R) : x <> y -> float_eq (Fin x) (Fin y) = false.
Proof.
  intros H. unfold float_eq. destruct (Req_dec_T x y); [contradiction | reflexivity].
Qed.

Lemma float_div_fin (T e : R) : e <> 0 -> float_div (Fin T) (Fin e) = Return (Fin (T / e)).
Proof.
  intros He. unfold float_div. rewrite float_eq_fin_false by assumption.
  now rewrite div_fin.
Qed.

Lemma summary_step_own (td : list frame) (printed : list (list cell))
    (msg : option string) (sci : frame) (e T : R) :
  exposed td sci e T -> T / e <> 1 ->
  summary_step (template_totals td) (printed, msg, Return tt) sci
  = ((printed ++ [summary_line sci e T (own_message (T / e))])%list,
     Some (own_message (T / e)), Return tt).
Proof.
  intros (He & Hnz & HT) Hr. unfold summary_step.
  rewrite HT, He, float_div_fin by assumption.
  unfold own_message, summary_line.
  destruct (Req_dec_T (T / e) 0) as [H0 | H0].
  - assert (E : float_eq (Fin (T / e)) (Fin 0.0) = true) by (apply float_eq_fin; lra).
    now rewrite E.
  - rewrite float_eq_fin_false by lra.
    destruct (Rlt_dec (T / e) 1) as [H1 | H1].
    + now rewrite lt_fin_true by lra.
    + rewrite lt_fin_false by lra. now rewrite lt_fin_true by lra.
Qed.

Lemma summary_step_match (td : list frame) (printed : list (list cell))
    (msg : option string) (sci : frame) (e T : R) :
  exposed td sci e T -> T / e = 1 ->
  summary_step (template_totals td) (printed, msg, Return tt) sci
  = match msg with
    | None => (printed, None, Raise (UnboundLocalError "template_msg"))
    | Some m => ((printed ++ [summary_line sci e T m])%list, Some m, Return tt)
    end.
Proof.
  intros (He & Hnz & HT) Hr. unfold summary_step.
  rewrite HT, He, float_div_fin by assumption.
  rewrite float_eq_fin_false by lra.
  rewrite !lt_fin_false by lra.
  now destruct msg.
Qed.

Lemma summary_step_zero (td : list frame) (printed : list (list cell))
    (msg : option string) (sci : frame) :
  frame_exptime sci = Fin 0 ->
  summary_step (template_totals td) (printed, msg, Return tt) sci
  = (printed, msg, Raise ZeroDivisionError).
Proof.
  intros He. unfold summary_step, float_div. rewrite He.
  assert (E : float_eq (Fin 0) (Fin 0) = true) by now apply float_eq_fin.
  now rewrite E.
Qed.

Lemma summary_raised (td : list frame) (rest : list frame)
    (printed : list (list cell)) (msg : option string) (e : exception) :
  fold_left (summary_step (template_totals td)) rest (printed, msg, Raise e)
  = (printed, msg, Raise e).
Proof. induction rest as [| s rest IH]; [reflexivity | exact IH]. Qed.

Lemma summary_loop_own (td : list frame) (e T : frame -> R) (pre : list frame) :
  (forall s, In s pre -> exposed td s (e s) (T s) /\ T s / e s <> 1) ->
  forall printed msg,
    fold_left (summary_step (template_totals td)) pre (printed, msg, Return tt)
    = ((printed
        ++ map (fun s => summary_line s (e s) (T s) (own_message (T s / e s))) pre)%list,
       fold_left (fun _ s => Some (own_message (T s / e s))) pre msg,
       Return tt).
Proof.
  induction pre as [| s pre IH]; intros H printed msg.
  - cbn. now rewrite app_nil_r.
  - cbn [fold_left map].
    destruct (H s (or_introl eq_refl)) as [Hs Hr].
    rewrite (summary_step_own td printed msg s (e s) (T s) Hs Hr).
    rewrite IH by (intros; apply H; now right).
    now rewrite <- app_assoc.
Qed.

Lemma summary_prefix (td : list frame) (rest : list frame) :
  forall (st : summary_state),
  exists more msg status,
    fold_left (summary_step (template_totals td)) rest st
    = ((fst (fst st) ++ more)%list, msg, status).
Proof.
  induction rest as [| s rest IH]; intros [[printed msg] status].
  - exists [], msg, status. cbn. now rewrite app_nil_r.
  - cbn [fold_left].
    assert (Hstep : exists more' msg' status',
               summary_step (template_totals td) (printed, msg, status) s
               = ((printed ++ more')%list, msg', status')).
    { unfold summary_step. destruct status as [[] | ex].
      - destruct (float_div _ _) as [fr | ex].
        + match goal with
          | |- context [match ?m with Some _ => _ | None => _ end] => destruct m
          end.
          * do 3 eexists. reflexivity.
          * exists [], None. eexists. now rewrite app_nil_r.
        + exists [], msg. eexists. now rewrite app_nil_r.
      - exists [], msg. eexists. now rewrite app_nil_r. }
    destruct Hstep as (more' & msg' & status' & ->).
    destruct (IH ((printed ++ more')%list, msg', status')) as (more & m & st & ->).
    cbn [fst]. exists (more' ++ more)%list, m, st. now rewrite app_assoc.
Qed.

Lemma insert_sorted_perm {A : Type} (kx : npfloat * A) (l : list (npfloat * A)) :
  Permutation (insert_sorted kx l) (kx :: l).
Proof.
  induction l as [| ky l IH]; simpl; [reflexivity |].
  destruct (Np.lt (fst ky) (fst kx)); [| reflexivity].
  rewrite IH. apply perm_swap.
Qed.

Lemma in_mjd_order_perm (science_data : list frame) :
  Permutation (in_mjd_order science_data) science_data.
Proof.
  unfold in_mjd_order.
  assert (H : Permutation
                (sort_keyed (combine (map frame_mjd science_data) science_data))
                (combine (map frame_mjd science_data) science_data)).
  { generalize (combine (map frame_mjd science_data) science_data). intros l.
    induction l as [| kx l IH]; [reflexivity |].
    unfold sort_keyed in *. cbn [fold_right].
    rewrite insert_sorted_perm. now constructor. }
  rewrite H. clear H.
  induction science_data as [| s l IH]; [reflexivity |].
  cbn [map combine snd]. now constructor.
Qed.

(** When every science frame has a finite exposure other than 0 and a
    ratio of template to science exposure other than 1, the summary has
    one line per science frame, in the stable order of [mjd], and ends
    normally.  The message of a line depends on its own ratio only: [NO
    TEMPLATE] for 0, [SHALLOW TEMPLATE] below 1, [GOOD TEMPLATE] above. *)
Theorem exposure_summary_lines :
  forall (science_data template_data : list frame) (e T : frame -> R),
    (forall s, In s science_data ->
               exposed template_data s (e s) (T s) /\ T s / e s <> 1) ->
    exposure_summary science_data template_data
    = (map (fun s => summary_line s (e s) (T s) (own_message (T s / e s)))
         (in_mjd_order science_data),
       Return tt) /\
    Permutation (in_mjd_order science_data) science_data.
Proof.
  intros sd td e T H. split; [| apply in_mjd_order_perm].
  unfold exposure_summary. fold (in_mjd_order sd).
  rewrite (summary_loop_own td e T).
  - reflexivity.
  - intros s Hs. apply H.
    apply (Permutation_in s (in_mjd_order_perm sd) Hs).
Qed.

Lemma exposure_summary_lines_witness :
  exposure_summary
    [{| frame_filter := "B"; frame_exptime := Fin 100; frame_mjd := Fin 5 |}]
    [{| frame_filter := "B"; frame_exptime := Fin 300; frame_mjd := Fin 1 |}]
  = (map (fun s => summary_line s 100 300 (own_message (300 / 100)))
       (in_mjd_order
          [{| frame_filter := "B"; frame_exptime := Fin 100; frame_mjd := Fin 5 |}]),
     Return tt).
Proof.
  refine (proj1 (exposure_summary_lines
                   [{| frame_filter := "B"; frame_exptime := Fin 100;
                       frame_mjd := Fin 5 |}]
                   [{| frame_filter := "B"; frame_exptime := Fin 300;
                       frame_mjd := Fin 1 |}]
                   (fun _ => 100) (fun _ => 300) _)).
  intros s [<- | []]. repeat split; [lra | lra].
Defined.

(** A science frame whose templates add up to exactly its own exposure
    gets no message of its own.  When it is the first frame in the order
    of [mjd], the block raises [UnboundLocalError] before printing
    anything; after other frames, its line repeats the message of the line
    before it. *)
Theorem exposure_summary_exact_match :
  forall (science_data template_data : list frame) (e T : frame -> R)
         (pre rest : list frame) (cur : frame),
    in_mjd_order science_data = (pre ++ cur :: rest)%list ->
    (forall s, In s pre -> exposed template_data s (e s) (T s) /\ T s / e s <> 1) ->
    exposed template_data cur (e cur) (T cur) ->
    T cur / e cur = 1 ->
    (pre = [] ->
     exposure_summary science_data template_data
     = ([], Raise (UnboundLocalError "template_msg"))) /\
    (forall pre' prev,
        pre = (pre' ++ [prev])%list ->
        exists more,
          fst (exposure_summary science_data template_data)
          = (map (fun s => summary_line s (e s) (T s) (own_message (T s / e s))) pre
             ++ summary_line cur (e cur) (T cur) (own_message (T prev / e prev))
             :: more)%list).
Proof.
  intros sd td e T pre rest cur Hsd Hpre Hcur Hr. split.
  - intros ->. unfold exposure_summary. fold (in_mjd_order sd). rewrite Hsd.
    cbn [app fold_left].
    rewrite (summary_step_match td [] None cur (e cur) (T cur) Hcur Hr).
    now rewrite summary_raised.
  - intros pre' prev ->. unfold exposure_summary. fold (in_mjd_order sd).
    rewrite Hsd, fold_left_app, (summary_loop_own td e T) by assumption.
    cbn [fold_left app]. rewrite fold_left_app. cbn [fold_left].
    rewrite (summary_step_match td _ _ cur (e cur) (T cur) Hcur Hr).
    match goal with
    | |- context [fold_left ?f rest ?st] =>
        destruct (summary_prefix td rest st) as (more & m & status & ->)
    end.
    cbn [fst]. exists more. now rewrite <- app_assoc.
Qed.

Lemma exposure_summary_exact_match_witness :
  exposure_summary
    [{| frame_filter := "B"; frame_exptime := Fin 100; frame_mjd := Fin 5 |}]
    [{| frame_filter := "B"; frame_exptime := Fin 100; frame_mjd := Fin 1 |}]
  = ([], Raise (UnboundLocalError "template_msg")).
Proof.
  refine (proj1 (exposure_summary_exact_match
                   [{| frame_filter := "B"; frame_exptime := Fin 100;
                       frame_mjd := Fin 5 |}]
                   [{| frame_filter := "B"; frame_exptime := Fin 100;
                       frame_mjd := Fin 1 |}]
                   (fun _ => 100) (fun _ => 100) [] []
                   {| frame_filter := "B"; frame_exptime := Fin 100;
                      frame_mjd := Fin 5 |} eq_refl _ _ _) eq_refl).
  - intros s [].
  - repeat split. lra.
  - lra.
Defined.

(** A science frame with the exposure 0 stops the summary with
    [ZeroDivisionError]: the lines of the frames before it are printed,
    its own line and those of the later frames are not. *)
Theorem exposure_summary_zero_exposure :
  forall (science_data template_data : list frame) (e T : frame -> R)
         (pre rest : list frame) (cur : frame),
    in_mjd_order science_data = (pre ++ cur :: rest)%list ->
    (forall s, In s pre -> exposed template_data s (e s) (T s) /\ T s / e s <> 1) ->
    frame_exptime cur = Fin 0 ->
    exposure_summary science_data template_data
    = (map (fun s => summary_line s (e s) (T s) (own_message (T s / e s))) pre,
       Raise ZeroDivisionError).
Proof.
  intros sd td e T pre rest cur Hsd Hpre Hcur.
  unfold exposure_summary. fold (in_mjd_order sd).
  rewrite Hsd, fold_left_app, (summary_loop_own td e T) by assumption.
  cbn [fold_left app]. rewrite summary_step_zero by assumption.
  now rewrite summary_raised.
Qed.

Lemma exposure_summary_zero_exposure_witness :
  exposure_summary
    [{| frame_filter := "B"; frame_exptime := Fin 0; frame_mjd := Fin 5 |}] []
  = ([], Raise ZeroDivisionError).
Proof.
  refine (exposure_summary_zero_exposure
            [{| frame_filter := "B"; frame_exptime := Fin 0; frame_mjd := Fin 5 |}]
            [] (fun _ => 1) (fun _ => 0) [] []
            {| frame_filter := "B"; frame_exptime := Fin 0; frame_mjd := Fin 5 |}
            eq_refl _ eq_refl).
  intros s [].
Defined.
